(** * OpenVPN multi-client core: a shallow embedding of selected routines

    The development follows the C sources file by file:

    - [Libc]      the few libc/OpenVPN primitives the routines rely on
                  (fixed-width integers, [memcmp], the outcome of a call);
    - [Crc32]     crc32.c;
    - [SessionId] session_id.h;
    - [Mroute]    mroute.h;
    - [Multi]     multi.h;
    - [Helper]    helper.c.

    C integers are kept as [Z] with the wrap-around of their width written
    out; structs are records; the heap of [multi_instance] and [multi_route]
    objects is a pair of finite maps from addresses. *)

From Stdlib Require Import ZArith List Lia Bool.
From stdpp Require Import gmap strings list pretty.

Open Scope Z_scope.

(* ===================================================================== *)
(** ** Libc: integers, outcomes, memcmp                                   *)
(* ===================================================================== *)

Module Libc.

(** [int] is 32 bits wide on every platform OpenVPN builds for. *)
Definition INT_MIN : Z := - 2 ^ 31.
Definition INT_MAX : Z := 2 ^ 31 - 1.

(** Two's-complement wrap-around of a mathematical result into [int].
    (ISO C leaves signed overflow undefined; this is what the supported
    compilers produce for [+], [-] and [*].) *)
Definition wrap_int (z : Z) : Z := (z + 2 ^ 31) mod 2 ^ 32 - 2 ^ 31.

(** Wrap-around into [uint32_t] / [in_addr_t] / [unsigned int]. *)
Definition wrap_u32 (z : Z) : Z := z mod 2 ^ 32.

(** [time_t] is taken as a signed 64-bit count of seconds. *)
Definition TIME_MIN : Z := - 2 ^ 63.
Definition TIME_MAX : Z := 2 ^ 63 - 1.
Definition wrap_time (z : Z) : Z := (z + 2 ^ 63) mod 2 ^ 64 - 2 ^ 63.

Definition in_int (z : Z) : Prop := INT_MIN <= z <= INT_MAX.
Definition in_time (z : Z) : Prop := TIME_MIN <= z <= TIME_MAX.

(** Bitwise complement of a 32-bit unsigned value. *)
Definition lnot_u32 (z : Z) : Z := Z.lxor z (2 ^ 32 - 1).

(** C truth value of an integer expression. *)
Definition truthy (z : Z) : bool := negb (z =? 0).

(** Outcome of a call that may stop the program.

    Modelled from the spec: error.h ([msg], [M_USAGE], [ASSERT]) is not
    among the sources.  Section 7 of the specification has configuration
    errors "fail fast at startup with a human-readable single-line error":
    [msg (M_USAGE, ...)] prints its message and exits, so nothing after it
    runs; a failed [ASSERT] aborts.  [Fault] stands for an access outside
    an object (a null or dangling pointer, a read past a buffer). *)
Inductive outcome (A : Type) : Type :=
| Ok (a : A)
| UsageError (message : string)
| AssertFail
| Fault.
Arguments Ok {A} a.
Arguments UsageError {A} message.
Arguments AssertFail {A}.
Arguments Fault {A}.

#[global] Instance outcome_bind : MBind outcome := fun A B k c =>
  match c with
  | Ok a => k a
  | UsageError s => UsageError s
  | AssertFail => AssertFail
  | Fault => Fault
  end.

(** [if (cond) msg (M_USAGE, message);] *)
Definition usage_if (cond : bool) (message : string) : outcome unit :=
  if cond then UsageError message else Ok tt.

(** [ASSERT (cond);] *)
Definition ASSERT (cond : bool) : outcome unit :=
  if cond then Ok tt else AssertFail.

(** Lexicographic comparison of two byte strings of equal length: the
    difference of the first pair of bytes that differ, or [0]. *)
Fixpoint bytes_cmp (s1 s2 : list Z) : Z :=
  match s1, s2 with
  | b1 :: t1, b2 :: t2 => if b1 =? b2 then bytes_cmp t1 t2 else b1 - b2
  | _, _ => 0
  end.

(** [memcmp (s1, s2, n)] on two objects given by their bytes.  Comparing
    more bytes than either object holds is an access outside it. *)
Definition memcmp (s1 s2 : list Z) (n : Z) : outcome Z :=
  if (0 <=? n) && (n <=? Z.of_nat (length s1)) && (n <=? Z.of_nat (length s2))
  then Ok (bytes_cmp (take (Z.to_nat n) s1) (take (Z.to_nat n) s2))
  else Fault.

End Libc.

(* ===================================================================== *)
(** ** crc32.c                                                            *)
(* ===================================================================== *)

Module Crc32.
Import Libc.

(** The two statics of crc32.c. *)
Record crc_state : Type := {
  crc_table_empty : Z;          (* static volatile int crc_table_empty = 1 *)
  crc_table : list Z            (* static unsigned long crc_table[256]     *)
}.

Definition initial_state : crc_state :=
  {| crc_table_empty := 1; crc_table := replicate 256 0 |}.

(** Terms of the polynomial defining this crc (except x^32). *)
Definition p : list Z := [0; 1; 2; 4; 5; 7; 8; 10; 11; 12; 16; 22; 23; 26].

(** [for (n = 0; n < sizeof(p); n++) poly |= 1UL << (31 - p[n]);] *)
Definition poly : Z :=
  fold_left (fun poly pn => Z.lor poly (Z.shiftl 1 (31 - pn))) p 0.

(** [for (k = 0; k < 8; k++) c = c & 1 ? poly ^ (c >> 1) : c >> 1;] *)
Definition crc_entry (n : Z) : Z :=
  Nat.iter 8
    (fun c => if truthy (Z.land c 1) then Z.lxor poly (Z.shiftr c 1)
              else Z.shiftr c 1)
    n.

Definition make_crc_table (st : crc_state) : crc_state :=
  {| crc_table_empty := 0;
     crc_table := map (fun n => crc_entry (Z.of_nat n)) (seq 0 256) |}.

(** [#define DO1 crc = crc_table[((int)crc ^ *buf++) & 0xff] ^ (crc >> 8)]:
    one step on the pair of the running crc and the unread bytes. *)
Definition DO1 (tbl : list Z) (s : Z * list Z) : outcome (Z * list Z) :=
  match s with
  | (crc, b :: rest) =>
      match tbl !! Z.to_nat (Z.land (Z.lxor crc b) 255) with
      | Some e => Ok (Z.lxor e (Z.shiftr crc 8), rest)
      | None => Fault
      end
  | (_, []) => Fault
  end.

(** [n] consecutive [DO1]. *)
Fixpoint DOn (n : nat) (tbl : list Z) (s : Z * list Z) : outcome (Z * list Z) :=
  match n with
  | O => Ok s
  | S n' => s' ← DO1 tbl s; DOn n' tbl s'
  end.

Definition DO8 := DOn 8.

(** [while (len >= 8) { DO8; len -= 8; }] runs [len / 8] times. *)
Fixpoint while_ge8 (iterations : nat) (tbl : list Z) (s : Z * list Z)
  : outcome (Z * list Z) :=
  match iterations with
  | O => Ok s
  | S k => s' ← DO8 tbl s; while_ge8 k tbl s'
  end.

(** [unsigned long crc32 (unsigned long crc, const unsigned char *buf,
    unsigned len)].  A null [buf] is [None]; the result comes with the
    statics as the call leaves them. *)
Definition crc32 (st : crc_state) (crc : Z) (buf : option (list Z)) (len : Z)
  : outcome Z * crc_state :=
  match buf with
  | None => (Ok 0, st)
  | Some bytes =>
      let st := if truthy (crc_table_empty st) then make_crc_table st else st in
      let crc := Z.lxor crc 0xffffffff in
      (s ← while_ge8 (Z.to_nat (len / 8)) (crc_table st) (crc, bytes);
       (* if (len) do { DO1; } while (--len); on the remaining len mod 8 *)
       s ← DOn (Z.to_nat (len mod 8)) (crc_table st) s;
       Ok (Z.lxor (fst s) 0xffffffff),
       st)
  end.

End Crc32.

(* ===================================================================== *)
(** ** session_id.h                                                       *)
(* ===================================================================== *)

Module SessionId.
Import Libc.

(** [struct session_id { unsigned char id[8]; };] *)
Record session_id : Type := { id : list Z }.

Definition sizeof_session_id : Z := 8.

(** The object really is eight bytes long. *)
Definition wf_session_id (sid : session_id) : Prop :=
  Z.of_nat (length (id sid)) = sizeof_session_id.

(** Modelled from the spec: session_id.c, which defines the constant
    declared [extern] in the header, is not among the sources.  The
    specification's design notes call it the value a defined session id
    is compared to, the all-zero id ("detect a non-zero session id"). *)
Definition _session_id_zero : session_id := {| id := replicate 8 0 |}.

(** [return !memcmp (sid1, sid2, sizeof (struct session_id));] *)
Definition session_id_equal (sid1 sid2 : session_id) : outcome bool :=
  r ← memcmp (id sid1) (id sid2) sizeof_session_id;
  Ok (negb (truthy r)).

(** [return memcmp (sid1, &_session_id_zero,
                    sizeof (struct session_id) != 0);]
    The third argument is the value of the comparison, [0] or [1]. *)
Definition session_id_defined (sid1 : session_id) : outcome bool :=
  r ← memcmp (id sid1) (id _session_id_zero)
             (Z.b2z (negb (sizeof_session_id =? 0)));
  Ok (truthy r).

End SessionId.

(* ===================================================================== *)
(** ** mroute.h                                                           *)
(* ===================================================================== *)

Module Mroute.
Import Libc.

Definition MR_MAX_ADDR_LEN : Z := 20.

Definition MR_ADDR_NONE : Z := 0.
Definition MR_ADDR_ETHER : Z := 1.
Definition MR_ADDR_IPV4 : Z := 2.
Definition MR_ADDR_IPV6 : Z := 3.
Definition MR_ADDR_UNIX : Z := 4.
Definition MR_ADDR_MASK : Z := 7.
Definition MR_WITH_PORT : Z := 8.
Definition MR_WITH_NETBITS : Z := 16.

(** [struct mroute_addr]: four [uint8_t] fields, then the address bytes. *)
Record mroute_addr : Type := {
  len : Z;                (* length of address *)
  unused : Z;
  type : Z;               (* MR_ADDR/MR_WITH flags *)
  netbits : Z;            (* number of bits in network part of address *)
  addr : list Z           (* uint8_t addr[MR_MAX_ADDR_LEN] *)
}.

(** What the C type guarantees ([addr] has [MR_MAX_ADDR_LEN] bytes, [len]
    is a [uint8_t]) together with what every producer of addresses
    maintains: [len] counts bytes of [addr]. *)
Definition wf_mroute_addr (a : mroute_addr) : Prop :=
  Z.of_nat (length (addr a)) = MR_MAX_ADDR_LEN /\
  0 <= len a <= MR_MAX_ADDR_LEN.

(** The object as it lies in memory, in declaration order. *)
Definition mroute_addr_bytes (a : mroute_addr) : list Z :=
  [len a; unused a; type a; netbits a] ++ addr a.

Definition offsetof_type : nat := 2.

(** [struct mroute_helper] *)
Record mroute_helper : Type := {
  cache_generation : Z;        (* unsigned int, incremented when route added *)
  ageable_ttl_secs : Z;        (* int, host route cache entry time-to-live *)
  n_net_len : Z;               (* length of net_len array *)
  net_len : list Z;            (* CIDR netlengths in descending order *)
  net_len_refcount : list Z    (* refcount of each netlength *)
}.

Definition mroute_addr_equal (a1 a2 : mroute_addr) : outcome bool :=
  if negb (type a1 =? type a2) then Ok false
  else if negb (netbits a1 =? netbits a2) then Ok false
  else if negb (len a1 =? len a2) then Ok false
  else r ← memcmp (addr a1) (addr a2) (len a1); Ok (r =? 0).

(** [return (uint8_t * ) &a->type;]  The pointer is kept as the bytes of
    the object from that member on (NOTE in the source: depends on the
    ordering of [struct mroute_addr]). *)
Definition mroute_addr_hash_ptr (a : mroute_addr) : list Z :=
  drop offsetof_type (mroute_addr_bytes a).

(** [return (uint32_t) a->len + 2;] *)
Definition mroute_addr_hash_len (a : mroute_addr) : Z :=
  wrap_u32 (wrap_u32 (len a) + 2).

(** The [n] bytes at a pointer into an object; reading past its end is an
    access outside it. *)
Definition read_bytes (p : list Z) (n : Z) : outcome (list Z) :=
  if (0 <=? n) && (n <=? Z.of_nat (length p)) then Ok (take (Z.to_nat n) p)
  else Fault.

(** The region of an address that is hashed. *)
Definition mroute_addr_hash_region (a : mroute_addr) : outcome (list Z) :=
  read_bytes (mroute_addr_hash_ptr a) (mroute_addr_hash_len a).

Section Hash.
(** [uint32_t hash_func (const uint8_t *k, uint32_t length,
    uint32_t initval)] of list.c, not among the sources: any function of
    the [length] bytes at [k] and of [initval]. *)
Variable hash_func : list Z -> Z -> Z.

(** Modelled from the spec: mroute.c, which defines the function declared
    in mroute.h, is not among the sources.  Section 3: "Hashing uses only
    the bytes starting at the kind field through len bytes of payload";
    section 4.1: "hash(k, seed): Jenkins-style mix over the
    [kind..kind+len+2] region".  So the function hashes the
    [mroute_addr_hash_len] bytes at [mroute_addr_hash_ptr] with [iv]. *)
Definition mroute_addr_hash_function (key : mroute_addr) (iv : Z) : outcome Z :=
  region ← mroute_addr_hash_region key;
  Ok (hash_func region iv).
End Hash.

(** What "the same address" means for two keys: the same kind, the same
    netbits, the same length and the same first [len] bytes. *)
Definition same_key (a1 a2 : mroute_addr) : Prop :=
  type a1 = type a2 /\ netbits a1 = netbits a2 /\ len a1 = len a2 /\
  take (Z.to_nat (len a1)) (addr a1) = take (Z.to_nat (len a1)) (addr a2).

(** [mroute_extract_in_addr_t]: [*(in_addr_t* )dest->addr = htonl (src)]
    stores the four bytes of [src], most significant first. *)
Definition htonl_bytes (src : Z) : list Z :=
  [Z.land (Z.shiftr src 24) 255; Z.land (Z.shiftr src 16) 255;
   Z.land (Z.shiftr src 8) 255; Z.land src 255].

Definition mroute_extract_in_addr_t (dest : mroute_addr) (src : Z) : mroute_addr :=
  {| len := 4; unused := unused dest; type := MR_ADDR_IPV4; netbits := 0;
     addr := htonl_bytes src ++ drop 4 (addr dest) |}.

End Mroute.

(* ===================================================================== *)
(** ** multi.h                                                            *)
(* ===================================================================== *)

Module Multi.
Import Libc.

(** A pointer is an address or [NULL]. *)
Definition ptr : Type := option Z.
Abbreviation NULL := (@None Z).

(** [struct timeval] *)
Record timeval : Type := { tv_sec : Z; tv_usec : Z }.

(** [struct multi_instance], one per client.  The members that are
    objects of other modules (gc arena, context, pool handle, deferred
    output queue) take no part in the routines below and are left out. *)
Record multi_instance : Type := {
  defined : bool;
  halt : bool;
  refcount : Z;                       (* int *)
  created : Z;                        (* time_t *)
  wakeup : timeval;                   (* absolute time *)
  real : Mroute.mroute_addr;
  did_open_context : bool;
  did_real_hash : bool;
  did_iter : bool;
  connection_established_flag : bool;
  did_iroutes : bool
}.

Definition set_refcount (v : Z) (mi : multi_instance) : multi_instance :=
  {| defined := defined mi; halt := halt mi; refcount := v;
     created := created mi; wakeup := wakeup mi; real := real mi;
     did_open_context := did_open_context mi;
     did_real_hash := did_real_hash mi; did_iter := did_iter mi;
     connection_established_flag := connection_established_flag mi;
     did_iroutes := did_iroutes mi |}.

Definition MULTI_ROUTE_CACHE : Z := Z.shiftl 1 8.
Definition MULTI_ROUTE_AGEABLE : Z := Z.shiftl 1 9.
Definition MULTI_ROUTE_MASK : Z := Z.lor MULTI_ROUTE_CACHE MULTI_ROUTE_AGEABLE.
Definition MULTI_LOOKUP_CACHE : Z := Z.shiftl 1 10.

(** [struct multi_route], a host route. *)
Record multi_route : Type := {
  addr : Mroute.mroute_addr;
  instance : ptr;                     (* struct multi_instance * *)
  flags : Z;                          (* unsigned int *)
  cache_generation : Z;               (* unsigned int *)
  last_reference : Z                  (* time_t *)
}.

(** Modelled from the spec: schedule.h is not among the sources.  Section
    4.2: the schedule is a priority queue "keyed on absolute wakeup time;
    tie-broken by insertion order", whose "earliest() returns
    Option<(entry, deadline)>"; the entry is stored inside the instance
    (its first member), so a pointer to an entry is a pointer to its
    instance.  The queue is kept as its entries in insertion order. *)
Definition schedule : Type := list (Z * timeval).

Definition tv_lt (t1 t2 : timeval) : bool :=
  (tv_sec t1 <? tv_sec t2) ||
  ((tv_sec t1 =? tv_sec t2) && (tv_usec t1 <? tv_usec t2)).

Fixpoint schedule_get_earliest_wakeup (s : schedule) : option (Z * timeval) :=
  match s with
  | [] => None
  | e :: s' =>
      match schedule_get_earliest_wakeup s' with
      | Some e' => if tv_lt (snd e') (snd e) then Some e' else Some e
      | None => Some e
      end
  end.

(** [struct multi_context], one per server daemon thread: the members the
    inline routines of multi.h read or write.  [route_helper] is allocated
    by [multi_init] and never null afterwards; it is kept by value. *)
Record multi_context : Type := {
  sched : schedule;                   (* struct schedule *schedule *)
  route_helper : Mroute.mroute_helper;
  enable_c2c : bool;
  max_clients : Z;
  tcp_queue_limit : Z;
  per_second_trigger : Z;             (* time_t *)
  pending : ptr;
  earliest_wakeup : ptr
}.

Definition set_earliest_wakeup (v : ptr) (m : multi_context) : multi_context :=
  {| sched := sched m; route_helper := route_helper m;
     enable_c2c := enable_c2c m; max_clients := max_clients m;
     tcp_queue_limit := tcp_queue_limit m;
     per_second_trigger := per_second_trigger m;
     pending := pending m; earliest_wakeup := v |}.

Definition set_pending (v : ptr) (m : multi_context) : multi_context :=
  {| sched := sched m; route_helper := route_helper m;
     enable_c2c := enable_c2c m; max_clients := max_clients m;
     tcp_queue_limit := tcp_queue_limit m;
     per_second_trigger := per_second_trigger m;
     pending := v; earliest_wakeup := earliest_wakeup m |}.

(** The allocated [multi_instance] and [multi_route] objects.  Routes
    refer to instances by address, so several routes share one instance
    and see each other's updates of its [refcount]. *)
Record heap : Type := {
  instances : gmap Z multi_instance;
  routes : gmap Z multi_route
}.

Definition with_instances (h : heap) (objs : gmap Z multi_instance) : heap :=
  {| instances := objs; routes := routes h |}.
Definition with_routes (h : heap) (objs : gmap Z multi_route) : heap :=
  {| instances := instances h; routes := objs |}.

(** [p->...]: a null pointer or one to a freed object cannot be followed. *)
Definition deref {A : Type} (objects : gmap Z A) (p : ptr) : outcome A :=
  match p with
  | Some a => match objects !! a with Some x => Ok x | None => Fault end
  | None => Fault
  end.

(** [return mi != NULL;] *)
Definition multi_instance_ready (mi : ptr) : bool :=
  match mi with Some _ => true | None => false end.

Definition multi_instance_ref (mi : ptr) : ptr := mi.

(** [++mi->refcount;] *)
Definition multi_instance_inc_refcount (h : heap) (mi : ptr) : outcome heap :=
  match mi with
  | Some a =>
      i ← deref (instances h) mi;
      Ok (with_instances h
            (<[a := set_refcount (wrap_int (refcount i + 1)) i]> (instances h)))
  | None => Fault
  end.

(** [if (--mi->refcount <= 0) { ASSERT (mi->halt); gc_free (&mi->gc);
    free (mi); }] *)
Definition multi_instance_dec_refcount (h : heap) (mi : ptr) : outcome heap :=
  match mi with
  | Some a =>
      i ← deref (instances h) mi;
      let i := set_refcount (wrap_int (refcount i - 1)) i in
      if refcount i <=? 0 then
        ASSERT (halt i);;
        Ok (with_instances h (delete a (instances h)))
      else
        Ok (with_instances h (<[a := i]> (instances h)))
  | None => Fault
  end.

(** [multi_instance_dec_refcount (route->instance); free (route);] *)
Definition multi_route_del (h : heap) (route : ptr) : outcome heap :=
  match route with
  | Some a =>
      r ← deref (routes h) route;
      h ← multi_instance_dec_refcount h (instance r);
      Ok (with_routes h (delete a (routes h)))
  | None => Fault
  end.

(** [multi_route_defined (m, r)], with the global [now] as an argument.
    [r->last_reference + m->route_helper->ageable_ttl_secs] is computed
    in [time_t]. *)
Definition multi_route_defined (now : Z) (h : heap) (m : multi_context)
    (r : multi_route) : outcome bool :=
  i ← deref (instances h) (instance r);
  if halt i || negb (multi_instance_ready (instance r)) then Ok false
  else if truthy (Z.land (flags r) MULTI_ROUTE_CACHE)
          && negb (cache_generation r
                   =? Mroute.cache_generation (route_helper m))
  then Ok false
  else if truthy (Z.land (flags r) MULTI_ROUTE_AGEABLE)
          && (wrap_time (last_reference r
                         + Mroute.ageable_ttl_secs (route_helper m)) <? now)
  then Ok false
  else Ok true.

Definition REAP_MAX_WAKEUP : Z := 10.   (* Do reap pass at least once per n seconds *)
Definition REAP_DIVISOR : Z := 256.     (* How many passes to cover whole hash table *)
Definition REAP_MIN : Z := 16.          (* Minimum number of buckets per pass *)
Definition REAP_MAX : Z := 1024.        (* Maximum number of buckets per pass *)
Definition MULTI_CACHE_ROUTE_TTL : Z := 60.

(** A [timeval] as a count of microseconds. *)
Definition tv_usecs (t : timeval) : Z := tv_sec t * 1000000 + tv_usec t.

(** Modelled from the spec: otime.h is not among the sources.  Section
    4.7: "the core computes next_deadline - now, clamped to a ceiling
    ...; this is the maximum blocking time for the readiness wait".
    [tv_delta (dest, t1, t2)] stores in [dest] the time from [t1] to [t2]
    as seconds and microseconds, and no time at all once [t2] is past. *)
Definition tv_delta (t1 t2 : timeval) : timeval :=
  let d := tv_usecs t2 - tv_usecs t1 in
  if d <? 0 then {| tv_sec := 0; tv_usec := 0 |}
  else {| tv_sec := d / 1000000; tv_usec := d mod 1000000 |}.

(** [gettimeofday (&current, NULL)] on the wall clock [clock]: with a
    valid buffer the call stores the time and returns [0]. *)
Definition gettimeofday (clock : timeval) : Z * timeval := (0, clock).

(** [multi_get_timeout (m, dest)]: the context and [*dest] afterwards. *)
Definition multi_get_timeout (clock : timeval) (m : multi_context)
  : outcome (multi_context * timeval) :=
  match schedule_get_earliest_wakeup (sched m) with
  | Some (e, tv) =>
      let m := set_earliest_wakeup (Some e) m in
      let '(rc, current) := gettimeofday clock in
      ASSERT (negb (truthy rc));;
      let dest := tv_delta current tv in
      if tv_sec dest >=? REAP_MAX_WAKEUP then
        Ok (set_earliest_wakeup NULL m,
            {| tv_sec := REAP_MAX_WAKEUP; tv_usec := 0 |})
      else Ok (m, dest)
  | None =>
      let m := set_earliest_wakeup NULL m in
      Ok (m, {| tv_sec := REAP_MAX_WAKEUP; tv_usec := 0 |})
  end.

(** [m->pending = multi_instance_ref (mi);] *)
Definition multi_set_pending (m : multi_context) (mi : ptr) : multi_context :=
  set_pending (multi_instance_ref mi) m.

End Multi.

(* ===================================================================== *)
(** ** helper.c                                                           *)
(* ===================================================================== *)

Module Helper.
Import Libc.

(** proto.h *)
Definition DEV_TYPE_UNDEF : Z := 0.
Definition DEV_TYPE_NULL : Z := 1.
Definition DEV_TYPE_TUN : Z := 2.    (* point-to-point IP tunnel *)
Definition DEV_TYPE_TAP : Z := 3.    (* ethernet (802.3) tunnel *)

(** socket.h, [enum proto_num] *)
Definition PROTO_NONE : Z := 0.
Definition PROTO_UDPv4 : Z := 1.
Definition PROTO_TCPv4_SERVER : Z := 2.
Definition PROTO_TCPv4_CLIENT : Z := 3.
Definition PROTO_TCPv4 : Z := 4.

(** Modelled from the spec: options.h is not among the sources.  The
    specification distinguishes "server mode" from "point-to-point"
    (client) instances and names the keepalive action a "ping-restart
    disconnect"; the constants are the header's names for them.  Only that
    the two modes differ matters below. *)
Definition MODE_POINT_TO_POINT : Z := 0.
Definition MODE_SERVER : Z := 1.
Definition PING_UNDEF : Z := 0.
Definition PING_EXIT : Z := 1.
Definition PING_RESTART : Z := 2.

(** One entry of [struct route_option_list]. *)
Record route_option : Type := {
  network : option string;
  netmask : option string;
  gateway : option string;
  metric : option string
}.

(** [struct options]: the members helper.c reads or writes. *)
Record options : Type := {
  dev : option string;                      (* string, may be null *)
  dev_type : option string;                 (* string, may be null *)
  mode : Z;                                 (* int *)
  proto : Z;                                (* int *)
  tls_server : bool;
  tls_client : bool;
  pull : bool;
  client : bool;
  shared_secret_file : option string;       (* string, may be null *)
  ifconfig_local : option string;           (* string, may be null *)
  ifconfig_remote_netmask : option string;  (* string, may be null *)
  routes : list route_option;               (* route_option_list *)
  enable_c2c : bool;
  server_defined : bool;
  server_network : Z;                       (* in_addr_t *)
  server_netmask : Z;                       (* in_addr_t *)
  server_bridge_defined : bool;
  server_bridge_ip : Z;                     (* in_addr_t *)
  server_bridge_netmask : Z;                (* in_addr_t *)
  server_bridge_pool_start : Z;             (* in_addr_t *)
  server_bridge_pool_end : Z;               (* in_addr_t *)
  ifconfig_pool_defined : bool;
  ifconfig_pool_start : Z;                  (* in_addr_t *)
  ifconfig_pool_end : Z;                    (* in_addr_t *)
  ifconfig_pool_netmask : Z;                (* in_addr_t *)
  ifconfig_pool_linear : bool;
  push_list : list string;                  (* the options pushed to clients *)
  keepalive_ping : Z;                       (* int *)
  keepalive_timeout : Z;                    (* int *)
  ping_send_timeout : Z;                    (* int *)
  ping_rec_timeout : Z;                     (* int *)
  ping_rec_timeout_action : Z               (* int *)
}.

(** Assignments to single members: [o->member = v]. *)
Definition set_mode (v : Z) (o : options) : options :=
  {| dev := dev o; dev_type := dev_type o; mode := v; proto := proto o;
     tls_server := tls_server o; tls_client := tls_client o; pull := pull
     o; client := client o; shared_secret_file := shared_secret_file o;
     ifconfig_local := ifconfig_local o; ifconfig_remote_netmask :=
     ifconfig_remote_netmask o; routes := routes o; enable_c2c :=
     enable_c2c o; server_defined := server_defined o; server_network :=
     server_network o; server_netmask := server_netmask o;
     server_bridge_defined := server_bridge_defined o; server_bridge_ip :=
     server_bridge_ip o; server_bridge_netmask := server_bridge_netmask o;
     server_bridge_pool_start := server_bridge_pool_start o;
     server_bridge_pool_end := server_bridge_pool_end o;
     ifconfig_pool_defined := ifconfig_pool_defined o; ifconfig_pool_start
     := ifconfig_pool_start o; ifconfig_pool_end := ifconfig_pool_end o;
     ifconfig_pool_netmask := ifconfig_pool_netmask o;
     ifconfig_pool_linear := ifconfig_pool_linear o; push_list :=
     push_list o; keepalive_ping := keepalive_ping o; keepalive_timeout :=
     keepalive_timeout o; ping_send_timeout := ping_send_timeout o;
     ping_rec_timeout := ping_rec_timeout o; ping_rec_timeout_action :=
     ping_rec_timeout_action o |}.

Definition set_proto (v : Z) (o : options) : options :=
  {| dev := dev o; dev_type := dev_type o; mode := mode o; proto := v;
     tls_server := tls_server o; tls_client := tls_client o; pull := pull
     o; client := client o; shared_secret_file := shared_secret_file o;
     ifconfig_local := ifconfig_local o; ifconfig_remote_netmask :=
     ifconfig_remote_netmask o; routes := routes o; enable_c2c :=
     enable_c2c o; server_defined := server_defined o; server_network :=
     server_network o; server_netmask := server_netmask o;
     server_bridge_defined := server_bridge_defined o; server_bridge_ip :=
     server_bridge_ip o; server_bridge_netmask := server_bridge_netmask o;
     server_bridge_pool_start := server_bridge_pool_start o;
     server_bridge_pool_end := server_bridge_pool_end o;
     ifconfig_pool_defined := ifconfig_pool_defined o; ifconfig_pool_start
     := ifconfig_pool_start o; ifconfig_pool_end := ifconfig_pool_end o;
     ifconfig_pool_netmask := ifconfig_pool_netmask o;
     ifconfig_pool_linear := ifconfig_pool_linear o; push_list :=
     push_list o; keepalive_ping := keepalive_ping o; keepalive_timeout :=
     keepalive_timeout o; ping_send_timeout := ping_send_timeout o;
     ping_rec_timeout := ping_rec_timeout o; ping_rec_timeout_action :=
     ping_rec_timeout_action o |}.

Definition set_tls_server (v : bool) (o : options) : options :=
  {| dev := dev o; dev_type := dev_type o; mode := mode o; proto := proto
     o; tls_server := v; tls_client := tls_client o; pull := pull o;
     client := client o; shared_secret_file := shared_secret_file o;
     ifconfig_local := ifconfig_local o; ifconfig_remote_netmask :=
     ifconfig_remote_netmask o; routes := routes o; enable_c2c :=
     enable_c2c o; server_defined := server_defined o; server_network :=
     server_network o; server_netmask := server_netmask o;
     server_bridge_defined := server_bridge_defined o; server_bridge_ip :=
     server_bridge_ip o; server_bridge_netmask := server_bridge_netmask o;
     server_bridge_pool_start := server_bridge_pool_start o;
     server_bridge_pool_end := server_bridge_pool_end o;
     ifconfig_pool_defined := ifconfig_pool_defined o; ifconfig_pool_start
     := ifconfig_pool_start o; ifconfig_pool_end := ifconfig_pool_end o;
     ifconfig_pool_netmask := ifconfig_pool_netmask o;
     ifconfig_pool_linear := ifconfig_pool_linear o; push_list :=
     push_list o; keepalive_ping := keepalive_ping o; keepalive_timeout :=
     keepalive_timeout o; ping_send_timeout := ping_send_timeout o;
     ping_rec_timeout := ping_rec_timeout o; ping_rec_timeout_action :=
     ping_rec_timeout_action o |}.

Definition set_tls_client (v : bool) (o : options) : options :=
  {| dev := dev o; dev_type := dev_type o; mode := mode o; proto := proto
     o; tls_server := tls_server o; tls_client := v; pull := pull o;
     client := client o; shared_secret_file := shared_secret_file o;
     ifconfig_local := ifconfig_local o; ifconfig_remote_netmask :=
     ifconfig_remote_netmask o; routes := routes o; enable_c2c :=
     enable_c2c o; server_defined := server_defined o; server_network :=
     server_network o; server_netmask := server_netmask o;
     server_bridge_defined := server_bridge_defined o; server_bridge_ip :=
     server_bridge_ip o; server_bridge_netmask := server_bridge_netmask o;
     server_bridge_pool_start := server_bridge_pool_start o;
     server_bridge_pool_end := server_bridge_pool_end o;
     ifconfig_pool_defined := ifconfig_pool_defined o; ifconfig_pool_start
     := ifconfig_pool_start o; ifconfig_pool_end := ifconfig_pool_end o;
     ifconfig_pool_netmask := ifconfig_pool_netmask o;
     ifconfig_pool_linear := ifconfig_pool_linear o; push_list :=
     push_list o; keepalive_ping := keepalive_ping o; keepalive_timeout :=
     keepalive_timeout o; ping_send_timeout := ping_send_timeout o;
     ping_rec_timeout := ping_rec_timeout o; ping_rec_timeout_action :=
     ping_rec_timeout_action o |}.

Definition set_pull (v : bool) (o : options) : options :=
  {| dev := dev o; dev_type := dev_type o; mode := mode o; proto := proto
     o; tls_server := tls_server o; tls_client := tls_client o; pull := v;
     client := client o; shared_secret_file := shared_secret_file o;
     ifconfig_local := ifconfig_local o; ifconfig_remote_netmask :=
     ifconfig_remote_netmask o; routes := routes o; enable_c2c :=
     enable_c2c o; server_defined := server_defined o; server_network :=
     server_network o; server_netmask := server_netmask o;
     server_bridge_defined := server_bridge_defined o; server_bridge_ip :=
     server_bridge_ip o; server_bridge_netmask := server_bridge_netmask o;
     server_bridge_pool_start := server_bridge_pool_start o;
     server_bridge_pool_end := server_bridge_pool_end o;
     ifconfig_pool_defined := ifconfig_pool_defined o; ifconfig_pool_start
     := ifconfig_pool_start o; ifconfig_pool_end := ifconfig_pool_end o;
     ifconfig_pool_netmask := ifconfig_pool_netmask o;
     ifconfig_pool_linear := ifconfig_pool_linear o; push_list :=
     push_list o; keepalive_ping := keepalive_ping o; keepalive_timeout :=
     keepalive_timeout o; ping_send_timeout := ping_send_timeout o;
     ping_rec_timeout := ping_rec_timeout o; ping_rec_timeout_action :=
     ping_rec_timeout_action o |}.

Definition set_ifconfig_local (v : option string) (o : options) : options :=
  {| dev := dev o; dev_type := dev_type o; mode := mode o; proto := proto
     o; tls_server := tls_server o; tls_client := tls_client o; pull :=
     pull o; client := client o; shared_secret_file := shared_secret_file
     o; ifconfig_local := v; ifconfig_remote_netmask :=
     ifconfig_remote_netmask o; routes := routes o; enable_c2c :=
     enable_c2c o; server_defined := server_defined o; server_network :=
     server_network o; server_netmask := server_netmask o;
     server_bridge_defined := server_bridge_defined o; server_bridge_ip :=
     server_bridge_ip o; server_bridge_netmask := server_bridge_netmask o;
     server_bridge_pool_start := server_bridge_pool_start o;
     server_bridge_pool_end := server_bridge_pool_end o;
     ifconfig_pool_defined := ifconfig_pool_defined o; ifconfig_pool_start
     := ifconfig_pool_start o; ifconfig_pool_end := ifconfig_pool_end o;
     ifconfig_pool_netmask := ifconfig_pool_netmask o;
     ifconfig_pool_linear := ifconfig_pool_linear o; push_list :=
     push_list o; keepalive_ping := keepalive_ping o; keepalive_timeout :=
     keepalive_timeout o; ping_send_timeout := ping_send_timeout o;
     ping_rec_timeout := ping_rec_timeout o; ping_rec_timeout_action :=
     ping_rec_timeout_action o |}.

Definition set_ifconfig_remote_netmask (v : option string) (o : options) : options :=
  {| dev := dev o; dev_type := dev_type o; mode := mode o; proto := proto
     o; tls_server := tls_server o; tls_client := tls_client o; pull :=
     pull o; client := client o; shared_secret_file := shared_secret_file
     o; ifconfig_local := ifconfig_local o; ifconfig_remote_netmask := v;
     routes := routes o; enable_c2c := enable_c2c o; server_defined :=
     server_defined o; server_network := server_network o; server_netmask
     := server_netmask o; server_bridge_defined := server_bridge_defined
     o; server_bridge_ip := server_bridge_ip o; server_bridge_netmask :=
     server_bridge_netmask o; server_bridge_pool_start :=
     server_bridge_pool_start o; server_bridge_pool_end :=
     server_bridge_pool_end o; ifconfig_pool_defined :=
     ifconfig_pool_defined o; ifconfig_pool_start := ifconfig_pool_start
     o; ifconfig_pool_end := ifconfig_pool_end o; ifconfig_pool_netmask :=
     ifconfig_pool_netmask o; ifconfig_pool_linear := ifconfig_pool_linear
     o; push_list := push_list o; keepalive_ping := keepalive_ping o;
     keepalive_timeout := keepalive_timeout o; ping_send_timeout :=
     ping_send_timeout o; ping_rec_timeout := ping_rec_timeout o;
     ping_rec_timeout_action := ping_rec_timeout_action o |}.

Definition set_routes (v : list route_option) (o : options) : options :=
  {| dev := dev o; dev_type := dev_type o; mode := mode o; proto := proto
     o; tls_server := tls_server o; tls_client := tls_client o; pull :=
     pull o; client := client o; shared_secret_file := shared_secret_file
     o; ifconfig_local := ifconfig_local o; ifconfig_remote_netmask :=
     ifconfig_remote_netmask o; routes := v; enable_c2c := enable_c2c o;
     server_defined := server_defined o; server_network := server_network
     o; server_netmask := server_netmask o; server_bridge_defined :=
     server_bridge_defined o; server_bridge_ip := server_bridge_ip o;
     server_bridge_netmask := server_bridge_netmask o;
     server_bridge_pool_start := server_bridge_pool_start o;
     server_bridge_pool_end := server_bridge_pool_end o;
     ifconfig_pool_defined := ifconfig_pool_defined o; ifconfig_pool_start
     := ifconfig_pool_start o; ifconfig_pool_end := ifconfig_pool_end o;
     ifconfig_pool_netmask := ifconfig_pool_netmask o;
     ifconfig_pool_linear := ifconfig_pool_linear o; push_list :=
     push_list o; keepalive_ping := keepalive_ping o; keepalive_timeout :=
     keepalive_timeout o; ping_send_timeout := ping_send_timeout o;
     ping_rec_timeout := ping_rec_timeout o; ping_rec_timeout_action :=
     ping_rec_timeout_action o |}.

Definition set_ifconfig_pool_defined (v : bool) (o : options) : options :=
  {| dev := dev o; dev_type := dev_type o; mode := mode o; proto := proto
     o; tls_server := tls_server o; tls_client := tls_client o; pull :=
     pull o; client := client o; shared_secret_file := shared_secret_file
     o; ifconfig_local := ifconfig_local o; ifconfig_remote_netmask :=
     ifconfig_remote_netmask o; routes := routes o; enable_c2c :=
     enable_c2c o; server_defined := server_defined o; server_network :=
     server_network o; server_netmask := server_netmask o;
     server_bridge_defined := server_bridge_defined o; server_bridge_ip :=
     server_bridge_ip o; server_bridge_netmask := server_bridge_netmask o;
     server_bridge_pool_start := server_bridge_pool_start o;
     server_bridge_pool_end := server_bridge_pool_end o;
     ifconfig_pool_defined := v; ifconfig_pool_start :=
     ifconfig_pool_start o; ifconfig_pool_end := ifconfig_pool_end o;
     ifconfig_pool_netmask := ifconfig_pool_netmask o;
     ifconfig_pool_linear := ifconfig_pool_linear o; push_list :=
     push_list o; keepalive_ping := keepalive_ping o; keepalive_timeout :=
     keepalive_timeout o; ping_send_timeout := ping_send_timeout o;
     ping_rec_timeout := ping_rec_timeout o; ping_rec_timeout_action :=
     ping_rec_timeout_action o |}.

Definition set_ifconfig_pool_start (v : Z) (o : options) : options :=
  {| dev := dev o; dev_type := dev_type o; mode := mode o; proto := proto
     o; tls_server := tls_server o; tls_client := tls_client o; pull :=
     pull o; client := client o; shared_secret_file := shared_secret_file
     o; ifconfig_local := ifconfig_local o; ifconfig_remote_netmask :=
     ifconfig_remote_netmask o; routes := routes o; enable_c2c :=
     enable_c2c o; server_defined := server_defined o; server_network :=
     server_network o; server_netmask := server_netmask o;
     server_bridge_defined := server_bridge_defined o; server_bridge_ip :=
     server_bridge_ip o; server_bridge_netmask := server_bridge_netmask o;
     server_bridge_pool_start := server_bridge_pool_start o;
     server_bridge_pool_end := server_bridge_pool_end o;
     ifconfig_pool_defined := ifconfig_pool_defined o; ifconfig_pool_start
     := v; ifconfig_pool_end := ifconfig_pool_end o; ifconfig_pool_netmask
     := ifconfig_pool_netmask o; ifconfig_pool_linear :=
     ifconfig_pool_linear o; push_list := push_list o; keepalive_ping :=
     keepalive_ping o; keepalive_timeout := keepalive_timeout o;
     ping_send_timeout := ping_send_timeout o; ping_rec_timeout :=
     ping_rec_timeout o; ping_rec_timeout_action :=
     ping_rec_timeout_action o |}.

Definition set_ifconfig_pool_end (v : Z) (o : options) : options :=
  {| dev := dev o; dev_type := dev_type o; mode := mode o; proto := proto
     o; tls_server := tls_server o; tls_client := tls_client o; pull :=
     pull o; client := client o; shared_secret_file := shared_secret_file
     o; ifconfig_local := ifconfig_local o; ifconfig_remote_netmask :=
     ifconfig_remote_netmask o; routes := routes o; enable_c2c :=
     enable_c2c o; server_defined := server_defined o; server_network :=
     server_network o; server_netmask := server_netmask o;
     server_bridge_defined := server_bridge_defined o; server_bridge_ip :=
     server_bridge_ip o; server_bridge_netmask := server_bridge_netmask o;
     server_bridge_pool_start := server_bridge_pool_start o;
     server_bridge_pool_end := server_bridge_pool_end o;
     ifconfig_pool_defined := ifconfig_pool_defined o; ifconfig_pool_start
     := ifconfig_pool_start o; ifconfig_pool_end := v;
     ifconfig_pool_netmask := ifconfig_pool_netmask o;
     ifconfig_pool_linear := ifconfig_pool_linear o; push_list :=
     push_list o; keepalive_ping := keepalive_ping o; keepalive_timeout :=
     keepalive_timeout o; ping_send_timeout := ping_send_timeout o;
     ping_rec_timeout := ping_rec_timeout o; ping_rec_timeout_action :=
     ping_rec_timeout_action o |}.

Definition set_ifconfig_pool_netmask (v : Z) (o : options) : options :=
  {| dev := dev o; dev_type := dev_type o; mode := mode o; proto := proto
     o; tls_server := tls_server o; tls_client := tls_client o; pull :=
     pull o; client := client o; shared_secret_file := shared_secret_file
     o; ifconfig_local := ifconfig_local o; ifconfig_remote_netmask :=
     ifconfig_remote_netmask o; routes := routes o; enable_c2c :=
     enable_c2c o; server_defined := server_defined o; server_network :=
     server_network o; server_netmask := server_netmask o;
     server_bridge_defined := server_bridge_defined o; server_bridge_ip :=
     server_bridge_ip o; server_bridge_netmask := server_bridge_netmask o;
     server_bridge_pool_start := server_bridge_pool_start o;
     server_bridge_pool_end := server_bridge_pool_end o;
     ifconfig_pool_defined := ifconfig_pool_defined o; ifconfig_pool_start
     := ifconfig_pool_start o; ifconfig_pool_end := ifconfig_pool_end o;
     ifconfig_pool_netmask := v; ifconfig_pool_linear :=
     ifconfig_pool_linear o; push_list := push_list o; keepalive_ping :=
     keepalive_ping o; keepalive_timeout := keepalive_timeout o;
     ping_send_timeout := ping_send_timeout o; ping_rec_timeout :=
     ping_rec_timeout o; ping_rec_timeout_action :=
     ping_rec_timeout_action o |}.

Definition set_push_list (v : list string) (o : options) : options :=
  {| dev := dev o; dev_type := dev_type o; mode := mode o; proto := proto
     o; tls_server := tls_server o; tls_client := tls_client o; pull :=
     pull o; client := client o; shared_secret_file := shared_secret_file
     o; ifconfig_local := ifconfig_local o; ifconfig_remote_netmask :=
     ifconfig_remote_netmask o; routes := routes o; enable_c2c :=
     enable_c2c o; server_defined := server_defined o; server_network :=
     server_network o; server_netmask := server_netmask o;
     server_bridge_defined := server_bridge_defined o; server_bridge_ip :=
     server_bridge_ip o; server_bridge_netmask := server_bridge_netmask o;
     server_bridge_pool_start := server_bridge_pool_start o;
     server_bridge_pool_end := server_bridge_pool_end o;
     ifconfig_pool_defined := ifconfig_pool_defined o; ifconfig_pool_start
     := ifconfig_pool_start o; ifconfig_pool_end := ifconfig_pool_end o;
     ifconfig_pool_netmask := ifconfig_pool_netmask o;
     ifconfig_pool_linear := ifconfig_pool_linear o; push_list := v;
     keepalive_ping := keepalive_ping o; keepalive_timeout :=
     keepalive_timeout o; ping_send_timeout := ping_send_timeout o;
     ping_rec_timeout := ping_rec_timeout o; ping_rec_timeout_action :=
     ping_rec_timeout_action o |}.

Definition set_ping_send_timeout (v : Z) (o : options) : options :=
  {| dev := dev o; dev_type := dev_type o; mode := mode o; proto := proto
     o; tls_server := tls_server o; tls_client := tls_client o; pull :=
     pull o; client := client o; shared_secret_file := shared_secret_file
     o; ifconfig_local := ifconfig_local o; ifconfig_remote_netmask :=
     ifconfig_remote_netmask o; routes := routes o; enable_c2c :=
     enable_c2c o; server_defined := server_defined o; server_network :=
     server_network o; server_netmask := server_netmask o;
     server_bridge_defined := server_bridge_defined o; server_bridge_ip :=
     server_bridge_ip o; server_bridge_netmask := server_bridge_netmask o;
     server_bridge_pool_start := server_bridge_pool_start o;
     server_bridge_pool_end := server_bridge_pool_end o;
     ifconfig_pool_defined := ifconfig_pool_defined o; ifconfig_pool_start
     := ifconfig_pool_start o; ifconfig_pool_end := ifconfig_pool_end o;
     ifconfig_pool_netmask := ifconfig_pool_netmask o;
     ifconfig_pool_linear := ifconfig_pool_linear o; push_list :=
     push_list o; keepalive_ping := keepalive_ping o; keepalive_timeout :=
     keepalive_timeout o; ping_send_timeout := v; ping_rec_timeout :=
     ping_rec_timeout o; ping_rec_timeout_action :=
     ping_rec_timeout_action o |}.

Definition set_ping_rec_timeout (v : Z) (o : options) : options :=
  {| dev := dev o; dev_type := dev_type o; mode := mode o; proto := proto
     o; tls_server := tls_server o; tls_client := tls_client o; pull :=
     pull o; client := client o; shared_secret_file := shared_secret_file
     o; ifconfig_local := ifconfig_local o; ifconfig_remote_netmask :=
     ifconfig_remote_netmask o; routes := routes o; enable_c2c :=
     enable_c2c o; server_defined := server_defined o; server_network :=
     server_network o; server_netmask := server_netmask o;
     server_bridge_defined := server_bridge_defined o; server_bridge_ip :=
     server_bridge_ip o; server_bridge_netmask := server_bridge_netmask o;
     server_bridge_pool_start := server_bridge_pool_start o;
     server_bridge_pool_end := server_bridge_pool_end o;
     ifconfig_pool_defined := ifconfig_pool_defined o; ifconfig_pool_start
     := ifconfig_pool_start o; ifconfig_pool_end := ifconfig_pool_end o;
     ifconfig_pool_netmask := ifconfig_pool_netmask o;
     ifconfig_pool_linear := ifconfig_pool_linear o; push_list :=
     push_list o; keepalive_ping := keepalive_ping o; keepalive_timeout :=
     keepalive_timeout o; ping_send_timeout := ping_send_timeout o;
     ping_rec_timeout := v; ping_rec_timeout_action :=
     ping_rec_timeout_action o |}.

Definition set_ping_rec_timeout_action (v : Z) (o : options) : options :=
  {| dev := dev o; dev_type := dev_type o; mode := mode o; proto := proto
     o; tls_server := tls_server o; tls_client := tls_client o; pull :=
     pull o; client := client o; shared_secret_file := shared_secret_file
     o; ifconfig_local := ifconfig_local o; ifconfig_remote_netmask :=
     ifconfig_remote_netmask o; routes := routes o; enable_c2c :=
     enable_c2c o; server_defined := server_defined o; server_network :=
     server_network o; server_netmask := server_netmask o;
     server_bridge_defined := server_bridge_defined o; server_bridge_ip :=
     server_bridge_ip o; server_bridge_netmask := server_bridge_netmask o;
     server_bridge_pool_start := server_bridge_pool_start o;
     server_bridge_pool_end := server_bridge_pool_end o;
     ifconfig_pool_defined := ifconfig_pool_defined o; ifconfig_pool_start
     := ifconfig_pool_start o; ifconfig_pool_end := ifconfig_pool_end o;
     ifconfig_pool_netmask := ifconfig_pool_netmask o;
     ifconfig_pool_linear := ifconfig_pool_linear o; push_list :=
     push_list o; keepalive_ping := keepalive_ping o; keepalive_timeout :=
     keepalive_timeout o; ping_send_timeout := ping_send_timeout o;
     ping_rec_timeout := ping_rec_timeout o; ping_rec_timeout_action := v |}.
(** tun.c: [is_dev_type (dev, dev_type, match_type)] *)
Definition is_dev_type (dev dev_type : option string) (match_type : option string)
  : outcome bool :=
  ASSERT (bool_decide (is_Some dev));;
  ASSERT (bool_decide (is_Some match_type));;
  match dev, dev_type, match_type with
  | _, Some dev_type, Some match_type =>
      Ok (String.eqb dev_type match_type)              (* !strcmp *)
  | Some dev, None, Some match_type =>
      Ok (String.prefix match_type dev)                (* !strncmp *)
  | _, _, _ => Fault
  end.

(** Modelled from the spec: [dev_type_enum] is called by helper.c but the
    tun.c among the sources only has its sibling [dev_type_string].
    Section 6: "dev_type in {tun, tap, null}".  The model follows
    [dev_type_string] test by test and returns the constants of proto.h. *)
Definition dev_type_enum (dev dev_type : option string) : outcome Z :=
  tun ← is_dev_type dev dev_type (Some "tun");
  if (tun : bool) then Ok DEV_TYPE_TUN
  else
    tap ← is_dev_type dev dev_type (Some "tap");
    if (tap : bool) then Ok DEV_TYPE_TAP
    else
      null ← is_dev_type dev dev_type (Some "null");
      if (null : bool) then Ok DEV_TYPE_NULL else Ok DEV_TYPE_UNDEF.

(** Modelled from the spec: socket.c, which defines the function declared
    in socket.h, is not among the sources.  The specification writes
    addresses in dotted-quad form ("10.8.0.6"); helper.c always passes a
    host-order address and no flags. *)
Definition print_in_addr_t (addr : Z) : string :=
  pretty (Z.land (Z.shiftr addr 24) 255) +:+ "." +:+
  pretty (Z.land (Z.shiftr addr 16) 255) +:+ "." +:+
  pretty (Z.land (Z.shiftr addr 8) 255) +:+ "." +:+
  pretty (Z.land addr 255).

(** Modelled from the spec: route.h and route.c are not among the sources.
    Section 6 writes a subnet as "NET MASK" or "NET/MASK" and section 7
    counts an "invalid mask" as a configuration error; helper.c prints
    [netbits] as the "/n" prefix length of a mask.  [netbits_to_netmask n]
    is the mask of [n] leading one-bits; [netmask_to_netbits] succeeds
    when the network has no bit outside the mask and the mask is such a
    prefix mask, and then stores its length. *)
Definition netbits_to_netmask (netbits : Z) : Z :=
  if (0 <? netbits) && (netbits <=? 32)
  then wrap_u32 (Z.shiftl (2 ^ 32 - 1) (32 - netbits))
  else 0.

Definition netmask_to_netbits (network netmask : Z) (netbits : Z) : bool * Z :=
  if Z.land network netmask =? network then
    match find (fun i => netbits_to_netmask i =? netmask)
               (map Z.of_nat (seq 0 33)) with
    | Some i => (true, i)
    | None => (false, netbits)
    end
  else (false, netbits).

(** Modelled from the spec: push.c is not among the sources.  Section 6:
    a helper directive "pushes" options to the clients; the pushed options
    are kept in the order they were pushed. *)
Definition push_option (o : options) (opt : string) : options :=
  set_push_list (push_list o ++ [opt]) o.

(** [buf_printf (&out, "%s (/%d)", print_in_addr_t (netmask, 0, gc), netbits)] *)
Definition print_netmask (netbits : Z) : string :=
  print_in_addr_t (netbits_to_netmask netbits) +:+ " (/" +:+ pretty netbits +:+ ")".

Definition print_opt_route_gateway (route_gateway : Z) : outcome string :=
  ASSERT (truthy route_gateway);;
  Ok ("route-gateway " +:+ print_in_addr_t route_gateway).

Definition print_opt_route (network netmask : Z) : outcome string :=
  ASSERT (truthy network);;
  if truthy netmask
  then Ok ("route " +:+ print_in_addr_t network +:+ " " +:+ print_in_addr_t netmask)
  else Ok ("route " +:+ print_in_addr_t network).

(** [buf_printf (&out, "%s %d", str, i)] *)
Definition print_str_int (str : string) (i : Z) : string :=
  str +:+ " " +:+ pretty i.

(** [rol_check_alloc (o); add_route_to_option_list (o->routes, network,
    netmask, NULL, NULL);] *)
Definition helper_add_route (network netmask : Z) (o : options) : options :=
  set_routes (routes o ++ [{| network := Some (print_in_addr_t network);
                              netmask := Some (print_in_addr_t netmask);
                              gateway := None; metric := None |}]) o.

Definition verify_common_subnet (opt : string) (a b subnet : Z) : outcome unit :=
  usage_if (negb (Z.land a subnet =? Z.land b subnet))
    ("Options Error: " +:+ opt +:+ " IP addresses " +:+ print_in_addr_t a
     +:+ " and " +:+ print_in_addr_t b +:+ " are not in the same "
     +:+ print_in_addr_t subnet +:+ " subnet").

Section HelperClientServer.
(** pool.h is not among the sources: the least prefix length a pool may
    have is a parameter of the expansion. *)
Variable IFCONFIG_POOL_MIN_NETBITS : Z.

(** [--server NET MASK] with [--dev tun] *)
Definition server_tun (netbits : Z) (o : options) : outcome options :=
  let pool_end_reserve := 4 in
  usage_if (netbits >? 29)
    ("Options Error: --server directive when used with --dev tun must define a subnet of "
     +:+ print_netmask 29 +:+ " or lower");;
  let pool_end_reserve := if netbits =? 29 then 0 else pool_end_reserve in
  let o := set_mode MODE_SERVER o in
  let o := set_tls_server true o in
  let o := set_ifconfig_local
             (Some (print_in_addr_t (wrap_u32 (server_network o + 1)))) o in
  let o := set_ifconfig_remote_netmask
             (Some (print_in_addr_t (wrap_u32 (server_network o + 2)))) o in
  let o := set_ifconfig_pool_defined true o in
  let o := set_ifconfig_pool_start (wrap_u32 (server_network o + 4)) o in
  let o := set_ifconfig_pool_end
             (wrap_u32 (Z.lor (server_network o) (lnot_u32 (server_netmask o))
                        - pool_end_reserve)) o in
  let o := helper_add_route (server_network o) (server_netmask o) o in
  if enable_c2c o then
    opt ← print_opt_route (server_network o) (server_netmask o);
    Ok (push_option o opt)
  else if negb (ifconfig_pool_linear o) then
    opt ← print_opt_route (wrap_u32 (server_network o + 1)) 0;
    Ok (push_option o opt)
  else Ok o.

(** [--server NET MASK] with [--dev tap] *)
Definition server_tap (netbits : Z) (o : options) : outcome options :=
  usage_if (netbits >=? 30)
    ("Options Error: --server directive when used with --dev tap must define a subnet of "
     +:+ print_netmask 30 +:+ " or lower");;
  let o := set_mode MODE_SERVER o in
  let o := set_tls_server true o in
  let o := set_ifconfig_local
             (Some (print_in_addr_t (wrap_u32 (server_network o + 1)))) o in
  let o := set_ifconfig_remote_netmask
             (Some (print_in_addr_t (server_netmask o))) o in
  let o := set_ifconfig_pool_defined true o in
  let o := set_ifconfig_pool_start (wrap_u32 (server_network o + 2)) o in
  let o := set_ifconfig_pool_end
             (wrap_u32 (Z.lor (server_network o) (lnot_u32 (server_netmask o))
                        - 1)) o in
  let o := set_ifconfig_pool_netmask (server_netmask o) o in
  opt ← print_opt_route_gateway (wrap_u32 (server_network o + 1));
  Ok (push_option o opt).

(** [if (o->proto == PROTO_TCPv4) o->proto = v;] *)
Definition fix_proto (v : Z) (o : options) : options :=
  if proto o =? PROTO_TCPv4 then set_proto v o else o.

(** The branch [if (o->server_defined)]. *)
Definition helper_server (dev : Z) (o : options) : outcome options :=
  let netbits := -2 in
  usage_if (client o)
    "Options Error: --server and --client cannot be used together";;
  usage_if (server_bridge_defined o)
    "Options Error: --server and --server-bridge cannot be used together";;
  usage_if (bool_decide (is_Some (shared_secret_file o)))
    "Options Error: --server and --secret cannot be used together (you must use SSL/TLS keys)";;
  usage_if (ifconfig_pool_defined o)
    "Options Error: --server already defines an ifconfig-pool, so you can't also specify --ifconfig-pool explicitly";;
  usage_if (negb ((dev =? DEV_TYPE_TAP) || (dev =? DEV_TYPE_TUN)))
    "Options Error: --server directive only makes sense with --dev tun or --dev tap";;
  let '(status, netbits) :=
    netmask_to_netbits (server_network o) (server_netmask o) netbits in
  usage_if (negb status)
    "Options Error: --server directive network/netmask combination is invalid";;
  usage_if (netbits <? 0)
    "Options Error: --server directive netmask is invalid";;
  usage_if (netbits <? IFCONFIG_POOL_MIN_NETBITS)
    ("Options Error: --server directive netmask allows for too many host addresses (subnet must be "
     +:+ print_netmask IFCONFIG_POOL_MIN_NETBITS +:+ " or higher)");;
  o ← (if dev =? DEV_TYPE_TUN then server_tun netbits o
       else if dev =? DEV_TYPE_TAP then server_tap netbits o
       else ASSERT false;; Ok o);
  Ok (fix_proto PROTO_TCPv4_SERVER o).

(** The branch [else if (o->server_bridge_defined)]. *)
Definition helper_server_bridge (dev : Z) (o : options) : outcome options :=
  usage_if (client o)
    "Options Error: --server-bridge and --client cannot be used together";;
  usage_if (ifconfig_pool_defined o)
    "Options Error: --server-bridge already defines an ifconfig-pool, so you can't also specify --ifconfig-pool explicitly";;
  usage_if (bool_decide (is_Some (shared_secret_file o)))
    "Options Error: --server-bridge and --secret cannot be used together (you must use SSL/TLS keys)";;
  usage_if (negb (dev =? DEV_TYPE_TAP))
    "Options Error: --server-bridge directive only makes sense with --dev tap";;
  verify_common_subnet "--server-bridge" (server_bridge_ip o)
    (server_bridge_pool_start o) (server_bridge_netmask o);;
  verify_common_subnet "--server-bridge" (server_bridge_pool_start o)
    (server_bridge_pool_end o) (server_bridge_netmask o);;
  verify_common_subnet "--server-bridge" (server_bridge_ip o)
    (server_bridge_pool_end o) (server_bridge_netmask o);;
  let o := set_mode MODE_SERVER o in
  let o := set_tls_server true o in
  let o := set_ifconfig_pool_defined true o in
  let o := set_ifconfig_pool_start (server_bridge_pool_start o) o in
  let o := set_ifconfig_pool_end (server_bridge_pool_end o) o in
  let o := set_ifconfig_pool_netmask (server_bridge_netmask o) o in
  opt ← print_opt_route_gateway (server_bridge_ip o);
  let o := push_option o opt in
  Ok (fix_proto PROTO_TCPv4_SERVER o).

(** The branch [else if (o->client)]. *)
Definition helper_client (o : options) : options :=
  let o := set_pull true o in
  let o := set_tls_client true o in
  fix_proto PROTO_TCPv4_CLIENT o.

(** [void helper_client_server (struct options *o)], built with [P2MP]. *)
Definition helper_client_server (o : options) : outcome options :=
  dev ← dev_type_enum (dev o) (dev_type o);
  o ← (if server_defined o then helper_server dev o
       else if server_bridge_defined o then helper_server_bridge dev o
       else if client o then Ok (helper_client o)
       else Ok o);
  usage_if (proto o =? PROTO_TCPv4)
    "Options Error: --proto tcp is ambiguous in this context.  Please specify --proto tcp-server or --proto tcp-client";;
  Ok o.
End HelperClientServer.

(** [void helper_keepalive (struct options *o)], built with [P2MP].
    [keepalive_ping * 2] and [keepalive_timeout * 2] are [int] products. *)
Definition helper_keepalive (o : options) : outcome options :=
  if truthy (keepalive_ping o) || truthy (keepalive_timeout o) then
    (* Sanity checks. *)
    usage_if ((keepalive_ping o <=? 0) || (keepalive_timeout o <=? 0))
      "Options Error: --keepalive parameters must be > 0";;
    usage_if (wrap_int (keepalive_ping o * 2) >? keepalive_timeout o)
      "Options Error: the second parameter to --keepalive (restart timeout=%d) must be at least twice the value of the first parameter (ping interval=%d).  A ratio of 1:5 or 1:6 would be even better.  Recommended setting is --keepalive 10 60.";;
    usage_if (truthy (ping_send_timeout o) || truthy (ping_rec_timeout o))
      "Options Error: --keepalive conflicts with --ping, --ping-exit, or --ping-restart.  If you use --keepalive, you don't need any of the other --ping directives.";;
    (* Expand. *)
    if mode o =? MODE_POINT_TO_POINT then
      let o := set_ping_rec_timeout_action PING_RESTART o in
      let o := set_ping_send_timeout (keepalive_ping o) o in
      let o := set_ping_rec_timeout (keepalive_timeout o) o in
      Ok o
    else if mode o =? MODE_SERVER then
      let o := set_ping_rec_timeout_action PING_RESTART o in
      let o := set_ping_send_timeout (keepalive_ping o) o in
      let o := set_ping_rec_timeout (wrap_int (keepalive_timeout o * 2)) o in
      let o := push_option o (print_str_int "ping" (keepalive_ping o)) in
      let o := push_option o (print_str_int "ping-restart" (keepalive_timeout o)) in
      Ok o
    else
      ASSERT false;; Ok o
  else Ok o.

End Helper.

(* ===================================================================== *)
(** ** crc32.c, continued                                                 *)
(* ===================================================================== *)

Module Crc32Table.
Import Libc Crc32.

(** [const unsigned long *get_crc_table ()]: the table it returns, and
    the statics as the call leaves them. *)
Definition get_crc_table (st : crc_state) : list Z * crc_state :=
  let st := if truthy (crc_table_empty st) then make_crc_table st else st in
  (crc_table st, st).

(** One round of the shift register in [make_crc_table]:
    [c = c & 1 ? poly ^ (c >> 1) : c >> 1]. *)
Definition crc_round (c : Z) : Z :=
  if truthy (Z.land c 1) then Z.lxor poly (Z.shiftr c 1) else Z.shiftr c 1.

(** The statics as the program can have them: still marked empty, or
    holding the table [make_crc_table] stores. *)
Definition table_valid (st : crc_state) : Prop :=
  truthy (crc_table_empty st) = true \/
  crc_table st = crc_table (make_crc_table st).

End Crc32Table.

(* ===================================================================== *)
(** ** multi.h, built with FAST_IO: deferred post-processing             *)
(* ===================================================================== *)

Module MultiFastIo.
Import Libc Multi.

(** [a[i]] for an array given by its elements. *)
Definition array_get {A : Type} (a : list A) (i : Z) : outcome A :=
  if 0 <=? i then
    match a !! Z.to_nat i with Some x => Ok x | None => Fault end
  else Fault.

(** [a[i] = x] *)
Definition array_set {A : Type} (a : list A) (i : Z) (x : A) : outcome (list A) :=
  if (0 <=? i) && (i <? Z.of_nat (length a)) then Ok (<[Z.to_nat i := x]> a)
  else Fault.

(** [struct multi_postprocess_defer] (without FAST_IO_DEBUG). *)
Record multi_postprocess_defer : Type := {
  iter : Z;                 (* int *)
  n : Z;                    (* int *)
  list : list ptr           (* struct multi_instance *list[MPD_MAX_QUEUED_INSTANCES] *)
}.

(** With FAST_IO [struct multi_context] has the member [mpd] and every
    [struct multi_instance] the member [mpdi.queued].  The state of the
    deferral queue is [mpd] together with the [mpdi.queued] of each
    allocated instance, by address. *)
Record defer_state : Type := {
  mpd : multi_postprocess_defer;
  queued : gmap Z bool
}.

Section Limits.
(** The two limits are defined outside multi.h. *)
Variable MPD_MAX_QUEUED_INSTANCES : Z.
Variable MPD_MAX_ITERATIONS : Z.

(** [multi_postprocess_defer_add (m, mi)] *)
Definition multi_postprocess_defer_add (s : defer_state) (mi : ptr)
  : outcome defer_state :=
  let d := mpd s in
  (* ++m->mpd.iter; *)
  let d := {| iter := wrap_int (iter d + 1); n := n d; list := list d |} in
  match mi with
  | Some a =>
      q ← deref (queued s) mi;
      if negb q then
        ASSERT (n d <? MPD_MAX_QUEUED_INSTANCES);;
        (* m->mpd.list[m->mpd.n++] = mi; *)
        l ← array_set (list d) (n d) mi;
        let d := {| iter := iter d; n := wrap_int (n d + 1); list := l |} in
        (* mi->mpdi.queued = true; *)
        Ok {| mpd := d; queued := <[a := true]> (queued s) |}
      else Ok {| mpd := d; queued := queued s |}
  | None => Fault
  end.

(** [multi_postprocess_defer_get (m)]: the instance returned and the
    state afterwards. *)
Definition multi_postprocess_defer_get (s : defer_state)
  : outcome (ptr * defer_state) :=
  let d := mpd s in
  if n d >? 0 then
    (* mi = m->mpd.list[--m->mpd.n]; *)
    let d := {| iter := iter d; n := wrap_int (n d - 1); list := list d |} in
    mi ← array_get (list d) (n d);
    (* mi->mpdi.queued = false; *)
    match mi with
    | Some a =>
        _ ← deref (queued s) mi;
        Ok (mi, {| mpd := d; queued := <[a := false]> (queued s) |})
    | None => Fault
    end
  else Ok (NULL, s).

(** [multi_postprocess_defer_must_flush (m)], with
    [m->top.c2.event_set_status_hint] as an argument. *)
Definition multi_postprocess_defer_must_flush (event_set_status_hint : bool)
    (s : defer_state) : bool :=
  negb event_set_status_hint
  || (iter (mpd s) >=? MPD_MAX_ITERATIONS)
  || (n (mpd s) =? MPD_MAX_QUEUED_INSTANCES).

(** What the queue is between calls: the first [n] slots of the array
    hold, without repetition, the allocated instances whose
    [mpdi.queued] is set. *)
Definition defer_inv (s : defer_state) : Prop :=
  Z.of_nat (length (list (mpd s))) = MPD_MAX_QUEUED_INSTANCES /\
  0 <= n (mpd s) <= MPD_MAX_QUEUED_INSTANCES /\
  MPD_MAX_QUEUED_INSTANCES <= INT_MAX /\
  NoDup (take (Z.to_nat (n (mpd s))) (list (mpd s))) /\
  forall mi : ptr,
    mi ∈ take (Z.to_nat (n (mpd s))) (list (mpd s)) <->
    exists a : Z, mi = Some a /\ queued s !! a = Some true.
End Limits.

End MultiFastIo.

(* ===================================================================== *)
(** ** tun.c                                                              *)
(* ===================================================================== *)

Module Tun.
Import Libc.
Import Stdlib.Strings.Ascii.

(** [rindex (s, c)] for a character [c] other than NUL: the part of [s]
    that starts at the last [c], or NULL.  A pointer into a string is
    kept as the part of the string it points at. *)
Fixpoint rindex (s : string) (c : ascii) : option string :=
  match s with
  | EmptyString => None
  | String a rest =>
      match rindex rest c with
      | Some p => Some p
      | None => if Ascii.eqb a c then Some s else None
      end
  end.

(** [*p] is not NUL. *)
Definition not_at_end (p : string) : bool :=
  match p with EmptyString => false | String _ _ => true end.

(** [++p] *)
Definition next_char (p : string) : string :=
  match p with EmptyString => EmptyString | String _ rest => rest end.

(** [const char *dev_component_in_dev_node (const char *dev_node)] *)
Definition dev_component_in_dev_node (dev_node : option string) : option string :=
  let dirsep := "/"%char in
  match dev_node with
  | Some dev_node =>
      let ret :=
        match rindex dev_node dirsep with
        | Some ret => if not_at_end ret then next_char ret else dev_node
        | None => dev_node
        end in
      if not_at_end ret then Some ret else None
  | None => None
  end.

(** Whether the character occurs in the string. *)
Fixpoint occurs (c : ascii) (s : string) : bool :=
  match s with
  | EmptyString => false
  | String a rest => Ascii.eqb a c || occurs c rest
  end.

End Tun.

(* ===================================================================== *)
(** ** proto.h: the IEEE 802.1Q header                                    *)
(* ===================================================================== *)

Module Proto.
Import Libc.

(** Conversion to [uint16_t]. *)
Definition wrap_u16 (x : Z) : Z := x mod 2 ^ 16.

(** [struct openvpn_8021qhdr]; the two-byte fields hold the value the
    host reads from them. *)
Record openvpn_8021qhdr := {
  dest : list Z;
  source : list Z;
  tpid : Z;
  pcp_cfi_vid : Z;
  proto : Z
}.

Definition set_pcp_cfi_vid (hdr : openvpn_8021qhdr) (v : Z) : openvpn_8021qhdr :=
  {| dest := dest hdr; source := source hdr; tpid := tpid hdr;
     pcp_cfi_vid := v; proto := proto hdr |}.

Section ByteOrder.

(** The byte order of the host: [htons] and [ntohs] of the C library are
    the identity on a big-endian host and swap the two bytes on a
    little-endian one. *)
Variable big_endian : bool.

Definition bswap_16 (x : Z) : Z :=
  Z.lor (Z.shiftl (Z.land x 255) 8) (Z.land (Z.shiftr x 8) 255).

Definition htons (x : Z) : Z :=
  if big_endian then wrap_u16 x else bswap_16 x.

Definition ntohs (x : Z) : Z := htons x.

Definition OPENVPN_8021Q_MASK_VID : Z := htons 0x0FFF.
Definition OPENVPN_8021Q_MASK_PCP : Z := htons 0xE000.
Definition OPENVPN_8021Q_MASK_CFI : Z := htons 0x1000.

(** [uint16_t vlanhdr_get_pcp (const struct openvpn_8021qhdr *hdr)] *)
Definition vlanhdr_get_pcp (hdr : openvpn_8021qhdr) : Z :=
  ntohs (Z.land (pcp_cfi_vid hdr) OPENVPN_8021Q_MASK_PCP).

(** [uint16_t vlanhdr_get_cfi (const struct openvpn_8021qhdr *hdr)] *)
Definition vlanhdr_get_cfi (hdr : openvpn_8021qhdr) : Z :=
  ntohs (Z.land (pcp_cfi_vid hdr) OPENVPN_8021Q_MASK_CFI).

(** [uint16_t vlanhdr_get_vid (const struct openvpn_8021qhdr *hdr)] *)
Definition vlanhdr_get_vid (hdr : openvpn_8021qhdr) : Z :=
  ntohs (Z.land (pcp_cfi_vid hdr) OPENVPN_8021Q_MASK_VID).

(** [void vlanhdr_set_pcp (struct openvpn_8021qhdr *hdr, const uint16_t pcp)];
    [~] is taken on the mask promoted to [int], the result is stored in
    a [uint16_t]. *)
Definition vlanhdr_set_pcp (hdr : openvpn_8021qhdr) (pcp : Z) : openvpn_8021qhdr :=
  set_pcp_cfi_vid hdr
    (wrap_u16 (Z.lor (Z.land (pcp_cfi_vid hdr) (Z.lnot OPENVPN_8021Q_MASK_PCP))
                     (Z.land (htons pcp) OPENVPN_8021Q_MASK_PCP))).

(** [void vlanhdr_set_cfi (struct openvpn_8021qhdr *hdr, const uint16_t cfi)] *)
Definition vlanhdr_set_cfi (hdr : openvpn_8021qhdr) (cfi : Z) : openvpn_8021qhdr :=
  set_pcp_cfi_vid hdr
    (wrap_u16 (Z.lor (Z.land (pcp_cfi_vid hdr) (Z.lnot OPENVPN_8021Q_MASK_CFI))
                     (Z.land (htons cfi) OPENVPN_8021Q_MASK_CFI))).

(** [void vlanhdr_set_vid (struct openvpn_8021qhdr *hdr, const uint16_t vid)] *)
Definition vlanhdr_set_vid (hdr : openvpn_8021qhdr) (vid : Z) : openvpn_8021qhdr :=
  set_pcp_cfi_vid hdr
    (wrap_u16 (Z.lor (Z.land (pcp_cfi_vid hdr) (Z.lnot OPENVPN_8021Q_MASK_VID))
                     (Z.land (htons vid) OPENVPN_8021Q_MASK_VID))).

End ByteOrder.

(** Where [htons] takes bit [i] of its result from. *)
Definition swapped_bit (big_endian : bool) (i : Z) : Z :=
  if big_endian then i else if i <? 8 then i + 8 else i - 8.

End Proto.

(* ===================================================================== *)
(** ** Sample values used by the examples below                           *)
(* ===================================================================== *)

Module Samples.
Import Libc.

Section Keys.
Import Mroute.

Definition ipv4_key (a b c d port_hi port_lo : Z) : mroute_addr :=
  {| len := 6; unused := 0; type := Z.lor MR_ADDR_IPV4 MR_WITH_PORT;
     netbits := 0;
     addr := [a; b; c; d; port_hi; port_lo] ++ replicate 14 0 |}.

(** The bytes beyond [len] and the [unused] member do not count. *)
Definition ipv4_key_dirty (a b c d port_hi port_lo : Z) : mroute_addr :=
  {| len := 6; unused := 255; type := Z.lor MR_ADDR_IPV4 MR_WITH_PORT;
     netbits := 0;
     addr := [a; b; c; d; port_hi; port_lo] ++ replicate 14 170 |}.

(** Any function will do for the witness; this one adds the bytes up. *)
Definition sum_hash (region : list Z) (iv : Z) : Z :=
  wrap_u32 (fold_left Z.add region iv).

End Keys.

Section Instances.
Import Multi.

Definition sample_instance (halted : bool) (refs : Z) : multi_instance :=
  {| defined := true; halt := halted; refcount := refs; created := 1000;
     wakeup := {| tv_sec := 1010; tv_usec := 0 |};
     real := ipv4_key 192 0 2 1 4 170;
     did_open_context := true; did_real_hash := true; did_iter := true;
     connection_established_flag := true; did_iroutes := false |}.

(** A route to the instance at address 100. *)
Definition sample_route (fl gen last : Z) : multi_route :=
  {| addr := ipv4_key 10 8 0 6 0 0; instance := Some 100; flags := fl;
     cache_generation := gen; last_reference := last |}.

(** One instance at address 100 and one cached, ageable route to it at
    address 200. *)
Definition sample_heap (halted : bool) (refs : Z) : heap :=
  {| instances := {[ 100 := sample_instance halted refs ]};
     routes := {[ 200 := sample_route 768 3 1000 ]} |}.

Definition sample_helper : Mroute.mroute_helper :=
  {| Mroute.cache_generation := 3; Mroute.ageable_ttl_secs := 60;
     Mroute.n_net_len := 0; Mroute.net_len := [];
     Mroute.net_len_refcount := [] |}.

Definition sample_context (s : schedule) : multi_context :=
  {| sched := s; route_helper := sample_helper; enable_c2c := true;
     max_clients := 1024; tcp_queue_limit := 64; per_second_trigger := 0;
     pending := NULL; earliest_wakeup := Some 100 |}.

(** [n] calls of [multi_instance_dec_refcount] on the same instance, as
    when [n] routes to it are deleted one after the other. *)
Fixpoint dec_refcount_times (n : nat) (h : heap) (mi : ptr) : outcome heap :=
  match n with
  | O => Ok h
  | S n' => h' ← multi_instance_dec_refcount h mi; dec_refcount_times n' h' mi
  end.
End Instances.

Section Options.
Import Helper.

(** An IPv4 address in host order, from its dotted-quad form. *)
Definition in_addr (a b c d : Z) : Z := a * 2 ^ 24 + b * 2 ^ 16 + c * 2 ^ 8 + d.

(** Options as the parser leaves them for a configuration that names a
    device, a mode, possibly [--server net mask] and [--keepalive ping
    timeout], and nothing else. *)
Definition sample_options (device : string) (md : Z) (server : bool)
    (net mask : Z) (ping timeout : Z) : options :=
  {| dev := Some device; dev_type := None; mode := md; proto := PROTO_UDPv4;
     tls_server := false; tls_client := false; pull := false; client := false;
     shared_secret_file := None; ifconfig_local := None;
     ifconfig_remote_netmask := None; routes := []; enable_c2c := false;
     server_defined := server; server_network := net; server_netmask := mask;
     server_bridge_defined := false; server_bridge_ip := 0;
     server_bridge_netmask := 0; server_bridge_pool_start := 0;
     server_bridge_pool_end := 0; ifconfig_pool_defined := false;
     ifconfig_pool_start := 0; ifconfig_pool_end := 0;
     ifconfig_pool_netmask := 0; ifconfig_pool_linear := false;
     push_list := []; keepalive_ping := ping; keepalive_timeout := timeout;
     ping_send_timeout := 0; ping_rec_timeout := 0;
     ping_rec_timeout_action := PING_UNDEF |}.

(** What holds of every prefix mask of at most 29 bits, as a test. *)
Definition prefix_mask_check (netbits : Z) : bool :=
  let m := netbits_to_netmask netbits in
  (0 <=? m) && (m <=? 2 ^ 32 - 8) && (Z.land m 7 =? 0)
  && (Z.land m (lnot_u32 m) =? 0) && (lnot_u32 m =? 2 ^ 32 - 1 - m)
  && Bool.eqb (netbits =? 29) (m =? 0xfffffff8).
End Options.

Section MoreOptions.
Import Helper.

(** [--dev tap0 --server-bridge 10.8.0.4 255.255.255.0 10.8.0.128
    10.8.0.254], the example in the source. *)
Definition sample_bridge_options : options :=
  {| dev := Some "tap0"; dev_type := None; mode := MODE_POINT_TO_POINT;
     proto := PROTO_UDPv4;
     tls_server := false; tls_client := false; pull := false; client := false;
     shared_secret_file := None; ifconfig_local := None;
     ifconfig_remote_netmask := None; routes := []; enable_c2c := false;
     server_defined := false; server_network := 0; server_netmask := 0;
     server_bridge_defined := true; server_bridge_ip := in_addr 10 8 0 4;
     server_bridge_netmask := in_addr 255 255 255 0;
     server_bridge_pool_start := in_addr 10 8 0 128;
     server_bridge_pool_end := in_addr 10 8 0 254;
     ifconfig_pool_defined := false;
     ifconfig_pool_start := 0; ifconfig_pool_end := 0;
     ifconfig_pool_netmask := 0; ifconfig_pool_linear := false;
     push_list := []; keepalive_ping := 0; keepalive_timeout := 0;
     ping_send_timeout := 0; ping_rec_timeout := 0;
     ping_rec_timeout_action := PING_UNDEF |}.

(** [--dev tun0 --client --proto tcp] *)
Definition sample_tcp_client_options : options :=
  {| dev := Some "tun0"; dev_type := None; mode := MODE_POINT_TO_POINT;
     proto := PROTO_TCPv4;
     tls_server := false; tls_client := false; pull := false; client := true;
     shared_secret_file := None; ifconfig_local := None;
     ifconfig_remote_netmask := None; routes := []; enable_c2c := false;
     server_defined := false; server_network := 0; server_netmask := 0;
     server_bridge_defined := false; server_bridge_ip := 0;
     server_bridge_netmask := 0; server_bridge_pool_start := 0;
     server_bridge_pool_end := 0; ifconfig_pool_defined := false;
     ifconfig_pool_start := 0; ifconfig_pool_end := 0;
     ifconfig_pool_netmask := 0; ifconfig_pool_linear := false;
     push_list := []; keepalive_ping := 0; keepalive_timeout := 0;
     ping_send_timeout := 0; ping_rec_timeout := 0;
     ping_rec_timeout_action := PING_UNDEF |}.

End MoreOptions.

Section Queue.
Import Multi MultiFastIo.

(** A queue of four slots that holds instance 100; instance 101 is
    allocated and not queued. *)
Definition sample_defer : defer_state :=
  {| mpd := {| iter := 0; n := 1; list := [Some 100; NULL; NULL; NULL] |};
     queued := <[100 := true]> (<[101 := false]> ∅) |}.

End Queue.

End Samples.

(** Proof steps that recur below. *)

(** Close a goal [exists b, f = Ok b /\ (b = true <-> P)] where [f] has
    reduced to [Ok false] and a hypothesis contradicts [P]. *)
Ltac answer_false :=
  exists false; split; [reflexivity | split; [discriminate | tauto]].

(** Turn boolean comparisons among the hypotheses into propositions. *)
Ltac reflect_comparisons :=
  repeat match goal with
         | H : (_ <=? _) = true |- _ => apply Z.leb_le in H
         | H : (_ =? _) = true |- _ => apply Z.eqb_eq in H
         | H : Bool.eqb _ _ = true |- _ => apply Bool.eqb_prop in H
         end.

(* ===================================================================== *)
(** * Properties                                                          *)
(* ===================================================================== *)

(** ** Libc *)

Section LibcFacts.
Import Libc.

Lemma wrap_int_id (z : Z) : in_int z -> wrap_int z = z.
Proof.
  unfold in_int, INT_MIN, INT_MAX, wrap_int. intros Hz.
  rewrite Z.mod_small by lia. lia.
Qed.

Lemma wrap_int_range (z : Z) : in_int (wrap_int z).
Proof.
  unfold in_int, INT_MIN, INT_MAX, wrap_int.
  pose proof (Z.mod_pos_bound (z + 2 ^ 31) (2 ^ 32)). lia.
Qed.

Lemma wrap_time_id (z : Z) : in_time z -> wrap_time z = z.
Proof.
  unfold in_time, TIME_MIN, TIME_MAX, wrap_time. intros Hz.
  rewrite Z.mod_small by lia. lia.
Qed.

Lemma wrap_u32_id (z : Z) : 0 <= z < 2 ^ 32 -> wrap_u32 z = z.
Proof. unfold wrap_u32. intros Hz. apply Z.mod_small. lia. Qed.

Lemma truthy_true (z : Z) : truthy z = true <-> z <> 0.
Proof. unfold truthy. destruct (Z.eqb_spec z 0); simpl; split; congruence. Qed.

Lemma truthy_false (z : Z) : truthy z = false <-> z = 0.
Proof. unfold truthy. destruct (Z.eqb_spec z 0); simpl; split; congruence. Qed.

(** On strings of the same length [bytes_cmp] is zero exactly on equal
    strings. *)
Lemma bytes_cmp_zero (s1 : list Z) :
  forall s2 : list Z, length s1 = length s2 -> (bytes_cmp s1 s2 = 0 <-> s1 = s2).
Proof.
  induction s1 as [|b1 t1 IH]; intros [|b2 t2] Hlen; simpl in *; try discriminate.
  - split; reflexivity.
  - destruct (Z.eqb_spec b1 b2) as [->|Hne].
    + rewrite IH by congruence. split; congruence.
    + split; [lia | congruence].
Qed.

Lemma memcmp_in_bounds (s1 s2 : list Z) (n : Z) :
  0 <= n -> n <= Z.of_nat (length s1) -> n <= Z.of_nat (length s2) ->
  memcmp s1 s2 n = Ok (bytes_cmp (take (Z.to_nat n) s1) (take (Z.to_nat n) s2)).
Proof.
  intros H0 H1 H2. unfold memcmp.
  destruct (Z.leb_spec 0 n); [|lia].
  destruct (Z.leb_spec n (Z.of_nat (length s1))); [|lia].
  destruct (Z.leb_spec n (Z.of_nat (length s2))); [|lia].
  reflexivity.
Qed.

Lemma memcmp_Ok_bounds (s1 s2 : list Z) (n r : Z) :
  memcmp s1 s2 n = Ok r ->
  0 <= n /\ n <= Z.of_nat (length s1) /\ n <= Z.of_nat (length s2).
Proof.
  unfold memcmp.
  destruct (Z.leb_spec 0 n); simpl; [|discriminate].
  destruct (Z.leb_spec n (Z.of_nat (length s1))); simpl; [|discriminate].
  destruct (Z.leb_spec n (Z.of_nat (length s2))); simpl; [|discriminate].
  lia.
Qed.

End LibcFacts.

(** ** crc32.c *)

Section Crc32Facts.
Import Libc Crc32.

Example poly_value : poly = 0xedb88320.
Proof. reflexivity. Qed.

(** The check value of CRC-32 on the ASCII digits 1 to 9, starting from
    the statics as the program starts with them. *)
Example crc32_check_value :
  fst (crc32 initial_state 0 (Some [49; 50; 51; 52; 53; 54; 55; 56; 57]) 9)
  = Ok 0xCBF43926.
Proof. vm_compute. reflexivity. Qed.

(** That call has built the table. *)
Example crc32_builds_table :
  crc_table_empty
    (snd (crc32 initial_state 0 (Some [49; 50; 51; 52; 53; 54; 55; 56; 57]) 9))
  = 0.
Proof. reflexivity. Qed.

(** With a buffer that is not null and no bytes to read, the result is
    the incoming crc, not zero. *)
Example crc32_empty_buffer : fst (crc32 initial_state 5 (Some []) 0) = Ok 5.
Proof. vm_compute. reflexivity. Qed.

(** Asking for more bytes than the buffer holds reads outside it. *)
Example crc32_short_buffer : fst (crc32 initial_state 0 (Some [49; 50]) 3) = Fault.
Proof. vm_compute. reflexivity. Qed.

(** C10.  When [buf] is NULL, [crc32 (crc, buf, len)] returns 0 for every
    incoming crc and every length: the result does not depend on either.
    Nothing is read, and the statics of crc32.c are left as they were
    (the table is not even built). *)
Theorem crc32_null_buffer (st : crc_state) (crc len : Z) :
  fst (crc32 st crc None len) = Ok 0 /\
  snd (crc32 st crc None len) = st /\
  forall crc' len' : Z, crc32 st crc' None len' = crc32 st crc None len.
Proof.
  unfold crc32. split; [|split].
  - reflexivity.
  - reflexivity.
  - intros crc' len'. reflexivity.
Qed.

End Crc32Facts.

(** ** session_id.h *)

Section SessionIdFacts.
Import Libc SessionId.

Lemma session_id_size_argument : Z.b2z (negb (sizeof_session_id =? 0)) = 1.
Proof. reflexivity. Qed.

Lemma session_id_defined_hd (sid : session_id) :
  wf_session_id sid ->
  session_id_defined sid = Ok (negb (hd 0 (id sid) =? 0)).
Proof.
  unfold wf_session_id, session_id_defined. intros Hwf.
  rewrite session_id_size_argument. unfold sizeof_session_id in Hwf.
  destruct sid as [[|b rest]]; cbn [id length hd] in *; [lia|].
  assert (Hzero : length (id _session_id_zero) = 8%nat) by reflexivity.
  rewrite memcmp_in_bounds by (cbn [length]; lia). simpl.
  unfold truthy. destruct (Z.eqb_spec b 0) as [->|Hb]; simpl; [reflexivity|].
  destruct (Z.eqb_spec (b - 0) 0); [lia | reflexivity].
Qed.

(** With the size written as intended, all eight bytes count. *)
Lemma session_id_equal_zero (sid : session_id) :
  wf_session_id sid ->
  session_id_equal sid _session_id_zero
  = Ok (bool_decide (id sid = id _session_id_zero)).
Proof.
  unfold wf_session_id, session_id_equal, sizeof_session_id. intros Hwf.
  assert (Hzero : length (id _session_id_zero) = 8%nat) by reflexivity.
  rewrite memcmp_in_bounds by lia.
  rewrite !firstn_all2 by lia. simpl. f_equal.
  pose proof (bytes_cmp_zero (id sid) (replicate 8 0)) as Hcmp.
  unfold truthy. case_bool_decide as Heq.
  - simpl in Heq. apply Hcmp in Heq; [|simpl; lia]. simpl in Heq.
    rewrite Heq. reflexivity.
  - destruct (Z.eqb_spec (bytes_cmp (id sid) [0; 0; 0; 0; 0; 0; 0; 0]) 0) as [E|E];
      [|reflexivity].
    apply Hcmp in E; [|simpl; lia]. contradiction.
Qed.

(** C6.  The size argument of [memcmp] in [session_id_defined] is the
    value of [sizeof (struct session_id) != 0], that is 1, so only the
    first byte of the id is compared with [_session_id_zero]: the id is
    reported as defined exactly when its first byte is not zero, and an
    id whose first byte is zero is reported as not defined even though
    another of its bytes is not zero (and it differs from the zero id). *)
Theorem session_id_defined_first_byte_only (sid : session_id)
    (Hwf : wf_session_id sid) :
  Z.b2z (negb (sizeof_session_id =? 0)) = 1 /\
  session_id_defined sid = Ok (negb (hd 0 (id sid) =? 0)) /\
  (hd 0 (id sid) = 0 -> Exists (fun b => b <> 0) (tl (id sid)) ->
   session_id_defined sid = Ok false /\
   session_id_equal sid _session_id_zero = Ok false).
Proof.
  split; [reflexivity|]. split; [apply session_id_defined_hd; assumption|].
  intros Hhd Hex. split.
  - rewrite session_id_defined_hd, Hhd by assumption. reflexivity.
  - rewrite session_id_equal_zero by assumption. f_equal.
    apply bool_decide_eq_false. intros Heq.
    destruct sid as [[|b rest]]; simpl in *; [inversion Hex|].
    injection Heq as _ ->.
    repeat (apply Exists_cons in Hex as [Hex|Hex]; [congruence|]).
    inversion Hex.
Qed.

Lemma session_id_defined_first_byte_only_witness :
  wf_session_id {| id := [0; 0; 0; 7; 0; 0; 0; 0] |} /\
  session_id_defined {| id := [0; 0; 0; 7; 0; 0; 0; 0] |} = Ok false /\
  session_id_equal {| id := [0; 0; 0; 7; 0; 0; 0; 0] |} _session_id_zero = Ok false.
Proof.
  split; [reflexivity|].
  apply (session_id_defined_first_byte_only {| id := [0; 0; 0; 7; 0; 0; 0; 0] |});
    [reflexivity | reflexivity |].
  simpl. do 2 apply Exists_cons_tl. apply Exists_cons_hd. lia.
Defined.

End SessionIdFacts.

(** ** mroute.h *)

Section MrouteFacts.
Import Libc Mroute Samples.

Lemma mroute_addr_equal_true (a1 a2 : mroute_addr) :
  mroute_addr_equal a1 a2 = Ok true ->
  same_key a1 a2 /\
  0 <= len a1 <= Z.of_nat (length (addr a1)) /\
  len a1 <= Z.of_nat (length (addr a2)).
Proof.
  unfold mroute_addr_equal, same_key.
  destruct (Z.eqb_spec (type a1) (type a2)) as [Ht|Ht]; simpl; [|discriminate].
  destruct (Z.eqb_spec (netbits a1) (netbits a2)) as [Hn|Hn]; simpl; [|discriminate].
  destruct (Z.eqb_spec (len a1) (len a2)) as [Hl|Hl]; simpl; [|discriminate].
  destruct (memcmp (addr a1) (addr a2) (len a1)) as [r| | |] eqn:Hm;
    simpl; try discriminate.
  intros Hr. injection Hr as Hr. apply Z.eqb_eq in Hr. subst r.
  pose proof (memcmp_Ok_bounds _ _ _ _ Hm) as (H0 & H1 & H2).
  rewrite memcmp_in_bounds in Hm by assumption. injection Hm as Hm.
  apply bytes_cmp_zero in Hm; [|rewrite !length_take; lia].
  repeat split; (assumption || lia).
Qed.

(** C5.  On two addresses as the C type has them, [mroute_addr_equal]
    returns a truth value, and it is true exactly when the two have the
    same type, the same netbits, the same len and the same first [len]
    bytes of addr. *)
Theorem mroute_addr_equal_iff (a1 a2 : mroute_addr)
    (Hwf1 : wf_mroute_addr a1) (Hwf2 : wf_mroute_addr a2) :
  exists b : bool,
    mroute_addr_equal a1 a2 = Ok b /\
    (b = true <->
     type a1 = type a2 /\ netbits a1 = netbits a2 /\ len a1 = len a2 /\
     take (Z.to_nat (len a1)) (addr a1) = take (Z.to_nat (len a1)) (addr a2)).
Proof.
  destruct Hwf1 as [Hlen1 Hl1], Hwf2 as [Hlen2 Hl2].
  unfold mroute_addr_equal.
  destruct (Z.eqb_spec (type a1) (type a2)) as [Ht|Ht]; simpl;
    [|answer_false].
  destruct (Z.eqb_spec (netbits a1) (netbits a2)) as [Hn|Hn]; simpl;
    [|answer_false].
  destruct (Z.eqb_spec (len a1) (len a2)) as [Hl|Hl]; simpl;
    [|answer_false].
  rewrite memcmp_in_bounds by lia. simpl.
  eexists; split; [reflexivity|].
  rewrite Z.eqb_eq, bytes_cmp_zero by (rewrite !length_take; lia).
  tauto.
Qed.

Lemma mroute_addr_equal_iff_witness :
  wf_mroute_addr (ipv4_key 10 8 0 6 4 170) /\
  wf_mroute_addr (ipv4_key_dirty 10 8 0 6 4 170) /\
  exists b : bool,
    mroute_addr_equal (ipv4_key 10 8 0 6 4 170) (ipv4_key_dirty 10 8 0 6 4 170)
    = Ok b /\
    (b = true <->
     type (ipv4_key 10 8 0 6 4 170) = type (ipv4_key_dirty 10 8 0 6 4 170) /\
     netbits (ipv4_key 10 8 0 6 4 170) = netbits (ipv4_key_dirty 10 8 0 6 4 170) /\
     len (ipv4_key 10 8 0 6 4 170) = len (ipv4_key_dirty 10 8 0 6 4 170) /\
     take (Z.to_nat (len (ipv4_key 10 8 0 6 4 170))) (addr (ipv4_key 10 8 0 6 4 170))
     = take (Z.to_nat (len (ipv4_key 10 8 0 6 4 170)))
         (addr (ipv4_key_dirty 10 8 0 6 4 170))).
Proof.
  assert (Hwf1 : wf_mroute_addr (ipv4_key 10 8 0 6 4 170))
    by (split; [reflexivity | unfold MR_MAX_ADDR_LEN; simpl; lia]).
  assert (Hwf2 : wf_mroute_addr (ipv4_key_dirty 10 8 0 6 4 170))
    by (split; [reflexivity | unfold MR_MAX_ADDR_LEN; simpl; lia]).
  split; [exact Hwf1|]. split; [exact Hwf2|].
  exact (mroute_addr_equal_iff _ _ Hwf1 Hwf2).
Defined.

Example mroute_addr_equal_dirty :
  mroute_addr_equal (ipv4_key 10 8 0 6 4 170) (ipv4_key_dirty 10 8 0 6 4 170)
  = Ok true.
Proof. reflexivity. Qed.

Example mroute_addr_equal_other_port :
  mroute_addr_equal (ipv4_key 10 8 0 6 4 170) (ipv4_key 10 8 0 6 4 171)
  = Ok false.
Proof. reflexivity. Qed.

(** A length beyond the array makes [memcmp] read outside it. *)
Example mroute_addr_equal_overlong :
  mroute_addr_equal
    {| len := 21; unused := 0; type := 1; netbits := 0; addr := replicate 20 0 |}
    {| len := 21; unused := 0; type := 1; netbits := 0; addr := replicate 20 0 |}
  = Fault.
Proof. reflexivity. Qed.

(** The hashed region of a well-formed address: the type, the netbits and
    the first [len] bytes of the address. *)
Lemma mroute_addr_hash_region_eq (a : mroute_addr) :
  0 <= len a <= 255 -> len a <= Z.of_nat (length (addr a)) ->
  mroute_addr_hash_region a
  = Ok (type a :: netbits a :: take (Z.to_nat (len a)) (addr a)).
Proof.
  intros Hl Hlen.
  unfold mroute_addr_hash_region, mroute_addr_hash_ptr, mroute_addr_hash_len,
    read_bytes, mroute_addr_bytes, offsetof_type.
  rewrite !wrap_u32_id by (try rewrite wrap_u32_id; lia).
  cbn [app drop length].
  destruct (Z.leb_spec 0 (len a + 2)); [|lia].
  destruct (Z.leb_spec (len a + 2) (Z.of_nat (S (S (length (addr a))))));
    [|lia].
  cbn [andb]. f_equal.
  replace (Z.to_nat (len a + 2)) with (S (S (Z.to_nat (len a)))) by lia.
  reflexivity.
Qed.

(** C9.  When [mroute_addr_equal (a1, a2)] returns true, the regions used
    for hashing, the [mroute_addr_hash_len (a) = len + 2] bytes at
    [mroute_addr_hash_ptr (a)], which are the type, the netbits and the
    first [len] bytes of addr, are the same for [a1] and [a2]; so
    [mroute_addr_hash_function] returns the same hash for both, for every
    hash function of the region and every initial value [iv]. *)
Theorem mroute_addr_equal_same_hash (hash_func : list Z -> Z -> Z)
    (a1 a2 : mroute_addr)
    (Hwf1 : wf_mroute_addr a1) (Hwf2 : wf_mroute_addr a2)
    (Heq : mroute_addr_equal a1 a2 = Ok true) :
  mroute_addr_hash_len a1 = len a1 + 2 /\
  mroute_addr_hash_len a2 = mroute_addr_hash_len a1 /\
  mroute_addr_hash_region a1
  = Ok (type a1 :: netbits a1 :: take (Z.to_nat (len a1)) (addr a1)) /\
  mroute_addr_hash_region a2 = mroute_addr_hash_region a1 /\
  forall iv : Z,
    mroute_addr_hash_function hash_func a2 iv
    = mroute_addr_hash_function hash_func a1 iv /\
    exists hv : Z, mroute_addr_hash_function hash_func a1 iv = Ok hv.
Proof.
  destruct Hwf1 as [Hlen1 Hl1], Hwf2 as [Hlen2 Hl2].
  unfold MR_MAX_ADDR_LEN in *.
  apply mroute_addr_equal_true in Heq as ((Ht & Hn & Hl & Hb) & _).
  assert (Hr1 := mroute_addr_hash_region_eq a1 ltac:(lia) ltac:(lia)).
  assert (Hr2 := mroute_addr_hash_region_eq a2 ltac:(lia) ltac:(lia)).
  rewrite <- Ht, <- Hn, <- Hl, <- Hb in Hr2.
  assert (Hhl : forall a, 0 <= len a <= 20 -> mroute_addr_hash_len a = len a + 2).
  { intros a Ha. unfold mroute_addr_hash_len.
    rewrite !wrap_u32_id by (try rewrite wrap_u32_id; lia). reflexivity. }
  split; [apply Hhl; lia|].
  split; [rewrite !Hhl by lia; lia|].
  split; [exact Hr1|].
  split; [congruence|].
  intros iv. unfold mroute_addr_hash_function. rewrite Hr1, Hr2.
  split; [reflexivity | eexists; reflexivity].
Qed.

Lemma mroute_addr_equal_same_hash_witness :
  mroute_addr_hash_region (ipv4_key_dirty 10 8 0 6 4 170)
  = mroute_addr_hash_region (ipv4_key 10 8 0 6 4 170) /\
  mroute_addr_hash_function sum_hash (ipv4_key_dirty 10 8 0 6 4 170) 7
  = mroute_addr_hash_function sum_hash (ipv4_key 10 8 0 6 4 170) 7.
Proof.
  assert (Hwf1 : wf_mroute_addr (ipv4_key 10 8 0 6 4 170))
    by (split; [reflexivity | unfold MR_MAX_ADDR_LEN; simpl; lia]).
  assert (Hwf2 : wf_mroute_addr (ipv4_key_dirty 10 8 0 6 4 170))
    by (split; [reflexivity | unfold MR_MAX_ADDR_LEN; simpl; lia]).
  destruct (mroute_addr_equal_same_hash sum_hash _ _ Hwf1 Hwf2 eq_refl)
    as (_ & _ & _ & Hregion & Hhash).
  split; [exact Hregion | exact (proj1 (Hhash 7))].
Defined.

Example hash_region_example :
  mroute_addr_hash_region (ipv4_key_dirty 10 8 0 6 4 170)
  = Ok [10; 0; 10; 8; 0; 6; 4; 170].
Proof. reflexivity. Qed.

End MrouteFacts.

(** ** multi.h *)

Section MultiFacts.
Import Libc Multi Samples.

Lemma deref_live {A : Type} (objects : gmap Z A) (a : Z) (x : A) :
  objects !! a = Some x -> deref objects (Some a) = Ok x.
Proof. intros H. unfold deref. rewrite H. reflexivity. Qed.

(** C1.  For a route [r] whose target is an allocated instance,
    [multi_route_defined (m, r)] returns true if and only if the target
    is not halted, and, when [r] has the MULTI_ROUTE_CACHE flag, its
    cache_generation equals that of [m]'s route helper, and, when [r] has
    the MULTI_ROUTE_AGEABLE flag, [now - r.last_reference] is at most the
    helper's ageable_ttl_secs.  (The sum the code forms,
    [last_reference + ageable_ttl_secs], is taken to fit in a time_t.) *)
Theorem multi_route_defined_iff (now : Z) (h : heap) (m : multi_context)
    (r : multi_route) (a : Z) (mi : multi_instance)
    (Htarget : instance r = Some a)
    (Hlive : instances h !! a = Some mi)
    (Hsum : in_time (last_reference r
                     + Mroute.ageable_ttl_secs (route_helper m))) :
  exists b : bool,
    multi_route_defined now h m r = Ok b /\
    (b = true <->
     halt mi = false /\
     (Z.land (flags r) MULTI_ROUTE_CACHE <> 0 ->
      cache_generation r = Mroute.cache_generation (route_helper m)) /\
     (Z.land (flags r) MULTI_ROUTE_AGEABLE <> 0 ->
      now - last_reference r <= Mroute.ageable_ttl_secs (route_helper m))).
Proof.
  unfold multi_route_defined. rewrite Htarget, (deref_live _ _ _ Hlive).
  cbn [mbind outcome_bind multi_instance_ready negb].
  rewrite wrap_time_id by assumption. rewrite orb_false_r.
  destruct (halt mi).
  { exists false. split; [reflexivity|]. split; [discriminate|].
    intros (Hh & _). discriminate. }
  destruct (truthy (Z.land (flags r) MULTI_ROUTE_CACHE)) eqn:Hc;
    [apply truthy_true in Hc | apply truthy_false in Hc];
    (destruct (Z.eqb_spec (cache_generation r)
                 (Mroute.cache_generation (route_helper m))) as [Hg|Hg]);
    cbn [andb negb];
    try (exists false; split; [reflexivity|]; split; [discriminate|];
         intros (_ & Hgen & _); exfalso; apply Hg, Hgen, Hc);
    (destruct (truthy (Z.land (flags r) MULTI_ROUTE_AGEABLE)) eqn:Ha;
       [apply truthy_true in Ha | apply truthy_false in Ha]);
    (destruct (Z.ltb_spec
                 (last_reference r + Mroute.ageable_ttl_secs (route_helper m))
                 now) as [Hlt|Hge]);
    cbn [andb];
    try (exists true; split; [reflexivity|]; split; [|reflexivity];
         intros _; repeat split; intros; (congruence || lia));
    exists false; (split; [reflexivity|]); (split; [discriminate|]);
    intros (_ & _ & Hage); specialize (Hage Ha); lia.
Qed.

Lemma multi_route_defined_iff_witness :
  instance (sample_route 768 3 1000) = Some 100 /\
  instances (sample_heap false 2) !! 100 = Some (sample_instance false 2) /\
  in_time (1000 + 60) /\
  exists b : bool,
    multi_route_defined 1050 (sample_heap false 2) (sample_context [])
      (sample_route 768 3 1000) = Ok b /\
    (b = true <->
     halt (sample_instance false 2) = false /\
     (Z.land 768 MULTI_ROUTE_CACHE <> 0 -> 3 = 3) /\
     (Z.land 768 MULTI_ROUTE_AGEABLE <> 0 -> 1050 - 1000 <= 60)).
Proof.
  assert (Hsum : in_time (1000 + 60))
    by (unfold in_time, TIME_MIN, TIME_MAX; lia).
  split; [reflexivity|]. split; [reflexivity|]. split; [exact Hsum|].
  exact (multi_route_defined_iff 1050 (sample_heap false 2) (sample_context [])
           (sample_route 768 3 1000) 100 (sample_instance false 2)
           eq_refl eq_refl Hsum).
Defined.

Example route_defined_fresh :
  multi_route_defined 1050 (sample_heap false 2) (sample_context [])
    (sample_route 768 3 1000) = Ok true.
Proof. reflexivity. Qed.

Example route_defined_at_ttl :
  multi_route_defined 1060 (sample_heap false 2) (sample_context [])
    (sample_route 768 3 1000) = Ok true.
Proof. reflexivity. Qed.

Example route_defined_aged :
  multi_route_defined 1061 (sample_heap false 2) (sample_context [])
    (sample_route 768 3 1000) = Ok false.
Proof. reflexivity. Qed.

(** Without the AGEABLE flag the age does not count. *)
Example route_defined_not_ageable :
  multi_route_defined 5000 (sample_heap false 2) (sample_context [])
    (sample_route 256 3 1000) = Ok true.
Proof. reflexivity. Qed.

Example route_defined_stale_generation :
  multi_route_defined 1050 (sample_heap false 2) (sample_context [])
    (sample_route 768 2 1000) = Ok false.
Proof. reflexivity. Qed.

(** Without the CACHE flag the generation does not count. *)
Example route_defined_not_cached :
  multi_route_defined 1050 (sample_heap false 2) (sample_context [])
    (sample_route 512 2 1000) = Ok true.
Proof. reflexivity. Qed.

Example route_defined_halted :
  multi_route_defined 1050 (sample_heap true 2) (sample_context [])
    (sample_route 0 3 1000) = Ok false.
Proof. reflexivity. Qed.

(** The halt flag is read before the pointer is tested. *)
Example route_defined_null_instance :
  multi_route_defined 1050 (sample_heap false 2) (sample_context [])
    {| addr := ipv4_key 10 8 0 6 0 0; instance := NULL; flags := 0;
       cache_generation := 3; last_reference := 1000 |} = Fault.
Proof. reflexivity. Qed.

(** *** Reference counting *)

Lemma set_refcount_same (i : multi_instance) : set_refcount (refcount i) i = i.
Proof. destruct i; reflexivity. Qed.

Lemma set_refcount_twice (v w : Z) (i : multi_instance) :
  set_refcount v (set_refcount w i) = set_refcount v i.
Proof. reflexivity. Qed.

(** One decrement of a reference count in [2, INT_MAX] keeps the
    instance, with one reference less. *)
Lemma dec_refcount_keeps (h : heap) (a : Z) (i : multi_instance) :
  instances h !! a = Some i -> 2 <= refcount i <= INT_MAX ->
  multi_instance_dec_refcount h (Some a)
  = Ok (with_instances h
          (<[a := set_refcount (refcount i - 1) i]> (instances h))).
Proof.
  intros Hlive Hrc. unfold multi_instance_dec_refcount.
  rewrite (deref_live _ _ _ Hlive). cbn [mbind outcome_bind].
  rewrite wrap_int_id by (unfold in_int, INT_MIN, INT_MAX in *; lia).
  cbn [set_refcount refcount].
  destruct (Z.leb_spec (refcount i - 1) 0); [lia | reflexivity].
Qed.

(** The decrement of the last reference frees a halted instance and
    trips the assertion on one that is not halted. *)
Lemma dec_refcount_last (h : heap) (a : Z) (i : multi_instance) :
  instances h !! a = Some i -> refcount i = 1 ->
  multi_instance_dec_refcount h (Some a)
  = if halt i then Ok (with_instances h (delete a (instances h)))
    else AssertFail.
Proof.
  intros Hlive Hrc. unfold multi_instance_dec_refcount.
  rewrite (deref_live _ _ _ Hlive). cbn [mbind outcome_bind].
  rewrite Hrc. cbn [set_refcount refcount halt].
  change (wrap_int (1 - 1) <=? 0) with true. cbn iota.
  destruct (halt i); reflexivity.
Qed.

(** C7.  Under the invariant that the reference count of an allocated
    instance is at least 1 and reaches zero only after the instance was
    closed (the decrement of the last reference finds halt set),
    [multi_instance_dec_refcount] never fails its [ASSERT (mi->halt)];
    it frees the instance exactly when it brings the count to zero, and
    then halt is set; otherwise the instance stays allocated with one
    reference less.  Nothing else in the heap changes. *)
Theorem multi_instance_freed_at_zero (h : heap) (a : Z) (i : multi_instance)
    (Hlive : instances h !! a = Some i)
    (Hrefs : 1 <= refcount i <= INT_MAX)
    (Hinv : refcount i = 1 -> halt i = true) :
  exists h' : heap,
    multi_instance_dec_refcount h (Some a) = Ok h' /\
    (instances h' !! a = None <-> refcount i - 1 = 0) /\
    (instances h' !! a = None -> halt i = true) /\
    (refcount i - 1 <> 0 ->
     instances h' !! a = Some (set_refcount (refcount i - 1) i)) /\
    (forall q : Z, q <> a -> instances h' !! q = instances h !! q) /\
    routes h' = routes h.
Proof.
  destruct (Z.eq_dec (refcount i) 1) as [Hone|Hmore].
  - rewrite (dec_refcount_last h a i Hlive Hone), (Hinv Hone).
    eexists; split; [reflexivity|]. cbn [instances routes with_instances].
    rewrite lookup_delete_eq.
    repeat split; try (intros; (lia || reflexivity || congruence)).
    intros q Hq. apply lookup_delete_ne. congruence.
  - rewrite (dec_refcount_keeps h a i Hlive) by lia.
    eexists; split; [reflexivity|]. cbn [instances routes with_instances].
    rewrite lookup_insert_eq.
    repeat split; try (intros; (lia || reflexivity || congruence)).
    intros q Hq. apply lookup_insert_ne. congruence.
Qed.

Lemma multi_instance_freed_at_zero_witness :
  instances (sample_heap true 1) !! 100 = Some (sample_instance true 1) /\
  exists h' : heap,
    multi_instance_dec_refcount (sample_heap true 1) (Some 100) = Ok h' /\
    instances h' !! 100 = None /\
    routes h' = routes (sample_heap true 1).
Proof.
  split; [reflexivity|].
  destruct (multi_instance_freed_at_zero (sample_heap true 1) 100
              (sample_instance true 1) eq_refl
              ltac:(unfold INT_MAX; simpl; lia) ltac:(reflexivity))
    as (h' & Hrun & Hfreed & _ & _ & _ & Hroutes).
  exists h'. split; [exact Hrun|]. split; [|exact Hroutes].
  apply Hfreed. reflexivity.
Defined.

(** With [k] references, the first [k - 1] decrements keep the instance
    allocated: it is not destroyed before the count reaches zero. *)
Lemma dec_refcount_times_keeps (n : nat) :
  forall (h : heap) (a : Z) (i : multi_instance),
    instances h !! a = Some i ->
    Z.of_nat n < refcount i -> refcount i <= INT_MAX ->
    exists h' : heap,
      Samples.dec_refcount_times n h (Some a) = Ok h' /\
      instances h' !! a = Some (set_refcount (refcount i - Z.of_nat n) i) /\
      routes h' = routes h.
Proof.
  induction n as [|n IH]; intros h a i Hlive Hn Hmax.
  - exists h. split; [reflexivity|]. split; [|reflexivity].
    rewrite Hlive, Z.sub_0_r, set_refcount_same. reflexivity.
  - cbn [Samples.dec_refcount_times].
    rewrite (dec_refcount_keeps h a i Hlive) by lia.
    cbn [mbind outcome_bind].
    edestruct (IH (with_instances h
                     (<[a := set_refcount (refcount i - 1) i]> (instances h)))
                 a (set_refcount (refcount i - 1) i))
      as (h' & Hrun & Hinst & Hroutes).
    + cbn [instances with_instances]. apply lookup_insert_eq.
    + cbn [set_refcount refcount]. lia.
    + cbn [set_refcount refcount]. lia.
    + exists h'. split; [exact Hrun|]. split; [|exact Hroutes].
      rewrite Hinst, set_refcount_twice. cbn [set_refcount refcount].
      do 2 f_equal. lia.
Qed.

(** Deleting the last route to a halted instance frees both. *)
Example multi_route_del_last :
  (h' ← multi_route_del (sample_heap true 1) (Some 200);
   Ok (instances h' !! 100, routes h' !! 200))
  = Ok (None, None).
Proof. vm_compute. reflexivity. Qed.

(** Deleting one of two routes frees the route only. *)
Example multi_route_del_shared :
  (h' ← multi_route_del (sample_heap true 2) (Some 200);
   Ok (refcount <$> instances h' !! 100, routes h' !! 200))
  = Ok (Some 1, None).
Proof. vm_compute. reflexivity. Qed.

(** Where the invariant is broken the assertion fails. *)
Example dec_refcount_not_halted :
  multi_instance_dec_refcount (sample_heap false 1) (Some 100) = AssertFail.
Proof. vm_compute. reflexivity. Qed.

(** A freed instance cannot be released again. *)
Example dec_refcount_twice :
  Samples.dec_refcount_times 2 (sample_heap true 1) (Some 100) = Fault.
Proof. vm_compute. reflexivity. Qed.

(** *** Timeouts *)

(** What [tv_delta] stores is a time of day in normal form. *)
Lemma tv_delta_normal (t1 t2 : timeval) :
  0 <= tv_sec (tv_delta t1 t2) /\ 0 <= tv_usec (tv_delta t1 t2) < 1000000.
Proof.
  unfold tv_delta.
  destruct (Z.ltb_spec (tv_usecs t2 - tv_usecs t1) 0); cbn [tv_sec tv_usec].
  - lia.
  - split; [apply Z.div_pos; lia | apply Z.mod_pos_bound; lia].
Qed.

(** Its seconds are at least [n] exactly when [t2] is [n] or more
    seconds after [t1]. *)
Lemma tv_delta_sec_ge (t1 t2 : timeval) (n : Z) :
  0 < n ->
  (n <= tv_sec (tv_delta t1 t2) <-> n * 1000000 <= tv_usecs t2 - tv_usecs t1).
Proof.
  intros Hn. unfold tv_delta.
  destruct (Z.ltb_spec (tv_usecs t2 - tv_usecs t1) 0); cbn [tv_sec].
  - lia.
  - split; intros Hle.
    + pose proof (Z.mul_div_le (tv_usecs t2 - tv_usecs t1) 1000000). lia.
    + apply Z.div_le_lower_bound; lia.
Qed.

(** C4.  [multi_get_timeout] always stores in [dest] a time of at most
    REAP_MAX_WAKEUP = 10 seconds.  When the schedule has no earliest
    wakeup, or the earliest wakeup lies 10 seconds or more after the
    current time, it stores exactly 10 seconds and 0 microseconds and
    leaves [m->earliest_wakeup] NULL. *)
Theorem multi_get_timeout_clamped (clock : timeval) (m : multi_context) :
  exists (m' : multi_context) (dest : timeval),
    multi_get_timeout clock m = Ok (m', dest) /\
    (0 <= tv_usec dest < 1000000 /\
     0 <= tv_usecs dest <= REAP_MAX_WAKEUP * 1000000) /\
    ((schedule_get_earliest_wakeup (sched m) = None \/
      exists (e : Z) (tv : timeval),
        schedule_get_earliest_wakeup (sched m) = Some (e, tv) /\
        REAP_MAX_WAKEUP * 1000000 <= tv_usecs tv - tv_usecs clock) ->
     dest = {| tv_sec := 10; tv_usec := 0 |} /\ earliest_wakeup m' = NULL).
Proof.
  unfold multi_get_timeout, REAP_MAX_WAKEUP.
  destruct (schedule_get_earliest_wakeup (sched m)) as [[e tv]|] eqn:Hearliest.
  - cbn [gettimeofday ASSERT truthy negb Z.eqb mbind outcome_bind].
    pose proof (tv_delta_normal clock tv) as (Hsec & Husec).
    pose proof (tv_delta_sec_ge clock tv 10 ltac:(lia)) as Hge.
    destruct (Z.geb_spec (tv_sec (tv_delta clock tv)) 10) as [Hbig|Hsmall].
    + do 2 eexists. split; [reflexivity|]. unfold tv_usecs.
      cbn [tv_sec tv_usec earliest_wakeup set_earliest_wakeup].
      split; [lia|]. intros _. split; reflexivity.
    + do 2 eexists. split; [reflexivity|]. unfold tv_usecs in *.
      split; [lia|]. intros [Hnone|(e' & tv' & Hsome & Hfar)]; [discriminate|].
      injection Hsome as <- <-. lia.
  - do 2 eexists. split; [reflexivity|]. unfold tv_usecs.
    cbn [tv_sec tv_usec earliest_wakeup set_earliest_wakeup].
    split; [lia|]. intros _. split; reflexivity.
Qed.

Lemma multi_get_timeout_clamped_witness :
  exists m' : multi_context,
    multi_get_timeout {| tv_sec := 1000; tv_usec := 250000 |}
      (sample_context [(100, {| tv_sec := 1010; tv_usec := 250000 |})])
    = Ok (m', {| tv_sec := 10; tv_usec := 0 |}) /\
    earliest_wakeup m' = NULL.
Proof.
  destruct (multi_get_timeout_clamped {| tv_sec := 1000; tv_usec := 250000 |}
              (sample_context [(100, {| tv_sec := 1010; tv_usec := 250000 |})]))
    as (m' & dest & Hrun & _ & Hfar).
  destruct Hfar as [-> Hnull].
  { right. exists 100, {| tv_sec := 1010; tv_usec := 250000 |}.
    split; [reflexivity | vm_compute; discriminate]. }
  exists m'. split; [exact Hrun | exact Hnull].
Defined.

(** A wakeup nearer than ten seconds is passed on as it is, and the
    instance it belongs to is remembered. *)
Example multi_get_timeout_near :
  multi_get_timeout {| tv_sec := 1000; tv_usec := 250000 |}
    (sample_context [(100, {| tv_sec := 1010; tv_usec := 249999 |});
                     (101, {| tv_sec := 1030; tv_usec := 0 |})])
  = Ok (set_earliest_wakeup (Some 100)
          (sample_context [(100, {| tv_sec := 1010; tv_usec := 249999 |});
                           (101, {| tv_sec := 1030; tv_usec := 0 |})]),
        {| tv_sec := 9; tv_usec := 999999 |}).
Proof. reflexivity. Qed.

(** A wakeup already past gives no wait at all. *)
Example multi_get_timeout_past :
  snd <$> (match multi_get_timeout {| tv_sec := 1000; tv_usec := 250000 |}
                   (sample_context [(100, {| tv_sec := 999; tv_usec := 0 |})])
           with Ok r => Some r | _ => None end)
  = Some {| tv_sec := 0; tv_usec := 0 |}.
Proof. reflexivity. Qed.

Example multi_get_timeout_empty :
  multi_get_timeout {| tv_sec := 1000; tv_usec := 250000 |} (sample_context [])
  = Ok (set_earliest_wakeup NULL (sample_context []),
        {| tv_sec := 10; tv_usec := 0 |}).
Proof. reflexivity. Qed.

(** The entry returned by the schedule is one of its entries, and none
    of them is due earlier. *)
Lemma schedule_earliest_minimal (s : schedule) :
  forall (e : Z) (tv : timeval),
    schedule_get_earliest_wakeup s = Some (e, tv) ->
    (e, tv) ∈ s /\
    forall (e' : Z) (tv' : timeval), (e', tv') ∈ s -> tv_lt tv' tv = false.
Proof.
  assert (Hirr : forall t, tv_lt t t = false).
  { intros t. unfold tv_lt. rewrite !Z.ltb_irrefl, andb_false_r. reflexivity. }
  assert (Htrans : forall t1 t2 t3,
             tv_lt t1 t2 = false -> tv_lt t2 t3 = false -> tv_lt t1 t3 = false).
  { intros t1 t2 t3. unfold tv_lt.
    destruct (Z.ltb_spec (tv_sec t1) (tv_sec t2)),
             (Z.eqb_spec (tv_sec t1) (tv_sec t2)),
             (Z.ltb_spec (tv_usec t1) (tv_usec t2)),
             (Z.ltb_spec (tv_sec t2) (tv_sec t3)),
             (Z.eqb_spec (tv_sec t2) (tv_sec t3)),
             (Z.ltb_spec (tv_usec t2) (tv_usec t3)),
             (Z.ltb_spec (tv_sec t1) (tv_sec t3)),
             (Z.eqb_spec (tv_sec t1) (tv_sec t3)),
             (Z.ltb_spec (tv_usec t1) (tv_usec t3));
      cbn; intros; (congruence || lia). }
  assert (Hflip : forall t1 t2, tv_lt t1 t2 = true -> tv_lt t2 t1 = false).
  { intros t1 t2. unfold tv_lt.
    destruct (Z.ltb_spec (tv_sec t1) (tv_sec t2)),
             (Z.eqb_spec (tv_sec t1) (tv_sec t2)),
             (Z.ltb_spec (tv_usec t1) (tv_usec t2)),
             (Z.ltb_spec (tv_sec t2) (tv_sec t1)),
             (Z.eqb_spec (tv_sec t2) (tv_sec t1)),
             (Z.ltb_spec (tv_usec t2) (tv_usec t1));
      cbn; intros; (congruence || lia). }
  induction s as [|[e0 tv0] s IH]; intros e tv Hget; [discriminate|].
  cbn [schedule_get_earliest_wakeup] in Hget.
  destruct (schedule_get_earliest_wakeup s) as [[e1 tv1]|] eqn:Hrest.
  - destruct (IH e1 tv1 eq_refl) as [Hin Hmin]. cbn [snd] in Hget.
    destruct (tv_lt tv1 tv0) eqn:Hlt; injection Hget as <- <-.
    + split; [right; exact Hin|]. intros e' tv' Hin'.
      apply elem_of_cons in Hin' as [Heq|Hin'].
      * injection Heq as -> ->. apply Hflip, Hlt.
      * apply (Hmin e' tv' Hin').
    + split; [left|]. intros e' tv' Hin'.
      apply elem_of_cons in Hin' as [Heq|Hin'].
      * injection Heq as -> ->. apply Hirr.
      * apply (Htrans tv' tv1 tv0); [apply (Hmin e' tv' Hin') | exact Hlt].
  - injection Hget as <- <-. destruct s as [|x s]; [|destruct x; cbn in Hrest;
      destruct (schedule_get_earliest_wakeup s) as [[]|];
      [destruct (tv_lt _ _)|]; discriminate].
    split; [left|]. intros e' tv' Hin'.
    apply elem_of_cons in Hin' as [Heq|Hin']; [|inversion Hin'].
    injection Heq as -> ->. apply Hirr.
Qed.

End MultiFacts.

(** ** helper.c *)

Section HelperFacts.
Import Libc Helper Samples.

Lemma usage_if_false {A : Type} (c : bool) (msg : string) (k : outcome A) :
  c = false -> (usage_if c msg;; k) = k.
Proof. intros ->. reflexivity. Qed.

Lemma usage_if_true {A : Type} (c : bool) (msg : string) (k : outcome A) :
  c = true -> (usage_if c msg;; k) = UsageError msg.
Proof. intros ->. reflexivity. Qed.

Lemma usage_if_Ok {A : Type} (c : bool) (msg : string) (k : outcome A) (x : A) :
  (usage_if c msg;; k) = Ok x -> c = false /\ k = Ok x.
Proof. destruct c; [discriminate | intros H; split; [reflexivity | exact H]]. Qed.

Lemma bind_Ok {A B : Type} (c : outcome A) (k : A -> outcome B) (y : B) :
  (x ← c; k x) = Ok y -> exists x : A, c = Ok x /\ k x = Ok y.
Proof.
  destruct c as [x| | |]; try discriminate. intros H. exists x. split; [reflexivity | exact H].
Qed.

(** *** keepalive *)

(** The guard and the three sanity checks of [helper_keepalive], for
    parameters whose double fits in an [int]. *)
Lemma helper_keepalive_checks_pass (o : options) :
  0 < keepalive_ping o -> 0 < keepalive_timeout o ->
  keepalive_ping o * 2 <= keepalive_timeout o ->
  keepalive_timeout o <= INT_MAX ->
  ping_send_timeout o = 0 -> ping_rec_timeout o = 0 ->
  truthy (keepalive_ping o) || truthy (keepalive_timeout o) = true /\
  (keepalive_ping o <=? 0) || (keepalive_timeout o <=? 0) = false /\
  (wrap_int (keepalive_ping o * 2) >? keepalive_timeout o) = false /\
  truthy (ping_send_timeout o) || truthy (ping_rec_timeout o) = false.
Proof.
  intros Hp Hr Hratio Hmax Hps Hpr. unfold INT_MAX in Hmax.
  rewrite wrap_int_id by (unfold in_int, INT_MIN, INT_MAX; lia).
  rewrite Hps, Hpr. repeat split.
  - apply orb_true_iff. left. apply truthy_true. lia.
  - apply orb_false_iff. split; apply Z.leb_gt; lia.
  - rewrite Z.gtb_ltb. apply Z.ltb_ge. lia.
Qed.

(** In server mode, as long as [2 * keepalive_timeout] fits in an [int],
    the expansion is the documented one. *)
Lemma helper_keepalive_server_in_range (o : options) :
  mode o = MODE_SERVER ->
  0 < keepalive_ping o -> 0 < keepalive_timeout o ->
  keepalive_ping o * 2 <= keepalive_timeout o ->
  keepalive_timeout o * 2 <= INT_MAX ->
  ping_send_timeout o = 0 -> ping_rec_timeout o = 0 ->
  exists o' : options,
    helper_keepalive o = Ok o' /\
    ping_send_timeout o' = keepalive_ping o /\
    ping_rec_timeout o' = 2 * keepalive_timeout o /\
    ping_rec_timeout_action o' = PING_RESTART /\
    push_list o' = push_list o ++ ["ping " +:+ pretty (keepalive_ping o);
                                   "ping-restart " +:+ pretty (keepalive_timeout o)].
Proof.
  intros Hmode Hp Hr Hratio Hmax Hps Hpr.
  destruct (helper_keepalive_checks_pass o Hp Hr Hratio ltac:(lia) Hps Hpr)
    as (Hguard & Hpos & Hrat & Hconfl).
  unfold helper_keepalive.
  rewrite Hguard, (usage_if_false _ _ _ Hpos), (usage_if_false _ _ _ Hrat),
    (usage_if_false _ _ _ Hconfl), Hmode.
  change (MODE_SERVER =? MODE_POINT_TO_POINT) with false.
  change (MODE_SERVER =? MODE_SERVER) with true. cbv iota zeta.
  eexists. split; [reflexivity|].
  cbn [ping_send_timeout ping_rec_timeout ping_rec_timeout_action push_list
       keepalive_ping keepalive_timeout push_option set_push_list
       set_ping_rec_timeout set_ping_send_timeout set_ping_rec_timeout_action].
  rewrite wrap_int_id by (unfold in_int, INT_MIN, INT_MAX in *; lia).
  rewrite <- app_assoc. repeat split; try reflexivity. lia.
Qed.

(** In point-to-point mode the two parameters are taken as they are. *)
Lemma helper_keepalive_p2p (o : options) :
  mode o = MODE_POINT_TO_POINT ->
  0 < keepalive_ping o -> 0 < keepalive_timeout o ->
  keepalive_ping o * 2 <= keepalive_timeout o ->
  keepalive_timeout o <= INT_MAX ->
  ping_send_timeout o = 0 -> ping_rec_timeout o = 0 ->
  exists o' : options,
    helper_keepalive o = Ok o' /\
    ping_send_timeout o' = keepalive_ping o /\
    ping_rec_timeout o' = keepalive_timeout o /\
    ping_rec_timeout_action o' = PING_RESTART /\
    push_list o' = push_list o.
Proof.
  intros Hmode Hp Hr Hratio Hmax Hps Hpr.
  destruct (helper_keepalive_checks_pass o Hp Hr Hratio Hmax Hps Hpr)
    as (Hguard & Hpos & Hrat & Hconfl).
  unfold helper_keepalive.
  rewrite Hguard, (usage_if_false _ _ _ Hpos), (usage_if_false _ _ _ Hrat),
    (usage_if_false _ _ _ Hconfl), Hmode.
  change (MODE_POINT_TO_POINT =? MODE_POINT_TO_POINT) with true. cbv iota zeta.
  eexists. split; [reflexivity|]. repeat split.
Qed.

(** With a ping interval whose double fits in an [int], present
    parameters that are not both positive, or whose ratio is below two,
    are a usage error. *)
Lemma helper_keepalive_rejects_in_range (o : options) :
  keepalive_ping o <> 0 \/ keepalive_timeout o <> 0 ->
  in_int (keepalive_ping o * 2) ->
  keepalive_ping o <= 0 \/ keepalive_timeout o <= 0 \/
  keepalive_ping o * 2 > keepalive_timeout o ->
  exists msg : string, helper_keepalive o = UsageError msg.
Proof.
  intros Hpresent Hfits Hbad. unfold helper_keepalive.
  replace (truthy (keepalive_ping o) || truthy (keepalive_timeout o)) with true
    by (symmetry; apply orb_true_iff; rewrite !truthy_true; exact Hpresent).
  destruct ((keepalive_ping o <=? 0) || (keepalive_timeout o <=? 0)) eqn:Hpos.
  - eexists. apply usage_if_true. reflexivity.
  - rewrite (usage_if_false _ _ _ eq_refl).
    apply orb_false_iff in Hpos as [Hp Hr].
    apply Z.leb_gt in Hp. apply Z.leb_gt in Hr.
    eexists. apply usage_if_true.
    rewrite wrap_int_id by assumption. rewrite Z.gtb_ltb. apply Z.ltb_lt. lia.
Qed.

(** Sound parameters are accepted in both modes. *)
Lemma helper_keepalive_accepts (o : options) :
  mode o = MODE_POINT_TO_POINT \/ mode o = MODE_SERVER ->
  0 < keepalive_ping o -> 0 < keepalive_timeout o ->
  keepalive_ping o * 2 <= keepalive_timeout o ->
  keepalive_timeout o <= INT_MAX ->
  ping_send_timeout o = 0 -> ping_rec_timeout o = 0 ->
  exists o' : options, helper_keepalive o = Ok o'.
Proof.
  intros Hmode Hp Hr Hratio Hmax Hps Hpr.
  destruct (helper_keepalive_checks_pass o Hp Hr Hratio Hmax Hps Hpr)
    as (Hguard & Hpos & Hrat & Hconfl).
  unfold helper_keepalive.
  rewrite Hguard, (usage_if_false _ _ _ Hpos), (usage_if_false _ _ _ Hrat),
    (usage_if_false _ _ _ Hconfl).
  destruct Hmode as [-> | ->]; eexists; reflexivity.
Qed.

(** Without [--keepalive] nothing happens. *)
Lemma helper_keepalive_absent (o : options) :
  keepalive_ping o = 0 -> keepalive_timeout o = 0 -> helper_keepalive o = Ok o.
Proof. intros Hp Hr. unfold helper_keepalive. rewrite Hp, Hr. reflexivity. Qed.

(** [keepalive 10 60], the example in the source. *)
Example keepalive_10_60_server :
  helper_keepalive (sample_options "tun0" MODE_SERVER false 0 0 10 60)
  = Ok (set_push_list ["ping 10"; "ping-restart 60"]
          (set_ping_rec_timeout 120
             (set_ping_send_timeout 10
                (set_ping_rec_timeout_action PING_RESTART
                   (sample_options "tun0" MODE_SERVER false 0 0 10 60))))).
Proof. reflexivity. Qed.

Example keepalive_10_60_p2p :
  helper_keepalive (sample_options "tun0" MODE_POINT_TO_POINT false 0 0 10 60)
  = Ok (set_ping_rec_timeout 60
          (set_ping_send_timeout 10
             (set_ping_rec_timeout_action PING_RESTART
                (sample_options "tun0" MODE_POINT_TO_POINT false 0 0 10 60)))).
Proof. reflexivity. Qed.

Example keepalive_10_19_rejected :
  exists msg : string,
    helper_keepalive (sample_options "tun0" MODE_SERVER false 0 0 10 19)
    = UsageError msg.
Proof. eexists. reflexivity. Qed.

Example keepalive_0_60_rejected :
  helper_keepalive (sample_options "tun0" MODE_SERVER false 0 0 0 60)
  = UsageError "Options Error: --keepalive parameters must be > 0".
Proof. reflexivity. Qed.

(** C2.  [helper_keepalive] in server mode is meant to set
    ping_rec_timeout to twice keepalive_timeout; with [--keepalive 1
    1073741824], which passes every sanity check, the [int] product
    [keepalive_timeout * 2] overflows and what is stored is
    -2147483648, not 2147483648. *)
Theorem helper_keepalive_timeout_overflow :
  let o := sample_options "tun0" MODE_SERVER false 0 0 1 1073741824 in
  (0 < keepalive_ping o /\ 0 < keepalive_timeout o /\
   keepalive_ping o * 2 <= keepalive_timeout o /\
   in_int (keepalive_ping o) /\ in_int (keepalive_timeout o)) /\
  exists o' : options,
    helper_keepalive o = Ok o' /\
    ping_send_timeout o' = 1 /\
    ping_rec_timeout o' = -2147483648 /\
    ping_rec_timeout o' <> 2 * keepalive_timeout o /\
    push_list o' = ["ping 1"; "ping-restart 1073741824"].
Proof.
  cbv zeta. split; [unfold in_int, INT_MIN, INT_MAX; cbn; lia|].
  eexists. split; [reflexivity|]. repeat split.
  intros Hdouble. vm_compute in Hdouble. discriminate Hdouble.
Qed.

(** C8.  [helper_keepalive] is meant to stop with a usage error when
    [keepalive_ping * 2] exceeds keepalive_timeout; with [--keepalive
    1073741824 1] the [int] product overflows to -2147483648, the ratio
    check passes, no error is raised and the options are expanded. *)
Theorem helper_keepalive_ping_overflow :
  let o := sample_options "tun0" MODE_POINT_TO_POINT false 0 0 1073741824 1 in
  (keepalive_ping o <> 0 /\ keepalive_ping o * 2 > keepalive_timeout o /\
   in_int (keepalive_ping o) /\ in_int (keepalive_timeout o)) /\
  exists o' : options,
    helper_keepalive o = Ok o' /\
    ping_send_timeout o' = 1073741824 /\
    ping_rec_timeout o' = 1.
Proof.
  cbv zeta. split; [unfold in_int, INT_MIN, INT_MAX; cbn; lia|].
  eexists. split; [reflexivity|]. cbn. split; reflexivity.
Qed.

(** *** server *)

Lemma netmask_to_netbits_true (network netmask netbits0 netbits : Z) :
  netmask_to_netbits network netmask netbits0 = (true, netbits) ->
  Z.land network netmask = network /\ 0 <= netbits <= 32 /\
  netbits_to_netmask netbits = netmask.
Proof.
  unfold netmask_to_netbits.
  destruct (Z.eqb_spec (Z.land network netmask) network) as [Hland|]; [|discriminate].
  destruct (find _ _) as [i|] eqn:Hfind; [|discriminate].
  intros Heq. injection Heq as ->.
  apply find_some in Hfind as [Hin Hmask].
  apply in_map_iff in Hin as (n & <- & Hn). apply in_seq in Hn.
  apply Z.eqb_eq in Hmask. repeat split; (assumption || lia).
Qed.

Lemma prefix_mask_checked (netbits : Z) :
  0 <= netbits <= 29 -> prefix_mask_check netbits = true.
Proof.
  intros Hrange.
  assert (Hall : forallb (fun n => prefix_mask_check (Z.of_nat n)) (seq 0 30) = true)
    by (vm_compute; reflexivity).
  rewrite forallb_forall in Hall.
  rewrite <- (Z2Nat.id netbits) by lia. apply Hall, in_seq. lia.
Qed.

(** A network that lies within a prefix mask of at most 29 bits leaves
    room above it for the addresses the expansion hands out. *)
Lemma network_in_prefix_mask (network netbits : Z) :
  0 <= netbits <= 29 ->
  Z.land network (netbits_to_netmask netbits) = network ->
  let mask := netbits_to_netmask netbits in
  0 <= network /\ network + 7 < 2 ^ 32 /\
  Z.lor network (lnot_u32 mask) = network + (2 ^ 32 - 1 - mask) /\
  network <= mask /\ mask <= 2 ^ 32 - 8 /\
  ((netbits =? 29) = (mask =? 0xfffffff8)).
Proof.
  intros Hrange Hland mask. subst mask.
  pose proof (prefix_mask_checked netbits Hrange) as Hcheck.
  unfold prefix_mask_check in Hcheck. cbv zeta in Hcheck.
  set (mask := netbits_to_netmask netbits) in *.
  repeat (apply andb_true_iff in Hcheck as [Hcheck ?]).
  reflect_comparisons.
  assert (Hnonneg : 0 <= network)
    by (rewrite <- Hland; apply Z.land_nonneg; right; assumption).
  assert (Hlow : Z.land network 7 = 0).
  { rewrite <- Hland, <- Z.land_assoc.
    match goal with H : Z.land mask 7 = 0 |- _ => rewrite H end.
    apply Z.land_0_r. }
  assert (Hdisjoint : Z.land network (lnot_u32 mask) = 0).
  { rewrite <- Hland, <- Z.land_assoc.
    match goal with H : Z.land mask (lnot_u32 mask) = 0 |- _ => rewrite H end.
    apply Z.land_0_r. }
  assert (Hmod : network mod 8 = 0)
    by (change 8 with (2 ^ 3); rewrite <- Z.land_ones by lia; exact Hlow).
  assert (Hlog : Z.log2 network <= Z.min (Z.log2 network) (Z.log2 mask))
    by (rewrite <- Hland at 1; apply Z.log2_land; lia).
  assert (Hmasklog : Z.log2 mask < 32).
  { destruct (Z.eq_dec mask 0) as [->|]; [reflexivity|].
    apply Z.log2_lt_pow2; lia. }
  assert (Hlt : network < 2 ^ 32).
  { destruct (Z.eq_dec network 0) as [->|]; [reflexivity|].
    apply Z.log2_lt_pow2; lia. }
  assert (Hsum : network + lnot_u32 mask < 2 ^ 32)
    by (apply Z.add_nocarry_lt_pow2; [assumption | assumption | lia]).
  repeat split; try assumption; try lia.
  rewrite <- Z.lxor_lor by assumption.
  rewrite <- Z.add_nocarry_lxor by assumption. lia.
Qed.

Lemma fix_proto_fields (v : Z) (o : options) :
  ifconfig_local (fix_proto v o) = ifconfig_local o /\
  ifconfig_remote_netmask (fix_proto v o) = ifconfig_remote_netmask o /\
  ifconfig_pool_start (fix_proto v o) = ifconfig_pool_start o /\
  ifconfig_pool_end (fix_proto v o) = ifconfig_pool_end o /\
  mode (fix_proto v o) = mode o /\
  routes (fix_proto v o) = routes o.
Proof. unfold fix_proto. destruct (proto o =? PROTO_TCPv4); repeat split. Qed.

(** What [--server] with a tun device stores, in the arithmetic of the
    source. *)
Lemma server_tun_fields (netbits : Z) (o o' : options) :
  server_tun netbits o = Ok o' ->
  netbits <= 29 /\
  mode o' = MODE_SERVER /\
  ifconfig_local o' = Some (print_in_addr_t (wrap_u32 (server_network o + 1))) /\
  ifconfig_remote_netmask o'
  = Some (print_in_addr_t (wrap_u32 (server_network o + 2))) /\
  ifconfig_pool_start o' = wrap_u32 (server_network o + 4) /\
  ifconfig_pool_end o'
  = wrap_u32 (Z.lor (server_network o) (lnot_u32 (server_netmask o))
              - (if netbits =? 29 then 0 else 4)) /\
  routes o' = routes o ++ [{| network := Some (print_in_addr_t (server_network o));
                              netmask := Some (print_in_addr_t (server_netmask o));
                              gateway := None; metric := None |}].
Proof.
  unfold server_tun. intros Hrun.
  apply usage_if_Ok in Hrun as [Hbits Hrun].
  rewrite Z.gtb_ltb in Hbits. apply Z.ltb_ge in Hbits.
  cbv zeta in Hrun.
  repeat match type of Hrun with
         | (if ?c then _ else _) = _ => destruct c
         end;
    try (apply bind_Ok in Hrun as (opt & _ & Hrun));
    injection Hrun as <-; repeat split; assumption.
Qed.

(** C3, as the code has it.  For every [--server NET MASK] with a tun
    device that [helper_client_server] accepts, the expansion sets
    ifconfig to NET+1 and NET+2 and the pool to start at NET+4; the pool
    ends 4 below the broadcast address [NET | ~MASK], except for a /29
    subnet (MASK 255.255.255.248), where it ends at the broadcast
    address itself. *)
Theorem server_tun_expansion (min_netbits : Z) (o o' : options)
    (Hserver : server_defined o = true)
    (Hdev : dev_type_enum (dev o) (dev_type o) = Ok DEV_TYPE_TUN)
    (Hrun : helper_client_server min_netbits o = Ok o') :
  mode o' = MODE_SERVER /\
  ifconfig_local o' = Some (print_in_addr_t (server_network o + 1)) /\
  ifconfig_remote_netmask o' = Some (print_in_addr_t (server_network o + 2)) /\
  ifconfig_pool_start o' = server_network o + 4 /\
  ifconfig_pool_end o'
  = (if server_netmask o =? 0xfffffff8
     then Z.lor (server_network o) (lnot_u32 (server_netmask o))
     else Z.lor (server_network o) (lnot_u32 (server_netmask o)) - 4) /\
  ifconfig_pool_start o' <= ifconfig_pool_end o'.
Proof.
  unfold helper_client_server in Hrun. rewrite Hdev, Hserver in Hrun.
  cbn [mbind outcome_bind] in Hrun.
  apply bind_Ok in Hrun as (o1 & Hsrv & Hlast).
  apply usage_if_Ok in Hlast as [_ Hlast]. injection Hlast as <-.
  unfold helper_server in Hsrv. cbv zeta in Hsrv.
  do 5 (apply usage_if_Ok in Hsrv as [_ Hsrv]).
  destruct (netmask_to_netbits _ _ _) as [status netbits] eqn:Hmask.
  apply usage_if_Ok in Hsrv as [Hstatus Hsrv].
  apply negb_false_iff in Hstatus. subst status.
  apply usage_if_Ok in Hsrv as [Hneg Hsrv]. apply Z.ltb_ge in Hneg.
  apply usage_if_Ok in Hsrv as [_ Hsrv].
  change (DEV_TYPE_TUN =? DEV_TYPE_TUN) with true in Hsrv. cbv iota in Hsrv.
  apply bind_Ok in Hsrv as (o2 & Htun & Hsrv). injection Hsrv as <-.
  apply server_tun_fields in Htun
    as (Hbits & Hmode & Hlocal & Hremote & Hstart & Hend & _).
  apply netmask_to_netbits_true in Hmask as (Hland & _ & Hprefix).
  rewrite <- Hprefix in Hland.
  pose proof (network_in_prefix_mask _ netbits ltac:(lia) Hland) as Hroom.
  cbv zeta in Hroom. rewrite Hprefix in Hroom.
  destruct Hroom as (Hnonneg & Htop & Hbcast & Hle & Hmaskle & H29).
  destruct (fix_proto_fields PROTO_TCPv4_SERVER o2)
    as (-> & -> & -> & -> & -> & _).
  rewrite Hmode, Hlocal, Hremote, Hstart, Hend, <- H29, Hbcast.
  rewrite !wrap_u32_id by (destruct (netbits =? 29); lia).
  repeat split; destruct (netbits =? 29); lia.
Qed.

Lemma server_tun_expansion_witness :
  let o := sample_options "tun0" MODE_POINT_TO_POINT true
             (in_addr 10 8 0 0) (in_addr 255 255 255 0) 0 0 in
  let o' :=
    set_push_list ["route 10.8.0.1"]
      (set_routes [{| network := Some "10.8.0.0";
                      netmask := Some "255.255.255.0";
                      gateway := None; metric := None |}]
         (set_ifconfig_pool_end (in_addr 10 8 0 251)
            (set_ifconfig_pool_start (in_addr 10 8 0 4)
               (set_ifconfig_pool_defined true
                  (set_ifconfig_remote_netmask (Some "10.8.0.2")
                     (set_ifconfig_local (Some "10.8.0.1")
                        (set_tls_server true (set_mode MODE_SERVER o)))))))) in
  server_defined o = true /\
  dev_type_enum (dev o) (dev_type o) = Ok DEV_TYPE_TUN /\
  helper_client_server 16 o = Ok o' /\
  ifconfig_local o' = Some (print_in_addr_t (server_network o + 1)) /\
  ifconfig_remote_netmask o' = Some (print_in_addr_t (server_network o + 2)) /\
  ifconfig_pool_start o' = server_network o + 4 /\
  ifconfig_pool_end o'
  = Z.lor (server_network o) (lnot_u32 (server_netmask o)) - 4.
Proof.
  intros o o'.
  assert (Hrun : helper_client_server 16 o = Ok o') by (vm_compute; reflexivity).
  split; [reflexivity|]. split; [reflexivity|]. split; [exact Hrun|].
  destruct (server_tun_expansion 16 o o' eq_refl eq_refl Hrun)
    as (_ & Hlocal & Hremote & Hstart & Hend & _).
  split; [exact Hlocal|]. split; [exact Hremote|].
  split; [exact Hstart | exact Hend].
Defined.

(** C3 as stated fails on a /29 subnet: [--server 10.8.0.0
    255.255.255.248] with [--dev tun0] is a server configuration with a
    tun device that [helper_client_server] accepts, and its pool ends at
    the broadcast address 10.8.0.7, not 4 below it. *)
Lemma server_tun_slash29_pool_end :
  server_defined
    (sample_options "tun0" MODE_POINT_TO_POINT true
       (in_addr 10 8 0 0) (in_addr 255 255 255 248) 0 0) = true /\
  dev_type_enum (Some "tun0") None = Ok DEV_TYPE_TUN /\
  exists o' : options,
    helper_client_server 16
      (sample_options "tun0" MODE_POINT_TO_POINT true
         (in_addr 10 8 0 0) (in_addr 255 255 255 248) 0 0) = Ok o' /\
    ifconfig_pool_start o' = in_addr 10 8 0 0 + 4 /\
    ifconfig_pool_end o' = in_addr 10 8 0 7 /\
    ifconfig_pool_end o'
    <> Z.lor (in_addr 10 8 0 0) (lnot_u32 (in_addr 255 255 255 248)) - 4.
Proof.
  split; [reflexivity|]. split; [reflexivity|].
  eexists. split; [vm_compute; reflexivity|].
  split; [vm_compute; reflexivity|]. split; [vm_compute; reflexivity|].
  intros Hend. vm_compute in Hend. discriminate Hend.
Qed.

(** The example in the source: [server 10.8.0.0 255.255.255.0]. *)
Example server_10_8_0_0_tun :
  (o' ← helper_client_server 16
          (sample_options "tun0" MODE_POINT_TO_POINT true
             (in_addr 10 8 0 0) (in_addr 255 255 255 0) 0 0);
   Ok (ifconfig_local o', ifconfig_remote_netmask o',
       print_in_addr_t (ifconfig_pool_start o'),
       print_in_addr_t (ifconfig_pool_end o'), routes o', push_list o'))
  = Ok (Some "10.8.0.1", Some "10.8.0.2", "10.8.0.4", "10.8.0.251",
        [{| network := Some "10.8.0.0"; netmask := Some "255.255.255.0";
            gateway := None; metric := None |}],
        ["route 10.8.0.1"]).
Proof. vm_compute. reflexivity. Qed.

Example server_10_8_0_0_tap :
  (o' ← helper_client_server 16
          (sample_options "tap0" MODE_POINT_TO_POINT true
             (in_addr 10 8 0 0) (in_addr 255 255 255 0) 0 0);
   Ok (ifconfig_local o', ifconfig_remote_netmask o',
       print_in_addr_t (ifconfig_pool_start o'),
       print_in_addr_t (ifconfig_pool_end o'),
       print_in_addr_t (ifconfig_pool_netmask o'), push_list o'))
  = Ok (Some "10.8.0.1", Some "255.255.255.0", "10.8.0.2", "10.8.0.254",
        "255.255.255.0", ["route-gateway 10.8.0.1"]).
Proof. vm_compute. reflexivity. Qed.

(** A /30 subnet is too small for a tun server. *)
Example server_slash30_tun_rejected :
  exists msg : string,
    helper_client_server 16
      (sample_options "tun0" MODE_POINT_TO_POINT true
         (in_addr 10 8 0 0) (in_addr 255 255 255 252) 0 0) = UsageError msg.
Proof. eexists. vm_compute. reflexivity. Qed.

(** A network with bits outside the mask is rejected. *)
Example server_bad_network_rejected :
  helper_client_server 16
    (sample_options "tun0" MODE_POINT_TO_POINT true
       (in_addr 10 8 0 1) (in_addr 255 255 255 0) 0 0)
  = UsageError "Options Error: --server directive network/netmask combination is invalid".
Proof. vm_compute. reflexivity. Qed.

End HelperFacts.

(** * Further properties *)

(** ** crc32.c: the table and the byte loop *)

Section Crc32Stream.
Import Libc Crc32 Crc32Table.

Lemma crc_entry_rounds (n : Z) : crc_entry n = Nat.iter 8 crc_round n.
Proof. reflexivity. Qed.

Lemma DOn_add (n m : nat) (tbl : list Z) :
  forall s : Z * list Z,
    DOn (n + m) tbl s = (s' ← DOn n tbl s; DOn m tbl s').
Proof.
  induction n as [|n IH]; intros s; cbn [Nat.add DOn].
  - reflexivity.
  - destruct (DO1 tbl s) as [s1| | |]; cbn [mbind outcome_bind];
      [apply IH | reflexivity..].
Qed.

Lemma while_ge8_DOn (k : nat) (tbl : list Z) :
  forall s : Z * list Z, while_ge8 k tbl s = DOn (8 * k) tbl s.
Proof.
  induction k as [|k IH]; intros s; cbn [while_ge8].
  - reflexivity.
  - replace (8 * S k)%nat with (8 + 8 * k)%nat by lia.
    rewrite DOn_add. unfold DO8.
    destruct (DOn 8 tbl s) as [s1| | |]; cbn [mbind outcome_bind];
      [apply IH | reflexivity..].
Qed.

(** The two loops of [crc32] together take [len] steps of [DO1]. *)
Lemma crc32_loops (len : Z) (tbl : list Z) (s : Z * list Z) :
  0 <= len ->
  (s' ← while_ge8 (Z.to_nat (len / 8)) tbl s;
   DOn (Z.to_nat (len mod 8)) tbl s')
  = DOn (Z.to_nat len) tbl s.
Proof.
  intros Hlen. rewrite while_ge8_DOn, <- DOn_add. f_equal.
  pose proof (Z.div_mod len 8 ltac:(lia)) as Hdm.
  pose proof (Z.mod_pos_bound len 8 ltac:(lia)).
  assert (0 <= len / 8) by (apply Z.div_pos; lia). lia.
Qed.

(** [n] steps read [n] bytes: they succeed on a buffer that has them and
    a table of 256 entries, and leave the rest of the buffer. *)
Lemma DOn_reads (n : nat) (tbl : list Z) :
  length tbl = 256%nat ->
  forall (crc : Z) (buf : list Z),
    (n <= length buf)%nat ->
    exists crc' : Z, DOn n tbl (crc, buf) = Ok (crc', drop n buf).
Proof.
  intros Htbl. induction n as [|n IH]; intros crc buf Hn.
  - exists crc. reflexivity.
  - destruct buf as [|b rest]; cbn [length] in Hn; [lia|].
    cbn [DOn DO1].
    destruct (tbl !! Z.to_nat (Z.land (Z.lxor crc b) 255)) as [e|] eqn:He.
    + cbn [mbind outcome_bind]. apply IH. lia.
    + apply lookup_ge_None in He.
      assert (0 <= Z.land (Z.lxor crc b) 255 < 256).
      { change 255 with (Z.ones 8). rewrite Z.land_ones by lia.
        apply Z.mod_pos_bound. lia. }
      lia.
Qed.

(** With fewer bytes than steps the read runs off the buffer. *)
Lemma DOn_short (n : nat) (tbl : list Z) :
  forall (crc : Z) (buf : list Z),
    (length buf < n)%nat ->
    forall s' : Z * list Z, DOn n tbl (crc, buf) <> Ok s'.
Proof.
  induction n as [|n IH]; intros crc buf Hn s'; [lia|].
  destruct buf as [|b rest]; cbn [DOn DO1 length] in *; [discriminate|].
  destruct (tbl !! Z.to_nat (Z.land (Z.lxor crc b) 255)) as [e|];
    cbn [mbind outcome_bind]; [apply IH; lia | discriminate].
Qed.

(** Bytes after the ones read do not matter. *)
Lemma DOn_app (n : nat) (tbl : list Z) :
  forall (crc crc' : Z) (buf rest more : list Z),
    DOn n tbl (crc, buf) = Ok (crc', rest) ->
    DOn n tbl (crc, buf ++ more) = Ok (crc', rest ++ more).
Proof.
  induction n as [|n IH]; intros crc crc' buf rest more Hrun.
  - injection Hrun as <- <-. reflexivity.
  - destruct buf as [|b buf']; cbn [DOn DO1 app] in *; [discriminate|].
    destruct (tbl !! Z.to_nat (Z.land (Z.lxor crc b) 255)) as [e|];
      cbn [mbind outcome_bind] in *; [|discriminate].
    apply IH. exact Hrun.
Qed.

Lemma table_valid_length (st : crc_state) :
  table_valid st ->
  length (fst (get_crc_table st)) = 256%nat.
Proof.
  unfold table_valid, get_crc_table. intros [Hempty|Hbuilt].
  - rewrite Hempty. reflexivity.
  - destruct (truthy (crc_table_empty st)); [reflexivity|].
    cbn [fst]. rewrite Hbuilt. reflexivity.
Qed.

(** [crc32] on a buffer that is not null, in terms of [DOn]. *)
Lemma crc32_unfold (st : crc_state) (crc len : Z) (bytes : list Z) :
  0 <= len ->
  crc32 st crc (Some bytes) len
  = (s ← DOn (Z.to_nat len) (fst (get_crc_table st))
           (Z.lxor crc 0xffffffff, bytes);
     Ok (Z.lxor (fst s) 0xffffffff),
     snd (get_crc_table st)).
Proof.
  intros Hlen. unfold crc32, get_crc_table. cbv zeta. cbn [fst snd].
  f_equal.
  rewrite <- (crc32_loops len _ _ Hlen).
  destruct (while_ge8 _ _ _) as [s1| | |]; reflexivity.
Qed.

Lemma get_crc_table_twice (st : crc_state) :
  get_crc_table (snd (get_crc_table st)) = get_crc_table st.
Proof.
  unfold get_crc_table. destruct (truthy (crc_table_empty st)) eqn:Hempty;
    cbn [snd]; [reflexivity | rewrite Hempty; reflexivity].
Qed.

Lemma lxor_ones32_twice (z : Z) : Z.lxor (Z.lxor z 0xffffffff) 0xffffffff = z.
Proof. rewrite Z.lxor_assoc, Z.lxor_nilpotent. apply Z.lxor_0_r. Qed.

End Crc32Stream.

Section Crc32Properties.
Import Libc Crc32 Crc32Table.

Lemma DOn_Ok_drop (n : nat) (tbl : list Z) :
  forall (crc crc' : Z) (buf rest : list Z),
    DOn n tbl (crc, buf) = Ok (crc', rest) ->
    rest = drop n buf /\ (n <= length buf)%nat.
Proof.
  induction n as [|n IH]; intros crc crc' buf rest Hrun.
  - injection Hrun as <- <-. split; [reflexivity | lia].
  - destruct buf as [|b buf']; cbn [DOn DO1] in Hrun; [discriminate|].
    destruct (tbl !! Z.to_nat (Z.land (Z.lxor crc b) 255)) as [e|];
      cbn [mbind outcome_bind] in Hrun; [|discriminate].
    apply IH in Hrun as [-> Hle]. split; [reflexivity | cbn [length]; lia].
Qed.

(** X1.  A checksum can be computed piecewise: feeding the result for
    [a] back in as the initial value for [b] gives the checksum of
    [a ++ b], statics included. *)
Theorem crc32_append (st st1 : crc_state) (crc r : Z) (a b : list Z)
    (Hfirst : crc32 st crc (Some a) (Z.of_nat (length a)) = (Ok r, st1)) :
  crc32 st1 r (Some b) (Z.of_nat (length b))
  = crc32 st crc (Some (a ++ b)) (Z.of_nat (length a + length b)).
Proof.
  rewrite crc32_unfold in Hfirst by lia. rewrite !crc32_unfold by lia.
  rewrite !Nat2Z.id in *.
  pose proof (f_equal fst Hfirst) as Hrun.
  pose proof (f_equal snd Hfirst) as Hst. cbn [fst snd] in Hrun, Hst.
  subst st1. rewrite get_crc_table_twice.
  set (tbl := fst (get_crc_table st)) in *.
  destruct (DOn (length a) tbl (Z.lxor crc 0xffffffff, a))
    as [[c1 rest]| | |] eqn:Ha; try discriminate.
  cbn [mbind outcome_bind fst] in Hrun. injection Hrun as <-.
  rewrite lxor_ones32_twice, DOn_add.
  pose proof (DOn_Ok_drop _ _ _ _ _ _ Ha) as [Hrest _].
  rewrite drop_all in Hrest. subst rest.
  rewrite (DOn_app _ _ _ _ _ _ b Ha). reflexivity.
Qed.

(** X2.  [crc32] reads exactly [len] bytes: with the table in place it
    returns a checksum if and only if the buffer holds at least [len]
    bytes, and the bytes after the first [len] have no influence. *)
Theorem crc32_reads_len (st : crc_state) (crc len : Z) (bytes : list Z)
    (Hlen : 0 <= len) (Hvalid : table_valid st) :
  ((exists r : Z, fst (crc32 st crc (Some bytes) len) = Ok r) <->
   len <= Z.of_nat (length bytes)) /\
  (len <= Z.of_nat (length bytes) ->
   crc32 st crc (Some bytes) len
   = crc32 st crc (Some (take (Z.to_nat len) bytes)) len).
Proof.
  pose proof (table_valid_length st Hvalid) as Htbl.
  rewrite !crc32_unfold by assumption. cbn [fst].
  set (tbl := fst (get_crc_table st)) in *.
  split; [split|].
  - intros [r Hr].
    destruct (DOn (Z.to_nat len) tbl (Z.lxor crc 0xffffffff, bytes))
      as [[c rest]| | |] eqn:Hrun; try discriminate.
    apply DOn_Ok_drop in Hrun as [_ Hle]. lia.
  - intros Hle.
    destruct (DOn_reads (Z.to_nat len) tbl Htbl (Z.lxor crc 0xffffffff) bytes
                ltac:(lia)) as [c Hrun].
    rewrite Hrun. eexists. reflexivity.
  - intros Hle.
    destruct (DOn_reads (Z.to_nat len) tbl Htbl (Z.lxor crc 0xffffffff)
                (take (Z.to_nat len) bytes)
                ltac:(rewrite length_take; lia)) as [c Hrun].
    rewrite Hrun.
    apply (DOn_app _ _ _ _ _ _ (drop (Z.to_nat len) bytes)) in Hrun.
    rewrite take_drop in Hrun. rewrite Hrun. reflexivity.
Qed.

(** The generated table, entry by entry. *)
Lemma crc_table_lookup (st : crc_state) (i : Z) :
  table_valid st -> 0 <= i < 256 ->
  fst (get_crc_table st) !! Z.to_nat i = Some (crc_entry i) /\
  0 <= crc_entry i < 2 ^ 32.
Proof.
  intros Hvalid Hi.
  assert (Htable : fst (get_crc_table st) = crc_table (make_crc_table st)).
  { unfold get_crc_table. destruct Hvalid as [-> | Hbuilt]; [reflexivity|].
    destruct (truthy (crc_table_empty st)); [reflexivity | exact Hbuilt]. }
  rewrite Htable.
  assert (Hall : forallb
            (fun n => match crc_table (make_crc_table st) !! n with
                      | Some e => (e =? crc_entry (Z.of_nat n))
                                  && (0 <=? e) && (e <? 2 ^ 32)
                      | None => false
                      end) (seq 0 256) = true) by (vm_compute; reflexivity).
  rewrite forallb_forall in Hall.
  specialize (Hall (Z.to_nat i) ltac:(apply in_seq; lia)).
  rewrite Z2Nat.id in Hall by lia.
  destruct (crc_table (make_crc_table st) !! Z.to_nat i) as [e|];
    [|discriminate].
  apply andb_true_iff in Hall as [Hall Hlt].
  apply andb_true_iff in Hall as [Heq Hge].
  apply Z.eqb_eq in Heq. apply Z.leb_le in Hge. apply Z.ltb_lt in Hlt.
  subst e. split; [reflexivity | lia].
Qed.

Lemma land_255_range (z : Z) : 0 <= Z.land z 255 < 256.
Proof.
  change 255 with (Z.ones 8). rewrite Z.land_ones by lia.
  apply Z.mod_pos_bound. lia.
Qed.

Lemma lxor_below_pow2 (a b n : Z) :
  0 < n -> 0 <= a < 2 ^ n -> 0 <= b < 2 ^ n -> 0 <= Z.lxor a b < 2 ^ n.
Proof.
  intros Hn Ha Hb.
  assert (Hnonneg : 0 <= Z.lxor a b) by (apply Z.lxor_nonneg; lia).
  split; [exact Hnonneg|].
  destruct (Z.eq_dec (Z.lxor a b) 0) as [->|Hne];
    [apply Z.pow_pos_nonneg; lia|].
  apply Z.log2_lt_pow2; [lia|].
  pose proof (Z.log2_lxor a b ltac:(lia) ltac:(lia)) as Hlog.
  assert (Z.log2 a < n).
  { destruct (Z.eq_dec a 0) as [->|]; [exact Hn | apply Z.log2_lt_pow2; lia]. }
  assert (Z.log2 b < n).
  { destruct (Z.eq_dec b 0) as [->|]; [exact Hn | apply Z.log2_lt_pow2; lia]. }
  lia.
Qed.

Lemma DOn_range (n : nat) (st : crc_state) :
  table_valid st ->
  forall (crc crc' : Z) (buf rest : list Z),
    0 <= crc < 2 ^ 32 ->
    DOn n (fst (get_crc_table st)) (crc, buf) = Ok (crc', rest) ->
    0 <= crc' < 2 ^ 32.
Proof.
  intros Hvalid. induction n as [|n IH]; intros crc crc' buf rest Hcrc Hrun.
  - injection Hrun as <- <-. exact Hcrc.
  - destruct buf as [|b buf']; cbn [DOn DO1] in Hrun; [discriminate|].
    destruct (crc_table_lookup st _ Hvalid (land_255_range (Z.lxor crc b)))
      as [Hlookup Hentry].
    rewrite Hlookup in Hrun. cbn [mbind outcome_bind] in Hrun.
    apply IH in Hrun; [exact Hrun|].
    apply lxor_below_pow2; [lia | exact Hentry |].
    rewrite Z.shiftr_div_pow2 by lia. split; [apply Z.div_pos; lia|].
    apply Z.div_lt_upper_bound; lia.
Qed.

(** X3.  Started from a 32-bit value, [crc32] returns a 32-bit value,
    whatever the width of [unsigned long]. *)
Theorem crc32_32bit (st : crc_state) (crc len r : Z) (bytes : list Z)
    (Hvalid : table_valid st) (Hcrc : 0 <= crc < 2 ^ 32)
    (Hrun : fst (crc32 st crc (Some bytes) len) = Ok r) :
  0 <= r < 2 ^ 32.
Proof.
  unfold crc32 in Hrun. cbv zeta in Hrun. cbn [fst] in Hrun.
  change (crc_table (if truthy (crc_table_empty st)
                     then make_crc_table st else st))
    with (fst (get_crc_table st)) in Hrun.
  destruct (while_ge8 _ _ _) as [[c1 rest1]| | |] eqn:H8; try discriminate.
  cbn [mbind outcome_bind] in Hrun.
  destruct (DOn _ _ (c1, rest1)) as [[c2 rest2]| | |] eqn:H1; try discriminate.
  cbn [mbind outcome_bind fst] in Hrun. injection Hrun as <-.
  rewrite while_ge8_DOn in H8.
  assert (Hstart : 0 <= Z.lxor crc 0xffffffff < 2 ^ 32)
    by (apply lxor_below_pow2; lia).
  pose proof (DOn_range _ st Hvalid _ _ _ _ Hstart H8) as Hc1.
  pose proof (DOn_range _ st Hvalid _ _ _ _ Hc1 H1) as Hc2.
  apply lxor_below_pow2; lia.
Qed.

End Crc32Properties.

(** ** crc32.c: the table against the shift register *)

Section Crc32BitSerial.
Import Libc Crc32 Crc32Table.

Lemma truthy_land_1 (c : Z) : truthy (Z.land c 1) = Z.testbit c 0.
Proof.
  unfold truthy. change 1 with (Z.ones 1) at 1.
  rewrite Z.land_ones by lia. change (2 ^ 1) with 2.
  rewrite <- Z.bit0_mod. destruct (Z.testbit c 0); reflexivity.
Qed.

Lemma crc_round_bits (c : Z) :
  crc_round c
  = Z.lxor (Z.shiftr c 1) (if Z.testbit c 0 then poly else 0).
Proof.
  unfold crc_round. rewrite truthy_land_1.
  destruct (Z.testbit c 0); [apply Z.lxor_comm | symmetry; apply Z.lxor_0_r].
Qed.

(** A round is linear over exclusive-or. *)
Lemma crc_round_lxor (a b : Z) :
  crc_round (Z.lxor a b) = Z.lxor (crc_round a) (crc_round b).
Proof.
  rewrite !crc_round_bits, Z.shiftr_lxor, Z.lxor_spec.
  apply Z.bits_inj'. intros n Hn. rewrite !Z.lxor_spec.
  destruct (Z.testbit a 0), (Z.testbit b 0); cbn [xorb];
    rewrite ?Z.bits_0;
    destruct (Z.testbit (Z.shiftr a 1) n), (Z.testbit (Z.shiftr b 1) n),
             (Z.testbit poly n); reflexivity.
Qed.

Lemma crc_rounds_lxor (k : nat) (a b : Z) :
  Nat.iter k crc_round (Z.lxor a b)
  = Z.lxor (Nat.iter k crc_round a) (Nat.iter k crc_round b).
Proof.
  induction k as [|k IH]; [reflexivity|].
  rewrite !Nat.iter_succ, IH. apply crc_round_lxor.
Qed.

(** On a word shifted left by at least [k] bits, [k] rounds only shift. *)
Lemma crc_rounds_shiftl (k : nat) (z n : Z) :
  Z.of_nat k <= n ->
  Nat.iter k crc_round (Z.shiftl z n) = Z.shiftl z (n - Z.of_nat k).
Proof.
  induction k as [|k IH]; intros Hk.
  - cbn [Nat.iter nat_rect]. f_equal. lia.
  - rewrite Nat.iter_succ, IH by lia. rewrite crc_round_bits.
    rewrite Z.shiftl_spec_low by lia. rewrite Z.lxor_0_r.
    rewrite Z.shiftr_shiftl_l by lia. f_equal. lia.
Qed.

(** A word is its low byte together with the rest. *)
Lemma low_byte_split (x : Z) :
  x = Z.lxor (Z.land x 255) (Z.shiftl (Z.shiftr x 8) 8).
Proof.
  apply Z.bits_inj'. intros n Hn.
  rewrite Z.lxor_spec, Z.land_spec. change 255 with (Z.ones 8).
  rewrite Z.testbit_ones_nonneg by lia.
  destruct (Z.ltb_spec n 8) as [Hlow|Hhigh].
  - rewrite Z.shiftl_spec_low by lia.
    rewrite andb_true_r, xorb_false_r. reflexivity.
  - rewrite Z.shiftl_spec, Z.shiftr_spec by lia.
    rewrite andb_false_r, xorb_false_l. f_equal. lia.
Qed.

(** X4.  One step of the table-driven loop is eight rounds of the
    bit-serial shift register on the running value xor-ed with the
    incoming byte. *)
Theorem DO1_eight_rounds (st : crc_state) (crc b : Z) (rest : list Z)
    (Hvalid : table_valid st) (Hbyte : 0 <= b < 256) :
  DO1 (fst (get_crc_table st)) (crc, b :: rest)
  = Ok (Nat.iter 8 crc_round (Z.lxor crc b), rest).
Proof.
  cbn [DO1].
  destruct (crc_table_lookup st _ Hvalid (land_255_range (Z.lxor crc b)))
    as [-> _].
  do 2 f_equal.
  rewrite (low_byte_split (Z.lxor crc b)) at 2.
  rewrite crc_rounds_lxor, (crc_entry_rounds (Z.land (Z.lxor crc b) 255)).
  rewrite (crc_rounds_shiftl 8 _ 8) by lia. change (8 - Z.of_nat 8) with 0.
  rewrite Z.shiftl_0_r, Z.shiftr_lxor. do 2 f_equal.
  rewrite (Z.shiftr_div_pow2 b) by lia. rewrite Z.div_small by lia.
  symmetry. apply Z.lxor_0_r.
Qed.

End Crc32BitSerial.

Section Crc32Witnesses.
Import Libc Crc32 Crc32Table.

Lemma crc32_append_witness :
  crc32 initial_state 0 (Some [49; 50; 51; 52]) 4
  = (Ok 2615402659, make_crc_table initial_state) /\
  crc32 (make_crc_table initial_state) 2615402659
    (Some [53; 54; 55; 56; 57]) 5
  = crc32 initial_state 0
      (Some ([49; 50; 51; 52] ++ [53; 54; 55; 56; 57])) 9.
Proof.
  assert (Hfirst : crc32 initial_state 0 (Some [49; 50; 51; 52])
                     (Z.of_nat (length [49; 50; 51; 52]))
                   = (Ok 2615402659, make_crc_table initial_state))
    by (vm_compute; reflexivity).
  split; [exact Hfirst|].
  exact (crc32_append initial_state (make_crc_table initial_state) 0
           2615402659 [49; 50; 51; 52] [53; 54; 55; 56; 57] Hfirst).
Defined.

Lemma initial_state_valid : table_valid initial_state.
Proof. left. reflexivity. Qed.

Lemma crc32_reads_len_witness :
  0 <= 3 /\ table_valid initial_state /\
  (exists r : Z,
     fst (crc32 initial_state 0 (Some [49; 50; 51; 52; 53]) 3) = Ok r) /\
  crc32 initial_state 0 (Some [49; 50; 51; 52; 53]) 3
  = crc32 initial_state 0 (Some (take (Z.to_nat 3) [49; 50; 51; 52; 53])) 3.
Proof.
  assert (Hlen : 0 <= 3) by lia.
  assert (Hfits : 3 <= Z.of_nat (length [49; 50; 51; 52; 53]))
    by (cbn [length]; lia).
  split; [exact Hlen|]. split; [exact initial_state_valid|].
  destruct (crc32_reads_len initial_state 0 3 [49; 50; 51; 52; 53]
              Hlen initial_state_valid) as [Hiff Hprefix].
  split; [apply Hiff; exact Hfits | exact (Hprefix Hfits)].
Defined.

Lemma crc32_32bit_witness :
  table_valid initial_state /\ 0 <= 0 < 2 ^ 32 /\
  fst (crc32 initial_state 0 (Some [49; 50; 51; 52]) 4) = Ok 2615402659 /\
  0 <= 2615402659 < 2 ^ 32.
Proof.
  assert (Hcrc : 0 <= 0 < 2 ^ 32) by lia.
  assert (Hrun : fst (crc32 initial_state 0 (Some [49; 50; 51; 52]) 4)
                 = Ok 2615402659) by (vm_compute; reflexivity).
  split; [exact initial_state_valid|]. split; [exact Hcrc|].
  split; [exact Hrun|].
  exact (crc32_32bit initial_state 0 4 2615402659 [49; 50; 51; 52]
           initial_state_valid Hcrc Hrun).
Defined.

Lemma DO1_eight_rounds_witness :
  table_valid initial_state /\ 0 <= 49 < 256 /\
  DO1 (fst (get_crc_table initial_state)) (4294967295, [49; 50])
  = Ok (Nat.iter 8 crc_round (Z.lxor 4294967295 49), [50]).
Proof.
  assert (Hbyte : 0 <= 49 < 256) by lia.
  split; [exact initial_state_valid|]. split; [exact Hbyte|].
  exact (DO1_eight_rounds initial_state 4294967295 49 [50]
           initial_state_valid Hbyte).
Defined.

End Crc32Witnesses.

(** ** session_id.h: equality and definedness *)

Section SessionIdMore.
Import Libc SessionId.

(** X5.  [session_id_equal] compares all eight bytes: on two session
    ids it returns true exactly when they are the same. *)
Theorem session_id_equal_iff (sid1 sid2 : session_id)
    (Hwf1 : wf_session_id sid1) (Hwf2 : wf_session_id sid2) :
  exists b : bool,
    session_id_equal sid1 sid2 = Ok b /\ (b = true <-> sid1 = sid2).
Proof.
  unfold wf_session_id, sizeof_session_id in *. unfold session_id_equal.
  unfold sizeof_session_id.
  rewrite memcmp_in_bounds by lia. rewrite !firstn_all2 by lia.
  cbn [mbind outcome_bind]. eexists. split; [reflexivity|].
  unfold truthy. rewrite negb_involutive, Z.eqb_eq.
  rewrite bytes_cmp_zero by lia.
  destruct sid1 as [id1], sid2 as [id2]; cbn [id]. split; congruence.
Qed.

Lemma session_id_equal_iff_witness :
  wf_session_id {| id := [1; 2; 3; 4; 5; 6; 7; 8] |} /\
  wf_session_id {| id := [1; 2; 3; 4; 5; 6; 7; 9] |} /\
  exists b : bool,
    session_id_equal {| id := [1; 2; 3; 4; 5; 6; 7; 8] |}
      {| id := [1; 2; 3; 4; 5; 6; 7; 9] |} = Ok b /\
    (b = true <->
     {| id := [1; 2; 3; 4; 5; 6; 7; 8] |} = {| id := [1; 2; 3; 4; 5; 6; 7; 9] |}).
Proof.
  split; [reflexivity|]. split; [reflexivity|].
  exact (session_id_equal_iff {| id := [1; 2; 3; 4; 5; 6; 7; 8] |}
           {| id := [1; 2; 3; 4; 5; 6; 7; 9] |} eq_refl eq_refl).
Defined.

(** X6.  [session_id_defined] errs on one side only: an id it reports
    as defined is never the all-zero id. *)
Theorem session_id_defined_not_zero (sid : session_id)
    (Hwf : wf_session_id sid)
    (Hdefined : session_id_defined sid = Ok true) :
  sid <> _session_id_zero /\
  session_id_equal sid _session_id_zero = Ok false.
Proof.
  rewrite (session_id_defined_hd sid Hwf) in Hdefined.
  injection Hdefined as Hhd. apply negb_true_iff, Z.eqb_neq in Hhd.
  assert (Hne : sid <> _session_id_zero).
  { intros ->. apply Hhd. reflexivity. }
  split; [exact Hne|].
  rewrite (session_id_equal_zero sid Hwf). f_equal.
  apply bool_decide_eq_false. intros Heq. apply Hne.
  destruct sid as [bytes]. cbn [id] in Heq. subst bytes. reflexivity.
Qed.

Lemma session_id_defined_not_zero_witness :
  wf_session_id {| id := [9; 0; 0; 0; 0; 0; 0; 0] |} /\
  session_id_defined {| id := [9; 0; 0; 0; 0; 0; 0; 0] |} = Ok true /\
  session_id_equal {| id := [9; 0; 0; 0; 0; 0; 0; 0] |} _session_id_zero
  = Ok false.
Proof.
  split; [reflexivity|]. split; [reflexivity|].
  exact (proj2 (session_id_defined_not_zero
                  {| id := [9; 0; 0; 0; 0; 0; 0; 0] |} eq_refl eq_refl)).
Defined.

End SessionIdMore.

(** ** mroute.h: keys *)

Section MrouteMore.
Import Libc Mroute.

Lemma mroute_addr_equal_decide (a1 a2 : mroute_addr) :
  wf_mroute_addr a1 -> wf_mroute_addr a2 ->
  mroute_addr_equal a1 a2 = Ok (bool_decide (same_key a1 a2)).
Proof.
  intros [Hlen1 Hl1] [Hlen2 Hl2]. unfold mroute_addr_equal, same_key.
  destruct (Z.eqb_spec (type a1) (type a2)) as [Ht|Ht]; cbn [negb];
    [|f_equal; symmetry; apply bool_decide_eq_false; tauto].
  destruct (Z.eqb_spec (netbits a1) (netbits a2)) as [Hn|Hn]; cbn [negb];
    [|f_equal; symmetry; apply bool_decide_eq_false; tauto].
  destruct (Z.eqb_spec (len a1) (len a2)) as [Hl|Hl]; cbn [negb];
    [|f_equal; symmetry; apply bool_decide_eq_false; tauto].
  rewrite memcmp_in_bounds by lia. cbn [mbind outcome_bind]. f_equal.
  pose proof (bytes_cmp_zero (take (Z.to_nat (len a1)) (addr a1))
                (take (Z.to_nat (len a1)) (addr a2))
                ltac:(rewrite !length_take; lia)) as Hcmp.
  destruct (Z.eqb_spec (bytes_cmp (take (Z.to_nat (len a1)) (addr a1))
                          (take (Z.to_nat (len a1)) (addr a2))) 0) as [E|E];
    symmetry; [apply bool_decide_eq_true | apply bool_decide_eq_false]; tauto.
Qed.

(** X7.  On addresses as the C type has them [mroute_addr_equal] is an
    equivalence: every address equals itself, the order of the arguments
    does not matter, and two addresses equal to a third are equal. *)
Theorem mroute_addr_equal_equivalence (a1 a2 a3 : mroute_addr)
    (Hwf1 : wf_mroute_addr a1) (Hwf2 : wf_mroute_addr a2)
    (Hwf3 : wf_mroute_addr a3) :
  mroute_addr_equal a1 a1 = Ok true /\
  mroute_addr_equal a1 a2 = mroute_addr_equal a2 a1 /\
  (mroute_addr_equal a1 a2 = Ok true -> mroute_addr_equal a2 a3 = Ok true ->
   mroute_addr_equal a1 a3 = Ok true).
Proof.
  rewrite !mroute_addr_equal_decide by assumption. unfold same_key.
  split; [|split].
  - f_equal. apply bool_decide_eq_true. repeat split.
  - f_equal. apply bool_decide_ext. split.
    + intros (Ht & Hn & Hl & Hb). rewrite <- Hl. repeat split; congruence.
    + intros (Ht & Hn & Hl & Hb). rewrite <- Hl. repeat split; congruence.
  - intros H12 H23. injection H12 as H12. injection H23 as H23.
    apply bool_decide_eq_true in H12 as (Ht & Hn & Hl & Hb).
    apply bool_decide_eq_true in H23 as (Ht' & Hn' & Hl' & Hb').
    f_equal. apply bool_decide_eq_true. rewrite <- Hl in Hb'.
    repeat split; congruence.
Qed.

(** The four bytes [htonl] stores give the address back. *)
Lemma htonl_bytes_value (src : Z) :
  0 <= src < 2 ^ 32 ->
  exists b0 b1 b2 b3 : Z,
    htonl_bytes src = [b0; b1; b2; b3] /\
    src = b0 * 2 ^ 24 + b1 * 2 ^ 16 + b2 * 2 ^ 8 + b3.
Proof.
  intros Hsrc. unfold htonl_bytes. do 4 eexists. split; [reflexivity|].
  change 255 with (Z.ones 8). rewrite !Z.land_ones by lia.
  rewrite !Z.shiftr_div_pow2 by lia.
  change (2 ^ 8) with 256. change (2 ^ 16) with 65536.
  change (2 ^ 24) with 16777216. change (2 ^ 32) with 4294967296 in Hsrc.
  Z.div_mod_to_equations. lia.
Qed.

Lemma htonl_bytes_inj (s1 s2 : Z) :
  0 <= s1 < 2 ^ 32 -> 0 <= s2 < 2 ^ 32 ->
  htonl_bytes s1 = htonl_bytes s2 -> s1 = s2.
Proof.
  intros H1 H2 Heq.
  destruct (htonl_bytes_value s1 H1) as (a0 & a1 & a2 & a3 & Ha & ->).
  destruct (htonl_bytes_value s2 H2) as (b0 & b1 & b2 & b3 & Hb & ->).
  rewrite Ha, Hb in Heq. injection Heq as -> -> -> ->. reflexivity.
Qed.

(** X8.  [mroute_extract_in_addr_t] makes a well-formed IPv4 key of four
    bytes, and the keys made from two addresses compare equal exactly
    when the addresses are the same, whatever the destinations held
    before. *)
Theorem mroute_extract_in_addr_t_equal (d1 d2 : mroute_addr) (s1 s2 : Z)
    (Hd1 : wf_mroute_addr d1) (Hd2 : wf_mroute_addr d2)
    (Hs1 : 0 <= s1 < 2 ^ 32) (Hs2 : 0 <= s2 < 2 ^ 32) :
  wf_mroute_addr (mroute_extract_in_addr_t d1 s1) /\
  type (mroute_extract_in_addr_t d1 s1) = MR_ADDR_IPV4 /\
  len (mroute_extract_in_addr_t d1 s1) = 4 /\
  exists b : bool,
    mroute_addr_equal (mroute_extract_in_addr_t d1 s1)
      (mroute_extract_in_addr_t d2 s2) = Ok b /\
    (b = true <-> s1 = s2).
Proof.
  assert (Hwf : forall d s, wf_mroute_addr d ->
                            wf_mroute_addr (mroute_extract_in_addr_t d s)).
  { intros d s [Hlen Hl]. unfold wf_mroute_addr, MR_MAX_ADDR_LEN in Hlen |- *.
    cbn [mroute_extract_in_addr_t addr len]. unfold htonl_bytes.
    rewrite length_app, length_drop. cbn [length]. lia. }
  split; [apply Hwf; assumption|]. split; [reflexivity|].
  split; [reflexivity|].
  rewrite mroute_addr_equal_decide by (apply Hwf; assumption).
  eexists. split; [reflexivity|].
  rewrite bool_decide_eq_true. unfold same_key.
  cbn [mroute_extract_in_addr_t type netbits len addr].
  change (Z.to_nat 4) with 4%nat.
  assert (Htake : forall s rest, take 4 (htonl_bytes s ++ rest) = htonl_bytes s)
    by reflexivity.
  rewrite !Htake. split.
  - intros (_ & _ & _ & Hbytes). apply htonl_bytes_inj; assumption.
  - intros ->. repeat split.
Qed.

End MrouteMore.

(** ** multi.h: references, routes and time *)

Section MultiMore.
Import Libc Multi Samples.

Lemma with_instances_same (h : heap) : with_instances h (instances h) = h.
Proof. destruct h; reflexivity. Qed.

Lemma inc_refcount_live (h : heap) (a : Z) (i : multi_instance) :
  instances h !! a = Some i ->
  multi_instance_inc_refcount h (Some a)
  = Ok (with_instances h
          (<[a := set_refcount (wrap_int (refcount i + 1)) i]> (instances h))).
Proof.
  intros Hlive. unfold multi_instance_inc_refcount.
  rewrite (deref_live _ _ _ Hlive). reflexivity.
Qed.

(** X9.  Taking a reference and giving it back leaves the heap as it
    was, for an instance that is already referenced. *)
Theorem inc_dec_refcount_roundtrip (h : heap) (a : Z) (i : multi_instance)
    (Hlive : instances h !! a = Some i)
    (Hrefs : 1 <= refcount i < INT_MAX) :
  (h1 ← multi_instance_inc_refcount h (Some a);
   multi_instance_dec_refcount h1 (Some a)) = Ok h.
Proof.
  rewrite (inc_refcount_live h a i Hlive). cbn [mbind outcome_bind].
  rewrite wrap_int_id by (unfold in_int, INT_MIN, INT_MAX in *; lia).
  rewrite (dec_refcount_keeps _ a (set_refcount (refcount i + 1) i))
    by (cbn [with_instances instances set_refcount refcount];
        first [apply lookup_insert_eq | lia]).
  cbn [with_instances instances routes set_refcount refcount].
  rewrite insert_insert_eq. f_equal.
  replace (refcount i + 1 - 1) with (refcount i) by lia.
  rewrite set_refcount_twice, set_refcount_same, (insert_id _ _ _ Hlive).
  destruct h; reflexivity.
Qed.

Lemma inc_dec_refcount_roundtrip_witness :
  instances (sample_heap false 1) !! 100 = Some (sample_instance false 1) /\
  (h1 ← multi_instance_inc_refcount (sample_heap false 1) (Some 100);
   multi_instance_dec_refcount h1 (Some 100)) = Ok (sample_heap false 1).
Proof.
  split; [reflexivity|].
  apply (inc_dec_refcount_roundtrip (sample_heap false 1) 100
           (sample_instance false 1) eq_refl).
  unfold INT_MAX. cbn. lia.
Defined.

(** X10.  Deleting one of several routes to an instance frees that
    route only: the instance stays, with one reference less, and every
    other route to it is exactly as valid as before. *)
Theorem multi_route_del_shared_target (h : heap) (ra a : Z) (r : multi_route)
    (i : multi_instance)
    (Hroute : routes h !! ra = Some r)
    (Htarget : instance r = Some a)
    (Hlive : instances h !! a = Some i)
    (Hrefs : 2 <= refcount i <= INT_MAX) :
  exists h' : heap,
    multi_route_del h (Some ra) = Ok h' /\
    routes h' = delete ra (routes h) /\
    instances h' = <[a := set_refcount (refcount i - 1) i]> (instances h) /\
    forall (now : Z) (m : multi_context) (r2 : multi_route),
      multi_route_defined now h' m r2 = multi_route_defined now h m r2.
Proof.
  unfold multi_route_del. rewrite (deref_live _ _ _ Hroute).
  cbn [mbind outcome_bind]. rewrite Htarget.
  rewrite (dec_refcount_keeps h a i Hlive Hrefs). cbn [mbind outcome_bind].
  eexists. split; [reflexivity|].
  cbn [with_routes with_instances routes instances].
  split; [reflexivity|]. split; [reflexivity|].
  intros now m r2. unfold multi_route_defined.
  cbn [with_routes with_instances routes instances].
  destruct (instance r2) as [a2|]; [|reflexivity]. unfold deref.
  destruct (Z.eq_dec a a2) as [<-|Hne].
  - rewrite lookup_insert_eq, Hlive. reflexivity.
  - rewrite lookup_insert_ne by congruence. reflexivity.
Qed.

Lemma multi_route_del_shared_target_witness :
  routes (sample_heap false 2) !! 200 = Some (sample_route 768 3 1000) /\
  exists h' : heap,
    multi_route_del (sample_heap false 2) (Some 200) = Ok h' /\
    routes h' = delete 200 (routes (sample_heap false 2)) /\
    multi_route_defined 1050 h' (sample_context []) (sample_route 768 3 1000)
    = multi_route_defined 1050 (sample_heap false 2) (sample_context [])
        (sample_route 768 3 1000).
Proof.
  split; [reflexivity|].
  destruct (multi_route_del_shared_target (sample_heap false 2) 200 100
              (sample_route 768 3 1000) (sample_instance false 2)
              eq_refl eq_refl eq_refl ltac:(unfold INT_MAX; cbn; lia))
    as (h' & Hrun & Hroutes & _ & Hdefined).
  exists h'. split; [exact Hrun|]. split; [exact Hroutes|]. apply Hdefined.
Defined.

(** X11.  A route does not come back with time: with the heap and the
    context unchanged, a route that is not valid at one time is not
    valid at any later time, and one that is valid was valid at every
    earlier time. *)
Theorem multi_route_defined_expires (now later : Z) (h : heap)
    (m : multi_context) (r : multi_route) (Htime : now <= later) :
  (multi_route_defined now h m r = Ok false ->
   multi_route_defined later h m r = Ok false) /\
  (multi_route_defined later h m r = Ok true ->
   multi_route_defined now h m r = Ok true).
Proof.
  unfold multi_route_defined.
  destruct (deref (instances h) (instance r)) as [i| | |];
    cbn [mbind outcome_bind]; [|split; discriminate..].
  destruct (halt i || negb (multi_instance_ready (instance r)));
    [split; [reflexivity | discriminate]|].
  destruct (truthy (Z.land (flags r) MULTI_ROUTE_CACHE)
            && negb (cache_generation r
                     =? Mroute.cache_generation (route_helper m)));
    [split; [reflexivity | discriminate]|].
  destruct (truthy (Z.land (flags r) MULTI_ROUTE_AGEABLE)); cbn [andb];
    [|split; [discriminate | reflexivity]].
  set (deadline := wrap_time (last_reference r
                              + Mroute.ageable_ttl_secs (route_helper m))).
  destruct (Z.ltb_spec deadline now), (Z.ltb_spec deadline later);
    split; intros; (reflexivity || discriminate || lia).
Qed.

Lemma multi_route_defined_expires_witness :
  1061 <= 2000 /\
  multi_route_defined 1061 (sample_heap false 2) (sample_context [])
    (sample_route 768 3 1000) = Ok false /\
  multi_route_defined 2000 (sample_heap false 2) (sample_context [])
    (sample_route 768 3 1000) = Ok false.
Proof.
  assert (Htime : 1061 <= 2000) by lia.
  split; [exact Htime|]. split; [reflexivity|].
  exact (proj1 (multi_route_defined_expires 1061 2000 (sample_heap false 2)
                  (sample_context []) (sample_route 768 3 1000) Htime)
           eq_refl).
Defined.



End MultiMore.

(** ** multi.h with FAST_IO: the deferral queue *)

Section DeferQueue.
Import Libc Multi MultiFastIo.

Variable max_queued : Z.
Variable max_iterations : Z.

Lemma queue_snoc (l : Datatypes.list ptr) (k : nat) (x : ptr) :
  (k < length l)%nat ->
  take (S k) (<[k := x]> l) = take k l ++ [x].
Proof.
  intros Hk.
  rewrite (take_S_r _ _ x) by (apply list_lookup_insert_eq; exact Hk).
  rewrite take_insert_ge by lia. reflexivity.
Qed.

(** X13.  As long as [multi_postprocess_defer_must_flush] is false,
    [multi_postprocess_defer_add] on an allocated instance never fails
    its assertion and keeps the queue well formed: an instance that is
    not yet queued is stored in the next free slot and marked, one that
    is already queued is not stored a second time. *)
Theorem defer_add_keeps_queue (s : defer_state) (a : Z) (q hint : bool)
    (Hinv : defer_inv max_queued s)
    (Hlive : queued s !! a = Some q)
    (Hflush : multi_postprocess_defer_must_flush max_queued max_iterations
                hint s = false) :
  exists s' : defer_state,
    multi_postprocess_defer_add max_queued s (Some a) = Ok s' /\
    defer_inv max_queued s' /\
    queued s' !! a = Some true /\
    (q = true ->
     n (mpd s') = n (mpd s) /\ list (mpd s') = list (mpd s) /\
     queued s' = queued s) /\
    (q = false ->
     n (mpd s') = n (mpd s) + 1 /\
     take (Z.to_nat (n (mpd s'))) (list (mpd s'))
     = take (Z.to_nat (n (mpd s))) (list (mpd s)) ++ [Some a]).
Proof.
  destruct Hinv as (Hlen & Hn & Hmax & Hnodup & Hmem).
  unfold multi_postprocess_defer_must_flush in Hflush.
  apply orb_false_iff in Hflush as [_ Hfull]. apply Z.eqb_neq in Hfull.
  unfold multi_postprocess_defer_add. cbv zeta.
  unfold deref. rewrite Hlive. cbn [mbind outcome_bind iter n list].
  destruct q; cbn [negb].
  - eexists. split; [reflexivity|]. cbn [mpd queued n list].
    split; [exact (conj Hlen (conj Hn (conj Hmax (conj Hnodup Hmem))))|].
    split; [exact Hlive|].
    split; [intros _; repeat split | discriminate].
  - destruct (Z.ltb_spec (n (mpd s)) max_queued) as [Hroom|]; [|lia].
    cbn [ASSERT mbind outcome_bind]. unfold array_set.
    destruct (Z.leb_spec 0 (n (mpd s))); [|lia].
    destruct (Z.ltb_spec (n (mpd s)) (Z.of_nat (length (list (mpd s)))));
      [|lia].
    cbn [andb mbind outcome_bind].
    rewrite (wrap_int_id (n (mpd s) + 1))
      by (unfold in_int, INT_MIN, INT_MAX in *; lia).
    eexists. split; [reflexivity|]. cbn [mpd queued n list].
    assert (Hsnoc : take (Z.to_nat (n (mpd s) + 1))
                      (<[Z.to_nat (n (mpd s)) := Some a]> (list (mpd s)))
                    = take (Z.to_nat (n (mpd s))) (list (mpd s)) ++ [Some a]).
    { replace (Z.to_nat (n (mpd s) + 1)) with (S (Z.to_nat (n (mpd s))))
        by lia.
      apply queue_snoc. lia. }
    assert (Hfresh : Some a ∉ take (Z.to_nat (n (mpd s))) (list (mpd s))).
    { intros Hin. apply Hmem in Hin as (a' & Heq & Hq).
      injection Heq as <-. congruence. }
    split; [|split; [apply lookup_insert_eq|];
             split; [discriminate | intros _; split; [reflexivity | exact Hsnoc]]].
    unfold defer_inv. cbn [mpd queued n list]. unfold ptr in *.
    rewrite length_insert, Hsnoc.
    split; [exact Hlen|]. split; [lia|]. split; [exact Hmax|]. split.
    + apply NoDup_app. split; [exact Hnodup|]. split; [|apply NoDup_singleton].
      intros x Hx Hx'. apply list_elem_of_singleton in Hx'. subst x.
      exact (Hfresh Hx).
    + intros mi. rewrite elem_of_app, list_elem_of_singleton, Hmem. split.
      * intros [(a' & -> & Hq) | ->].
        -- exists a'. split; [reflexivity|].
           rewrite lookup_insert_ne by congruence. exact Hq.
        -- exists a. split; [reflexivity | apply lookup_insert_eq].
      * intros (a' & -> & Hq). destruct (Z.eq_dec a a') as [<-|Hne].
        -- right. reflexivity.
        -- left. exists a'. split; [reflexivity|].
           rewrite lookup_insert_ne in Hq by exact Hne. exact Hq.
Qed.

(** X14.  [multi_postprocess_defer_get] on a queue that is not empty
    returns the instance stored last, which was marked as queued, clears
    its mark and keeps the queue well formed; on an empty queue it
    returns NULL and changes nothing. *)
Theorem defer_get_keeps_queue (s : defer_state)
    (Hinv : defer_inv max_queued s) :
  (n (mpd s) = 0 -> multi_postprocess_defer_get s = Ok (NULL, s)) /\
  (0 < n (mpd s) ->
   exists (a : Z) (s' : defer_state),
     multi_postprocess_defer_get s = Ok (Some a, s') /\
     defer_inv max_queued s' /\
     n (mpd s') = n (mpd s) - 1 /\
     take (Z.to_nat (n (mpd s))) (list (mpd s))
     = take (Z.to_nat (n (mpd s'))) (list (mpd s')) ++ [Some a] /\
     queued s !! a = Some true /\
     queued s' = <[a := false]> (queued s)).
Proof.
  destruct Hinv as (Hlen & Hn & Hmax & Hnodup & Hmem).
  unfold multi_postprocess_defer_get. cbv zeta. split.
  - intros ->. reflexivity.
  - intros Hpos. destruct (Z.gtb_spec (n (mpd s)) 0); [|lia].
    cbn [iter n list].
    rewrite wrap_int_id by (unfold in_int, INT_MIN, INT_MAX in *; lia).
    unfold array_get. destruct (Z.leb_spec 0 (n (mpd s) - 1)); [|lia].
    destruct (list (mpd s) !! Z.to_nat (n (mpd s) - 1)) as [mi|] eqn:Hslot;
      [|apply lookup_ge_None in Hslot; lia].
    cbn [mbind outcome_bind].
    assert (Hsplit : take (Z.to_nat (n (mpd s))) (list (mpd s))
                     = take (Z.to_nat (n (mpd s) - 1)) (list (mpd s)) ++ [mi]).
    { replace (Z.to_nat (n (mpd s))) with (S (Z.to_nat (n (mpd s) - 1)))
        by lia.
      apply take_S_r. exact Hslot. }
    assert (Hin : mi ∈ take (Z.to_nat (n (mpd s))) (list (mpd s)))
      by (rewrite Hsplit; apply elem_of_app; right;
          apply list_elem_of_singleton; reflexivity).
    apply Hmem in Hin as (a & -> & Hq).
    unfold deref. rewrite Hq. cbn [mbind outcome_bind].
    exists a. eexists. split; [reflexivity|]. cbn [mpd queued n list].
    rewrite Hsplit in Hnodup. apply NoDup_app in Hnodup as (Hnd & Hdisj & _).
    split; [|repeat split; assumption].
    unfold defer_inv. cbn [mpd queued n list].
    split; [exact Hlen|]. split; [lia|]. split; [exact Hmax|].
    split; [exact Hnd|].
    intros mi. split.
    + intros Hin.
      assert (Hin' : mi ∈ take (Z.to_nat (n (mpd s))) (list (mpd s)))
        by (rewrite Hsplit; apply elem_of_app; left; exact Hin).
      apply Hmem in Hin' as (a' & -> & Hq').
      exists a'. split; [reflexivity|].
      rewrite lookup_insert_ne; [exact Hq'|].
      intros <-. apply (Hdisj _ Hin). apply list_elem_of_singleton. reflexivity.
    + intros (a' & -> & Hq'). destruct (Z.eq_dec a a') as [<-|Hne].
      * rewrite lookup_insert_eq in Hq'. discriminate.
      * rewrite lookup_insert_ne in Hq' by exact Hne.
        assert (Hin : Some a' ∈ take (Z.to_nat (n (mpd s))) (list (mpd s)))
          by (apply Hmem; exists a'; split; [reflexivity | exact Hq']).
        rewrite Hsplit in Hin. apply elem_of_app in Hin as [Hin|Hin];
          [exact Hin|].
        apply list_elem_of_singleton in Hin. congruence.
Qed.

End DeferQueue.

(** ** helper.c: the other expansions *)

Section HelperMore.
Import Libc Helper Samples.



Lemma bool_decide_is_Some_false {A : Type} (x : option A) :
  bool_decide (is_Some x) = false -> x = None.
Proof.
  destruct x; [|reflexivity]. intros H. apply bool_decide_eq_false in H.
  exfalso. apply H. eexists. reflexivity.
Qed.

(** What an accepted [--server] directive went through. *)
Lemma helper_server_Ok (min_netbits dev : Z) (o o1 : options) :
  helper_server min_netbits dev o = Ok o1 ->
  client o = false /\ server_bridge_defined o = false /\
  shared_secret_file o = None /\ ifconfig_pool_defined o = false /\
  (dev = DEV_TYPE_TUN \/ dev = DEV_TYPE_TAP) /\
  exists netbits : Z,
    netmask_to_netbits (server_network o) (server_netmask o) (-2)
    = (true, netbits) /\
    0 <= netbits /\ min_netbits <= netbits /\
    exists o2 : options,
      (if dev =? DEV_TYPE_TUN then server_tun netbits o
       else server_tap netbits o) = Ok o2 /\
      o1 = fix_proto PROTO_TCPv4_SERVER o2.
Proof.
  unfold helper_server. cbv zeta. intros Hrun.
  apply usage_if_Ok in Hrun as [Hclient Hrun].
  apply usage_if_Ok in Hrun as [Hbridge Hrun].
  apply usage_if_Ok in Hrun as [Hsecret Hrun].
  apply bool_decide_is_Some_false in Hsecret.
  apply usage_if_Ok in Hrun as [Hpool Hrun].
  apply usage_if_Ok in Hrun as [Hdev Hrun].
  apply negb_false_iff, orb_true_iff in Hdev.
  rewrite !Z.eqb_eq in Hdev.
  destruct (netmask_to_netbits _ _ _) as [status netbits] eqn:Hmask.
  apply usage_if_Ok in Hrun as [Hstatus Hrun].
  apply negb_false_iff in Hstatus. subst status.
  apply usage_if_Ok in Hrun as [Hneg Hrun]. apply Z.ltb_ge in Hneg.
  apply usage_if_Ok in Hrun as [Hmin Hrun]. apply Z.ltb_ge in Hmin.
  apply bind_Ok in Hrun as (o2 & Hbranch & Hrun). injection Hrun as <-.
  repeat split; try assumption; [tauto|].
  exists netbits. repeat split; try assumption.
  exists o2. split; [|reflexivity].
  destruct Hdev as [-> | ->]; exact Hbranch.
Qed.

Lemma fix_proto_keeps (v : Z) (o : options) :
  mode (fix_proto v o) = mode o /\
  tls_server (fix_proto v o) = tls_server o /\
  tls_client (fix_proto v o) = tls_client o /\
  pull (fix_proto v o) = pull o /\
  ifconfig_local (fix_proto v o) = ifconfig_local o /\
  ifconfig_remote_netmask (fix_proto v o) = ifconfig_remote_netmask o /\
  ifconfig_pool_defined (fix_proto v o) = ifconfig_pool_defined o /\
  ifconfig_pool_start (fix_proto v o) = ifconfig_pool_start o /\
  ifconfig_pool_end (fix_proto v o) = ifconfig_pool_end o /\
  ifconfig_pool_netmask (fix_proto v o) = ifconfig_pool_netmask o /\
  push_list (fix_proto v o) = push_list o /\
  routes (fix_proto v o) = routes o.
Proof. unfold fix_proto. destruct (proto o =? PROTO_TCPv4); repeat split. Qed.

Lemma fix_proto_proto (v : Z) (o : options) :
  v <> PROTO_TCPv4 ->
  proto (fix_proto v o) <> PROTO_TCPv4 /\
  (proto o <> PROTO_TCPv4 -> proto (fix_proto v o) = proto o) /\
  (proto o = PROTO_TCPv4 -> proto (fix_proto v o) = v).
Proof.
  intros Hv. unfold fix_proto.
  destruct (Z.eqb_spec (proto o) PROTO_TCPv4) as [Heq|Hne];
    cbn [set_proto proto]; repeat split; intros; congruence.
Qed.

(** What [--server] with a tap device stores, in the arithmetic of the
    source. *)
Lemma server_tap_fields (netbits : Z) (o o' : options) :
  server_tap netbits o = Ok o' ->
  netbits <= 29 /\
  wrap_u32 (server_network o + 1) <> 0 /\
  proto o' = proto o /\
  mode o' = MODE_SERVER /\ tls_server o' = true /\
  ifconfig_local o' = Some (print_in_addr_t (wrap_u32 (server_network o + 1))) /\
  ifconfig_remote_netmask o' = Some (print_in_addr_t (server_netmask o)) /\
  ifconfig_pool_defined o' = true /\
  ifconfig_pool_start o' = wrap_u32 (server_network o + 2) /\
  ifconfig_pool_end o'
  = wrap_u32 (Z.lor (server_network o) (lnot_u32 (server_netmask o)) - 1) /\
  ifconfig_pool_netmask o' = server_netmask o /\
  push_list o'
  = push_list o ++ ["route-gateway "
                    +:+ print_in_addr_t (wrap_u32 (server_network o + 1))].
Proof.
  unfold server_tap. intros Hrun.
  apply usage_if_Ok in Hrun as [Hbits Hrun].
  cbv zeta in Hrun. unfold print_opt_route_gateway in Hrun.
  apply bind_Ok in Hrun as (opt & Hopt & Hrun).
  cbn [set_mode set_tls_server set_ifconfig_local set_ifconfig_remote_netmask
       set_ifconfig_pool_defined set_ifconfig_pool_start set_ifconfig_pool_end
       set_ifconfig_pool_netmask server_network server_netmask] in Hopt.
  unfold ASSERT in Hopt.
  destruct (truthy (wrap_u32 (server_network o + 1))) eqn:Hgw;
    [|discriminate].
  apply truthy_true in Hgw.
  cbn [mbind outcome_bind] in Hopt. injection Hopt as <-.
  injection Hrun as <-.
  assert (Hle : netbits <= 29).
  { destruct (Z.geb_spec netbits 30); [discriminate | lia]. }
  repeat split; assumption.
Qed.

Lemma server_tun_proto (netbits : Z) (o o' : options) :
  server_tun netbits o = Ok o' -> proto o' = proto o.
Proof.
  unfold server_tun. intros Hrun.
  apply usage_if_Ok in Hrun as [_ Hrun]. cbv zeta in Hrun.
  repeat match type of Hrun with
         | (if ?c then _ else _) = _ => destruct c
         end;
    try (apply bind_Ok in Hrun as (opt & _ & Hrun));
    injection Hrun as <-; reflexivity.
Qed.

(** X15.  For every [--server NET MASK] with a tap device that
    [helper_client_server] accepts, the expansion sets server mode,
    ifconfig to NET+1 with MASK, the pool to NET+2 up to one below the
    broadcast address with MASK, and pushes the gateway NET+1. *)
Theorem server_tap_expansion (min_netbits : Z) (o o' : options)
    (Hserver : server_defined o = true)
    (Hdev : dev_type_enum (dev o) (dev_type o) = Ok DEV_TYPE_TAP)
    (Hrun : helper_client_server min_netbits o = Ok o') :
  mode o' = MODE_SERVER /\ tls_server o' = true /\
  ifconfig_local o' = Some (print_in_addr_t (server_network o + 1)) /\
  ifconfig_remote_netmask o' = Some (print_in_addr_t (server_netmask o)) /\
  ifconfig_pool_start o' = server_network o + 2 /\
  ifconfig_pool_end o'
  = Z.lor (server_network o) (lnot_u32 (server_netmask o)) - 1 /\
  ifconfig_pool_netmask o' = server_netmask o /\
  push_list o'
  = push_list o ++ ["route-gateway " +:+ print_in_addr_t (server_network o + 1)] /\
  ifconfig_pool_start o' <= ifconfig_pool_end o'.
Proof.
  unfold helper_client_server in Hrun. rewrite Hdev, Hserver in Hrun.
  cbn [mbind outcome_bind] in Hrun.
  apply bind_Ok in Hrun as (o1 & Hsrv & Hlast).
  apply usage_if_Ok in Hlast as [_ Hlast]. injection Hlast as <-.
  apply helper_server_Ok in Hsrv
    as (_ & _ & _ & _ & _ & netbits & Hmask & Hnonneg & _ & o2 & Htap & ->).
  change (DEV_TYPE_TAP =? DEV_TYPE_TUN) with false in Htap. cbv iota in Htap.
  apply server_tap_fields in Htap
    as (Hbits & _ & _ & Hmode & Htls & Hlocal & Hremote & _ & Hstart & Hend
        & Hnetmask & Hpush).
  apply netmask_to_netbits_true in Hmask as (Hland & _ & Hprefix).
  rewrite <- Hprefix in Hland.
  pose proof (network_in_prefix_mask _ netbits ltac:(lia) Hland) as Hroom.
  cbv zeta in Hroom. rewrite Hprefix in Hroom.
  destruct Hroom as (Hnet & Htop & Hbcast & Hle & Hmaskle & _).
  destruct (fix_proto_keeps PROTO_TCPv4_SERVER o2)
    as (-> & -> & _ & _ & -> & -> & _ & -> & -> & -> & -> & _).
  rewrite Hmode, Htls, Hlocal, Hremote, Hstart, Hend, Hnetmask, Hpush, Hbcast.
  rewrite !wrap_u32_id by lia.
  repeat split; lia.
Qed.

Lemma server_tap_expansion_witness :
  let o := sample_options "tap0" MODE_POINT_TO_POINT true
             (in_addr 10 8 0 0) (in_addr 255 255 255 0) 0 0 in
  let o' :=
    set_push_list ["route-gateway 10.8.0.1"]
      (set_ifconfig_pool_netmask (in_addr 255 255 255 0)
         (set_ifconfig_pool_end (in_addr 10 8 0 254)
            (set_ifconfig_pool_start (in_addr 10 8 0 2)
               (set_ifconfig_pool_defined true
                  (set_ifconfig_remote_netmask (Some "255.255.255.0")
                     (set_ifconfig_local (Some "10.8.0.1")
                        (set_tls_server true (set_mode MODE_SERVER o)))))))) in
  server_defined o = true /\
  dev_type_enum (dev o) (dev_type o) = Ok DEV_TYPE_TAP /\
  helper_client_server 16 o = Ok o' /\
  ifconfig_pool_start o' = server_network o + 2 /\
  ifconfig_pool_end o'
  = Z.lor (server_network o) (lnot_u32 (server_netmask o)) - 1.
Proof.
  intros o o'.
  assert (Hrun : helper_client_server 16 o = Ok o') by (vm_compute; reflexivity).
  split; [reflexivity|]. split; [reflexivity|]. split; [exact Hrun|].
  destruct (server_tap_expansion 16 o o' eq_refl eq_refl Hrun)
    as (_ & _ & _ & _ & Hstart & Hend & _).
  split; [exact Hstart | exact Hend].
Defined.

End HelperMore.

Section HelperDirectives.
Import Libc Helper Samples.

Lemma verify_common_subnet_Ok {A : Type} (opt : string) (a b subnet : Z)
    (k : outcome A) (x : A) :
  (verify_common_subnet opt a b subnet;; k) = Ok x ->
  Z.land a subnet = Z.land b subnet /\ k = Ok x.
Proof.
  unfold verify_common_subnet. intros Hrun.
  apply usage_if_Ok in Hrun as [Hsame Hrun].
  apply negb_false_iff, Z.eqb_eq in Hsame. split; assumption.
Qed.

Lemma helper_server_bridge_Ok (dev : Z) (o o1 : options) :
  helper_server_bridge dev o = Ok o1 ->
  client o = false /\ ifconfig_pool_defined o = false /\
  shared_secret_file o = None /\ dev = DEV_TYPE_TAP /\
  Z.land (server_bridge_ip o) (server_bridge_netmask o)
  = Z.land (server_bridge_pool_start o) (server_bridge_netmask o) /\
  Z.land (server_bridge_pool_start o) (server_bridge_netmask o)
  = Z.land (server_bridge_pool_end o) (server_bridge_netmask o) /\
  server_bridge_ip o <> 0 /\
  o1 = fix_proto PROTO_TCPv4_SERVER
         (push_option
            (set_ifconfig_pool_netmask (server_bridge_netmask o)
               (set_ifconfig_pool_end (server_bridge_pool_end o)
                  (set_ifconfig_pool_start (server_bridge_pool_start o)
                     (set_ifconfig_pool_defined true
                        (set_tls_server true (set_mode MODE_SERVER o))))))
            ("route-gateway " +:+ print_in_addr_t (server_bridge_ip o))).
Proof.
  unfold helper_server_bridge. intros Hrun.
  apply usage_if_Ok in Hrun as [Hclient Hrun].
  apply usage_if_Ok in Hrun as [Hpool Hrun].
  apply usage_if_Ok in Hrun as [Hsecret Hrun].
  apply bool_decide_is_Some_false in Hsecret.
  apply usage_if_Ok in Hrun as [Hdev Hrun].
  apply negb_false_iff, Z.eqb_eq in Hdev.
  apply verify_common_subnet_Ok in Hrun as [Hsame1 Hrun].
  apply verify_common_subnet_Ok in Hrun as [Hsame2 Hrun].
  apply verify_common_subnet_Ok in Hrun as [_ Hrun].
  cbv zeta in Hrun. unfold print_opt_route_gateway in Hrun.
  apply bind_Ok in Hrun as (opt & Hopt & Hrun).
  cbn [set_mode set_tls_server set_ifconfig_pool_defined
       set_ifconfig_pool_start set_ifconfig_pool_end
       set_ifconfig_pool_netmask server_bridge_ip] in Hopt.
  unfold ASSERT in Hopt.
  destruct (truthy (server_bridge_ip o)) eqn:Hgw; [|discriminate].
  apply truthy_true in Hgw.
  cbn [mbind outcome_bind] in Hopt. injection Hopt as <-.
  injection Hrun as <-. repeat split; assumption.
Qed.

(** X16.  An accepted [--server-bridge IP MASK START END] needs a tap
    device and the three addresses in one subnet of MASK; the expansion
    sets server mode, the pool START to END with MASK, and pushes the
    gateway IP after the options pushed so far. *)
Theorem server_bridge_expansion (min_netbits : Z) (o o' : options)
    (Hnoserver : server_defined o = false)
    (Hbridge : server_bridge_defined o = true)
    (Hrun : helper_client_server min_netbits o = Ok o') :
  dev_type_enum (dev o) (dev_type o) = Ok DEV_TYPE_TAP /\
  Z.land (server_bridge_ip o) (server_bridge_netmask o)
  = Z.land (server_bridge_pool_start o) (server_bridge_netmask o) /\
  Z.land (server_bridge_pool_start o) (server_bridge_netmask o)
  = Z.land (server_bridge_pool_end o) (server_bridge_netmask o) /\
  mode o' = MODE_SERVER /\ tls_server o' = true /\
  ifconfig_pool_defined o' = true /\
  ifconfig_pool_start o' = server_bridge_pool_start o /\
  ifconfig_pool_end o' = server_bridge_pool_end o /\
  ifconfig_pool_netmask o' = server_bridge_netmask o /\
  push_list o'
  = push_list o ++ ["route-gateway " +:+ print_in_addr_t (server_bridge_ip o)].
Proof.
  unfold helper_client_server in Hrun.
  apply bind_Ok in Hrun as (dev & Hdev & Hrun).
  rewrite Hnoserver, Hbridge in Hrun.
  apply bind_Ok in Hrun as (o1 & Hsrv & Hlast).
  apply usage_if_Ok in Hlast as [_ Hlast]. injection Hlast as <-.
  apply helper_server_bridge_Ok in Hsrv
    as (_ & _ & _ & -> & Hsame1 & Hsame2 & _ & ->).
  destruct (fix_proto_keeps PROTO_TCPv4_SERVER
              (push_option
                 (set_ifconfig_pool_netmask (server_bridge_netmask o)
                    (set_ifconfig_pool_end (server_bridge_pool_end o)
                       (set_ifconfig_pool_start (server_bridge_pool_start o)
                          (set_ifconfig_pool_defined true
                             (set_tls_server true (set_mode MODE_SERVER o))))))
                 ("route-gateway " +:+ print_in_addr_t (server_bridge_ip o))))
    as (-> & -> & _ & _ & _ & _ & -> & -> & -> & -> & -> & _).
  repeat split; assumption.
Qed.

(** The options of the example in the source:
    [server-bridge 10.8.0.4 255.255.255.0 10.8.0.128 10.8.0.254]. *)
Lemma server_bridge_expansion_witness :
  server_defined sample_bridge_options = false /\
  server_bridge_defined sample_bridge_options = true /\
  exists o' : options,
    helper_client_server 16 sample_bridge_options = Ok o' /\
    ifconfig_pool_start o' = in_addr 10 8 0 128 /\
    ifconfig_pool_end o' = in_addr 10 8 0 254 /\
    push_list o' = [] ++ ["route-gateway " +:+ print_in_addr_t (in_addr 10 8 0 4)].
Proof.
  split; [reflexivity|]. split; [reflexivity|].
  destruct (helper_client_server 16 sample_bridge_options)
    as [o'| | |] eqn:Hrun; try (vm_compute in Hrun; discriminate Hrun).
  exists o'. split; [reflexivity|].
  destruct (server_bridge_expansion 16 sample_bridge_options o'
              eq_refl eq_refl Hrun)
    as (_ & _ & _ & _ & _ & _ & Hstart & Hend & _ & Hpush).
  split; [exact Hstart|]. split; [exact Hend | exact Hpush].
Defined.

(** X17.  [helper_client_server] never returns with the protocol left
    at the ambiguous PROTO_TCPv4: a server or server-bridge directive
    turns it into the TCP server protocol, [client] into the TCP client
    protocol, and any other protocol is passed through. *)
Theorem helper_client_server_proto (min_netbits : Z) (o o' : options)
    (Hrun : helper_client_server min_netbits o = Ok o') :
  proto o' <> PROTO_TCPv4 /\
  (proto o <> PROTO_TCPv4 -> proto o' = proto o) /\
  (proto o = PROTO_TCPv4 ->
   (server_defined o || server_bridge_defined o = true ->
    proto o' = PROTO_TCPv4_SERVER) /\
   (server_defined o || server_bridge_defined o = false ->
    client o = true /\ proto o' = PROTO_TCPv4_CLIENT)).
Proof.
  unfold helper_client_server in Hrun.
  apply bind_Ok in Hrun as (dev & Hdev & Hrun).
  apply bind_Ok in Hrun as (o1 & Hbranch & Hlast).
  apply usage_if_Ok in Hlast as [Hamb Hlast]. injection Hlast as <-.
  apply Z.eqb_neq in Hamb.
  assert (Hfix : forall v o2, o1 = fix_proto v o2 -> v <> PROTO_TCPv4 ->
                   proto o2 = proto o ->
                   (proto o <> PROTO_TCPv4 -> proto o1 = proto o) /\
                   (proto o = PROTO_TCPv4 -> proto o1 = v)).
  { intros v o2 -> Hv Hproto.
    destruct (fix_proto_proto v o2 Hv) as (_ & Hkeep & Hset).
    rewrite Hproto in Hkeep, Hset. split; assumption. }
  split; [exact Hamb|].
  destruct (server_defined o) eqn:Hserver.
  - apply helper_server_Ok in Hbranch
      as (_ & _ & _ & _ & Hkind & nb & _ & _ & _ & o2 & Hexp & Ho1).
    assert (Hproto : proto o2 = proto o).
    { destruct Hkind as [-> | ->].
      - apply server_tun_proto in Hexp. exact Hexp.
      - change (DEV_TYPE_TAP =? DEV_TYPE_TUN) with false in Hexp.
        apply server_tap_fields in Hexp. tauto. }
    destruct (Hfix PROTO_TCPv4_SERVER o2 Ho1 ltac:(discriminate) Hproto)
      as [Hkeep Hset].
    split; [exact Hkeep|]. intros Htcp. split; [intros _; auto | discriminate].
  - destruct (server_bridge_defined o) eqn:Hbridge.
    + apply helper_server_bridge_Ok in Hbranch
        as (_ & _ & _ & _ & _ & _ & _ & Ho1).
      destruct (Hfix _ _ Ho1 ltac:(discriminate) eq_refl) as [Hkeep Hset].
      split; [exact Hkeep|]. intros Htcp.
      split; [intros _; auto | discriminate].
    + destruct (client o) eqn:Hclient.
      * injection Hbranch as <-. unfold helper_client.
        destruct (Hfix PROTO_TCPv4_CLIENT
                    (set_tls_client true (set_pull true o))
                    eq_refl ltac:(discriminate) eq_refl) as [Hkeep Hset].
        split; [exact Hkeep|]. intros Htcp.
        split; [discriminate | intros _; auto].
      * injection Hbranch as <-. split; [reflexivity|]. contradiction.
Qed.

Lemma helper_client_server_proto_witness :
  exists o' : options,
    helper_client_server 16 sample_tcp_client_options = Ok o' /\
    proto o' <> PROTO_TCPv4 /\ proto o' = PROTO_TCPv4_CLIENT.
Proof.
  destruct (helper_client_server 16 sample_tcp_client_options)
    as [o'| | |] eqn:Hrun; try (vm_compute in Hrun; discriminate Hrun).
  exists o'. split; [reflexivity|].
  destruct (helper_client_server_proto 16 sample_tcp_client_options o' Hrun)
    as (Hnot & _ & Htcp).
  split; [exact Hnot|]. exact (proj2 (proj2 (Htcp eq_refl) eq_refl)).
Defined.



(** X19.  A [--server] directive is accepted only with a tun or tap
    device and a subnet whose mask is a prefix of at least the minimum
    length and at most 29 bits, with no bit of the network outside the
    mask. *)
Theorem server_accepted_subnet (min_netbits : Z) (o o' : options)
    (Hserver : server_defined o = true)
    (Hrun : helper_client_server min_netbits o = Ok o') :
  (dev_type_enum (dev o) (dev_type o) = Ok DEV_TYPE_TUN \/
   dev_type_enum (dev o) (dev_type o) = Ok DEV_TYPE_TAP) /\
  exists netbits : Z,
    0 <= netbits <= 29 /\ min_netbits <= netbits /\
    server_netmask o = netbits_to_netmask netbits /\
    Z.land (server_network o) (server_netmask o) = server_network o.
Proof.
  unfold helper_client_server in Hrun.
  apply bind_Ok in Hrun as (dev & Hdev & Hrun). rewrite Hserver in Hrun.
  apply bind_Ok in Hrun as (o1 & Hsrv & _).
  apply helper_server_Ok in Hsrv
    as (_ & _ & _ & _ & Hkind & nb & Hmask & Hnonneg & Hmin & o2 & Hexp & _).
  split; [destruct Hkind as [-> | ->]; [left | right]; exact Hdev|].
  apply netmask_to_netbits_true in Hmask as (Hland & _ & Hprefix).
  exists nb. repeat split; try assumption; try (symmetry; assumption).
  destruct Hkind as [-> | ->].
  - apply server_tun_fields in Hexp. tauto.
  - change (DEV_TYPE_TAP =? DEV_TYPE_TUN) with false in Hexp.
    apply server_tap_fields in Hexp. tauto.
Qed.

Lemma server_accepted_subnet_witness :
  let o := sample_options "tun0" MODE_POINT_TO_POINT true
             (in_addr 10 8 0 0) (in_addr 255 255 255 0) 0 0 in
  server_defined o = true /\
  exists o' : options,
    helper_client_server 16 o = Ok o' /\
    exists netbits : Z,
      0 <= netbits <= 29 /\ 16 <= netbits /\
      server_netmask o = netbits_to_netmask netbits.
Proof.
  intros o. split; [reflexivity|].
  destruct (helper_client_server 16 o) as [o'| | |] eqn:Hrun;
    try (vm_compute in Hrun; discriminate Hrun).
  exists o'. split; [reflexivity|].
  destruct (server_accepted_subnet 16 o o' eq_refl Hrun)
    as (_ & netbits & Hrange & Hmin & Hmask & _).
  exists netbits. split; [exact Hrange|]. split; [exact Hmin | exact Hmask].
Defined.

(** X20.  [helper_keepalive] expands once: when it accepts options that
    carry keepalive parameters, no ping option was set before, the ping
    interval is now the keepalive interval, and a second call on the
    result stops with a usage error. *)
Theorem helper_keepalive_once (o o' : options)
    (Hpresent : keepalive_ping o <> 0 \/ keepalive_timeout o <> 0)
    (Hrun : helper_keepalive o = Ok o') :
  ping_send_timeout o = 0 /\ ping_rec_timeout o = 0 /\
  0 < keepalive_ping o /\ 0 < keepalive_timeout o /\
  ping_send_timeout o' = keepalive_ping o /\
  ping_rec_timeout_action o' = PING_RESTART /\
  exists msg : string, helper_keepalive o' = UsageError msg.
Proof.
  unfold helper_keepalive in Hrun.
  assert (Hguard : truthy (keepalive_ping o) || truthy (keepalive_timeout o)
                   = true)
    by (apply orb_true_iff; rewrite !truthy_true; exact Hpresent).
  rewrite Hguard in Hrun.
  apply usage_if_Ok in Hrun as [Hpos Hrun].
  apply usage_if_Ok in Hrun as [Hratio Hrun].
  apply usage_if_Ok in Hrun as [Hconfl Hrun].
  apply orb_false_iff in Hpos as [Hp Hr].
  apply Z.leb_gt in Hp. apply Z.leb_gt in Hr.
  apply orb_false_iff in Hconfl as [Hps Hpr].
  apply truthy_false in Hps. apply truthy_false in Hpr.
  assert (Hfields : ping_send_timeout o' = keepalive_ping o /\
                    ping_rec_timeout_action o' = PING_RESTART /\
                    keepalive_ping o' = keepalive_ping o /\
                    keepalive_timeout o' = keepalive_timeout o).
  { destruct (mode o =? MODE_POINT_TO_POINT);
      [|destruct (mode o =? MODE_SERVER)]; cbv zeta in Hrun;
      [injection Hrun as <-; repeat split
      |injection Hrun as <-; repeat split
      |discriminate]. }
  destruct Hfields as (Hsend & Haction & Hkp & Hkt).
  repeat split; try assumption.
  unfold helper_keepalive. rewrite Hkp, Hkt, Hguard.
  assert (Hpos : (keepalive_ping o <=? 0) || (keepalive_timeout o <=? 0)
                 = false)
    by (apply orb_false_iff; split; apply Z.leb_gt; assumption).
  rewrite (usage_if_false _ _ _ Hpos), (usage_if_false _ _ _ Hratio).
  eexists. apply usage_if_true. apply orb_true_iff. left.
  apply truthy_true. lia.
Qed.

Lemma helper_keepalive_once_witness :
  let o := sample_options "tun0" MODE_SERVER false 0 0 10 60 in
  keepalive_ping o <> 0 /\
  exists o' : options,
    helper_keepalive o = Ok o' /\
    ping_send_timeout o' = keepalive_ping o /\
    exists msg : string, helper_keepalive o' = UsageError msg.
Proof.
  intros o.
  assert (Hpresent : keepalive_ping o <> 0) by (cbn; lia).
  split; [exact Hpresent|].
  destruct (helper_keepalive o) as [o'| | |] eqn:Hrun;
    try (vm_compute in Hrun; discriminate Hrun).
  exists o'. split; [reflexivity|].
  destruct (helper_keepalive_once o o' (or_introl Hpresent) Hrun)
    as (_ & _ & _ & _ & Hsend & _ & Hsecond).
  split; [exact Hsend | exact Hsecond].
Defined.

End HelperDirectives.

(** ** tun.c: device names *)

Section TunFacts.
Import Libc Tun.
Import Stdlib.Strings.Ascii.

Lemma rindex_None (c : ascii) (s : string) :
  rindex s c = None <-> occurs c s = false.
Proof.
  induction s as [|a rest IH]; cbn [rindex occurs]; [tauto|].
  destruct (rindex rest c) as [p|].
  - split; [discriminate|]. intros H. apply orb_false_iff in H as [_ H].
    apply IH in H. discriminate.
  - assert (Hrest : occurs c rest = false) by (apply IH; reflexivity).
    rewrite Hrest, orb_false_r. destruct (Ascii.eqb a c); split; congruence.
Qed.

(** [rindex] finds the last occurrence. *)
Lemma rindex_Some (c : ascii) (s p : string) :
  rindex s c = Some p ->
  exists (before after : string),
    p = String c after /\ s = (before +:+ p)%string /\
    occurs c after = false.
Proof.
  revert p. induction s as [|a rest IH]; intros p; cbn [rindex];
    [discriminate|].
  destruct (rindex rest c) as [q|] eqn:Hrest.
  - intros Hp. injection Hp as <-.
    destruct (IH q eq_refl) as (before & after & -> & -> & Hafter).
    exists (String a before), after. repeat split; assumption.
  - destruct (Ascii.eqb_spec a c) as [->|]; [|discriminate].
    intros Hp. injection Hp as <-.
    exists EmptyString, rest. repeat split.
    apply rindex_None. exact Hrest.
Qed.

(** X21.  [dev_component_in_dev_node] returns the last path component:
    what it returns is not empty, has no slash in it, and is the whole
    node name when that has no slash, or else what follows its last
    slash; when it returns NULL for a name, the name is empty or ends in
    a slash. *)
Theorem dev_component_is_last (dev_node : string) :
  match dev_component_in_dev_node (Some dev_node) with
  | Some component =>
      component <> EmptyString /\ occurs "/" component = false /\
      (dev_node = component \/
       exists dir : string, dev_node = (dir +:+ "/" +:+ component)%string)
  | None =>
      dev_node = EmptyString \/
      exists dir : string, dev_node = (dir +:+ "/")%string
  end.
Proof.
  unfold dev_component_in_dev_node. cbv zeta.
  destruct (rindex dev_node "/") as [p|] eqn:Hlast.
  - destruct (rindex_Some _ _ _ Hlast) as (before & after & -> & -> & Hafter).
    cbn [not_at_end next_char]. destruct after as [|a after'].
    + right. exists before. reflexivity.
    + cbn [not_at_end]. split; [discriminate|]. split; [exact Hafter|].
      right. exists before. reflexivity.
  - apply rindex_None in Hlast. destruct dev_node as [|a rest].
    + left. reflexivity.
    + cbn [not_at_end]. split; [discriminate|]. split; [exact Hlast|].
      left. reflexivity.
Qed.

Example dev_component_examples :
  dev_component_in_dev_node (Some "/dev/net/tun") = Some "tun"%string /\
  dev_component_in_dev_node (Some "tap0") = Some "tap0"%string /\
  dev_component_in_dev_node (Some "/dev/") = None /\
  dev_component_in_dev_node (Some "") = None /\
  dev_component_in_dev_node None = None.
Proof. repeat split. Qed.

End TunFacts.

(** ** proto.h: the 802.1Q tag fields *)

Section VlanHeader.
Import Libc Proto.

Lemma swapped_bit_range (e : bool) (i : Z) :
  0 <= i < 16 -> 0 <= swapped_bit e i < 16.
Proof.
  unfold swapped_bit. destruct e; [lia|]. destruct (Z.ltb_spec i 8); lia.
Qed.

Lemma swapped_bit_twice (e : bool) (i : Z) :
  0 <= i < 16 -> swapped_bit e (swapped_bit e i) = i.
Proof.
  unfold swapped_bit. destruct e; [reflexivity|]. intros Hi.
  destruct (Z.ltb_spec i 8).
  - destruct (Z.ltb_spec (i + 8) 8); lia.
  - destruct (Z.ltb_spec (i - 8) 8); lia.
Qed.

Lemma testbit_255 (i : Z) : 0 <= i -> Z.testbit 255 i = (i <? 8).
Proof.
  intros Hi. change 255 with (Z.ones 8).
  apply Z.testbit_ones_nonneg; lia.
Qed.

(** [htons] bit by bit. *)
Lemma htons_bits (e : bool) (x i : Z) :
  0 <= i ->
  Z.testbit (htons e x) i = (i <? 16) && Z.testbit x (swapped_bit e i).
Proof.
  intros Hi. unfold htons, swapped_bit. destruct e.
  - unfold wrap_u16. destruct (Z.ltb_spec i 16).
    + rewrite Z.mod_pow2_bits_low by lia. reflexivity.
    + rewrite Z.mod_pow2_bits_high by lia. reflexivity.
  - unfold bswap_16.
    rewrite Z.lor_spec, Z.land_spec, Z.shiftr_spec, testbit_255 by lia.
    rewrite Z.shiftl_spec by lia.
    destruct (Z.ltb_spec i 8).
    + rewrite Z.testbit_neg_r by lia.
      destruct (Z.ltb_spec i 16); [|lia]. cbn. apply andb_true_r.
    + rewrite Z.land_spec, testbit_255 by lia. rewrite andb_false_r, orb_false_r.
      destruct (Z.ltb_spec (i - 8) 8), (Z.ltb_spec i 16); try lia;
        cbn; auto using andb_true_r, andb_false_r.
Qed.

Lemma testbit_u16_high (x i : Z) :
  0 <= x < 2 ^ 16 -> 16 <= i -> Z.testbit x i = false.
Proof.
  intros Hx Hi. rewrite <- (Z.mod_small x (2 ^ 16)) by exact Hx.
  apply Z.mod_pow2_bits_high. lia.
Qed.

(** Reading a field: the mask is applied to the host-order value. *)
Lemma ntohs_masked (e : bool) (f m : Z) :
  ntohs e (Z.land f (htons e m)) = Z.land (ntohs e f) m.
Proof.
  unfold ntohs. apply Z.bits_inj'. intros i Hi.
  rewrite Z.land_spec, !(htons_bits e _ i), Z.land_spec by lia.
  destruct (Z.ltb_spec i 16) as [Hlt|Hge]; [|reflexivity].
  pose proof (swapped_bit_range e i ltac:(lia)) as Hr.
  rewrite htons_bits by lia. rewrite swapped_bit_twice by lia.
  destruct (Z.ltb_spec (swapped_bit e i) 16); [|lia]. reflexivity.
Qed.

(** Writing a field: in host order, the bits of the mask are replaced. *)
Lemma ntohs_replaced (e : bool) (f v m : Z) :
  0 <= m < 2 ^ 16 ->
  ntohs e (wrap_u16 (Z.lor (Z.land f (Z.lnot (htons e m)))
                           (Z.land (htons e v) (htons e m)))) =
  Z.lor (Z.land (ntohs e f) (Z.lnot m)) (Z.land v m).
Proof.
  intros Hm. unfold ntohs. apply Z.bits_inj'. intros i Hi.
  rewrite Z.lor_spec, !Z.land_spec, Z.lnot_spec, !(htons_bits e _ i) by lia.
  destruct (Z.ltb_spec i 16) as [Hlt|Hge].
  - pose proof (swapped_bit_range e i ltac:(lia)) as Hr.
    pose proof (swapped_bit_twice e i ltac:(lia)) as Ht.
    unfold wrap_u16. rewrite Z.mod_pow2_bits_low by lia.
    rewrite Z.lor_spec, !Z.land_spec, Z.lnot_spec, !htons_bits by lia.
    rewrite Ht. destruct (Z.ltb_spec (swapped_bit e i) 16); [|lia].
    reflexivity.
  - rewrite (testbit_u16_high m i) by lia. cbn.
    rewrite !andb_false_r. reflexivity.
Qed.

Lemma field_get_set (f v m1 m2 : Z) :
  Z.land (Z.lor (Z.land f (Z.lnot m2)) (Z.land v m2)) m1 =
  Z.lor (Z.land f (Z.land (Z.lnot m2) m1)) (Z.land v (Z.land m2 m1)).
Proof. rewrite Z.land_lor_distr_l, <- !Z.land_assoc. reflexivity. Qed.

Ltac vlan_get_set :=
  unfold vlanhdr_get_pcp, vlanhdr_get_cfi, vlanhdr_get_vid,
    vlanhdr_set_pcp, vlanhdr_set_cfi, vlanhdr_set_vid,
    OPENVPN_8021Q_MASK_PCP, OPENVPN_8021Q_MASK_CFI, OPENVPN_8021Q_MASK_VID;
  cbn [pcp_cfi_vid set_pcp_cfi_vid];
  rewrite ?ntohs_masked, ?ntohs_replaced by (cbn; lia);
  rewrite ?field_get_set.

(** X22.  On a host of either byte order the three getters return the
    host-order value of the tag word under the field's mask: the
    priority and the CFI bit stay at their place in the word (bits 13 to
    15 and bit 12), they are not shifted down. *)
Theorem vlanhdr_get_host_order (big_endian : bool) (hdr : openvpn_8021qhdr) :
  let word := ntohs big_endian (pcp_cfi_vid hdr) in
  vlanhdr_get_pcp big_endian hdr = Z.land word 0xE000 /\
  vlanhdr_get_cfi big_endian hdr = Z.land word 0x1000 /\
  vlanhdr_get_vid big_endian hdr = Z.land word 0x0FFF.
Proof. cbv zeta. repeat split; vlan_get_set; reflexivity. Qed.

(** X23.  What a setter stores is read back by its getter, cut to the
    bits of the field: the VID comes back modulo 4096, and of the
    argument of [vlanhdr_set_pcp] only bits 13 to 15 are kept, of that
    of [vlanhdr_set_cfi] only bit 12. *)
Theorem vlanhdr_set_get (big_endian : bool) (hdr : openvpn_8021qhdr) (v : Z) :
  vlanhdr_get_vid big_endian (vlanhdr_set_vid big_endian hdr v) = v mod 4096 /\
  vlanhdr_get_pcp big_endian (vlanhdr_set_pcp big_endian hdr v) = Z.land v 0xE000 /\
  vlanhdr_get_cfi big_endian (vlanhdr_set_cfi big_endian hdr v) = Z.land v 0x1000.
Proof.
  repeat split; vlan_get_set.
  - change (Z.land (Z.lnot 0x0FFF) 0x0FFF) with 0.
    change (Z.land 0x0FFF 0x0FFF) with (Z.ones 12).
    rewrite Z.land_0_r, Z.lor_0_l, Z.land_ones by lia. reflexivity.
  - change (Z.land (Z.lnot 0xE000) 0xE000) with 0.
    change (Z.land 0xE000 0xE000) with 0xE000.
    rewrite Z.land_0_r, Z.lor_0_l. reflexivity.
  - change (Z.land (Z.lnot 0x1000) 0x1000) with 0.
    change (Z.land 0x1000 0x1000) with 0x1000.
    rewrite Z.land_0_r, Z.lor_0_l. reflexivity.
Qed.

(** X24.  A setter changes its own field only: the other two fields read
    as before, and the addresses, the TPID and the protocol of the
    header are untouched. *)
Theorem vlanhdr_set_other_fields (big_endian : bool) (hdr : openvpn_8021qhdr) (v : Z) :
  let get_pcp := vlanhdr_get_pcp big_endian in
  let get_cfi := vlanhdr_get_cfi big_endian in
  let get_vid := vlanhdr_get_vid big_endian in
  let set_pcp := vlanhdr_set_pcp big_endian hdr v in
  let set_cfi := vlanhdr_set_cfi big_endian hdr v in
  let set_vid := vlanhdr_set_vid big_endian hdr v in
  (get_cfi set_pcp = get_cfi hdr /\ get_vid set_pcp = get_vid hdr) /\
  (get_pcp set_cfi = get_pcp hdr /\ get_vid set_cfi = get_vid hdr) /\
  (get_pcp set_vid = get_pcp hdr /\ get_cfi set_vid = get_cfi hdr) /\
  Forall (fun hdr' => dest hdr' = dest hdr /\ source hdr' = source hdr /\
                      tpid hdr' = tpid hdr /\ proto hdr' = proto hdr)
         [set_pcp; set_cfi; set_vid].
Proof.
  cbv zeta.
  repeat match goal with |- _ /\ _ => split end;
    try (vlan_get_set;
         match goal with
         | |- Z.lor (Z.land _ (Z.land (Z.lnot ?m2) ?m1)) (Z.land _ (Z.land ?m2 ?m1)) = _ =>
             change (Z.land (Z.lnot m2) m1) with m1;
             change (Z.land m2 m1) with 0
         end;
         rewrite Z.land_0_r, Z.lor_0_r; reflexivity).
  repeat constructor.
Qed.

End VlanHeader.

(** ** Instances of the properties above *)

Section MoreWitnesses.
Import Libc Mroute Multi MultiFastIo Samples.

Lemma mroute_addr_equal_equivalence_witness :
  mroute_addr_equal (ipv4_key 10 8 0 6 4 170) (ipv4_key 10 8 0 6 4 170)
  = Ok true /\
  mroute_addr_equal (ipv4_key 10 8 0 6 4 170) (ipv4_key_dirty 10 8 0 6 4 170)
  = mroute_addr_equal (ipv4_key_dirty 10 8 0 6 4 170) (ipv4_key 10 8 0 6 4 170).
Proof.
  assert (Hwf1 : wf_mroute_addr (ipv4_key 10 8 0 6 4 170))
    by (split; [reflexivity | unfold MR_MAX_ADDR_LEN; simpl; lia]).
  assert (Hwf2 : wf_mroute_addr (ipv4_key_dirty 10 8 0 6 4 170))
    by (split; [reflexivity | unfold MR_MAX_ADDR_LEN; simpl; lia]).
  assert (Hwf3 : wf_mroute_addr (ipv4_key 10 8 0 6 4 171))
    by (split; [reflexivity | unfold MR_MAX_ADDR_LEN; simpl; lia]).
  destruct (mroute_addr_equal_equivalence _ _ _ Hwf1 Hwf2 Hwf3)
    as (Hrefl & Hsym & _).
  split; [exact Hrefl | exact Hsym].
Defined.

Lemma mroute_extract_in_addr_t_equal_witness :
  len (mroute_extract_in_addr_t (ipv4_key 10 8 0 6 4 170) 0x0A080006) = 4 /\
  exists b : bool,
    mroute_addr_equal
      (mroute_extract_in_addr_t (ipv4_key 10 8 0 6 4 170) 0x0A080006)
      (mroute_extract_in_addr_t (ipv4_key_dirty 192 0 2 1 0 0) 0x0A080006)
    = Ok b /\
    (b = true <-> 0x0A080006 = 0x0A080006).
Proof.
  assert (Hwf1 : wf_mroute_addr (ipv4_key 10 8 0 6 4 170))
    by (split; [reflexivity | unfold MR_MAX_ADDR_LEN; simpl; lia]).
  assert (Hwf2 : wf_mroute_addr (ipv4_key_dirty 192 0 2 1 0 0))
    by (split; [reflexivity | unfold MR_MAX_ADDR_LEN; simpl; lia]).
  destruct (mroute_extract_in_addr_t_equal _ _ 0x0A080006 0x0A080006
              Hwf1 Hwf2 ltac:(lia) ltac:(lia))
    as (_ & _ & Hlen & Hequal).
  split; [exact Hlen | exact Hequal].
Defined.

Lemma sample_defer_inv : defer_inv 4 sample_defer.
Proof.
  unfold defer_inv, sample_defer. cbn [mpd queued n list].
  change (Z.to_nat 1) with 1%nat. cbn [take].
  split; [reflexivity|]. split; [lia|].
  split; [unfold INT_MAX; lia|]. split; [apply NoDup_singleton|].
  intros mi. rewrite list_elem_of_singleton. split.
  - intros ->. exists 100. split; [reflexivity | apply lookup_insert_eq].
  - intros (a & -> & Hq). destruct (Z.eq_dec a 100) as [->|Hne]; [reflexivity|].
    rewrite lookup_insert_ne in Hq by congruence.
    destruct (Z.eq_dec a 101) as [->|Hne'].
    + rewrite lookup_insert_eq in Hq. discriminate.
    + rewrite lookup_insert_ne, lookup_empty in Hq by congruence. discriminate.
Qed.

Lemma defer_add_keeps_queue_witness :
  exists s' : defer_state,
    multi_postprocess_defer_add 4 sample_defer (Some 101) = Ok s' /\
    n (mpd s') = 2 /\
    take (Z.to_nat (n (mpd s'))) (list (mpd s')) = [Some 100; Some 101].
Proof.
  destruct (defer_add_keeps_queue 4 8 sample_defer 101 false true
              sample_defer_inv ltac:(vm_compute; reflexivity) eq_refl)
    as (s' & Hrun & _ & _ & _ & Hnew).
  destruct (Hnew eq_refl) as [Hn Hlist].
  exists s'. split; [exact Hrun|]. split; [exact Hn | exact Hlist].
Defined.

Lemma defer_get_keeps_queue_witness :
  exists (a : Z) (s' : defer_state),
    multi_postprocess_defer_get sample_defer = Ok (Some a, s') /\
    n (mpd s') = 0 /\
    queued s' = <[a := false]> (queued sample_defer).
Proof.
  destruct (defer_get_keeps_queue 4 sample_defer sample_defer_inv)
    as [_ Hget].
  destruct (Hget ltac:(cbn; lia)) as (a & s' & Hrun & _ & Hn & _ & _ & Hq).
  exists a, s'. split; [exact Hrun|]. split; [exact Hn | exact Hq].
Defined.

End MoreWitnesses.
